(** * EduHub backend: enrollment, reviews, catalogue queries, access control

    A shallow embedding of the Mongoose models ([models/Course.js],
    [models/User.js]), the JWT middleware ([middleware/auth.js]) and the
    Express route handlers (course and auth routers) of the EduHub
    backend, together with the properties stated for them.

    Conventions of the embedding.
    - A string holds the UTF-8 encoding of the JavaScript string.
    - An [ObjectId] is its 24-digit hexadecimal string, in lower case as
      [toString()] prints it: every comparison in the source goes through
      [toString()] or through Mongoose's [includes], which compares
      identifiers by value. A request parameter becomes an identifier
      by Mongoose's cast, a parameter of the routes.
    - A collection is a finite map from [_id] to document: a document's
      [_id] is the key that holds it, so [course._id] is the key that
      [findById] was called with. [save()] writes the document back under
      that key.
    - JavaScript numbers that hold counts, ratings and timestamps are
      integers; the rating average and prices are exact rationals.
    - Stored documents satisfy their schema, as documents written
      through the models do: saving one back does not fail validation.
    - An exception thrown inside a handler's [try] block reaches its
      [catch], which answers 500; writes done before the throw stay. *)

From Stdlib Require Import ZArith QArith Qround String Ascii.
From stdpp Require Import gmap strings list fin_maps sorting.

Local Open Scope string_scope.
Local Open Scope Z_scope.
Local Open Scope list_scope.

Abbreviation ObjectId := string (only parsing).

(** ** Request validation (express-validator) and string helpers *)

(** The white space that [trim] removes is the white space of
    JavaScript: tab to carriage return and the space, and, in two or three
    bytes of UTF-8, U+00A0, U+1680, U+2000 to U+200A, U+2028, U+2029,
    U+202F, U+205F, U+3000 and U+FEFF. *)
Definition is_space (a : ascii) : bool :=
  let n := nat_of_ascii a in
  ((9 <=? n) && (n <=? 13) || (n =? 32))%nat.

Definition is_space2 (a b : ascii) : bool :=
  ((nat_of_ascii a =? 194) && (nat_of_ascii b =? 160))%nat.

Definition is_space3 (a b c : ascii) : bool :=
  let '(x, y, z) := (nat_of_ascii a, nat_of_ascii b, nat_of_ascii c) in
  ((x =? 225) && (y =? 154) && (z =? 128)
   || (x =? 226) && (y =? 128)
      && ((128 <=? z) && (z <=? 138) || (z =? 168) || (z =? 169) || (z =? 175))
   || (x =? 226) && (y =? 129) && (z =? 159)
   || (x =? 227) && (y =? 128) && (z =? 128)
   || (x =? 239) && (y =? 187) && (z =? 191))%nat.

Fixpoint trim_start (s : string) : string :=
  match s with
  | EmptyString => EmptyString
  | String a r =>
    if is_space a then trim_start r
    else
      match r with
      | EmptyString => s
      | String b r1 =>
        if is_space2 a b then trim_start r1
        else
          match r1 with
          | EmptyString => s
          | String c r2 => if is_space3 a b c then trim_start r2 else s
          end
      end
  end.

(** The string without its last run of white space: it ends where
    nothing but white space follows. *)
Fixpoint trim_end (s : string) : string :=
  match s with
  | EmptyString => EmptyString
  | String a r =>
    match trim_start s with
    | EmptyString => EmptyString
    | _ => String a (trim_end r)
    end
  end.

(** [.trim()] *)
Definition trim (s : string) : string := trim_end (trim_start s).

(** A byte that continues a code point of the UTF-8 encoding. *)
Definition is_continuation (a : ascii) : bool :=
  let n := nat_of_ascii a in ((128 <=? n) && (n <? 192))%nat.

(** The number of code points of a string. *)
Fixpoint codePoints (s : string) : nat :=
  match s with
  | EmptyString => 0
  | String a r => ((if is_continuation a then 0 else 1) + codePoints r)%nat
  end.

(** [s.length], the number of UTF-16 code units: a code point beyond
    U+FFFF (four bytes, the first one 240 or more) takes two. *)
Fixpoint jsLength (s : string) : nat :=
  match s with
  | EmptyString => 0
  | String a r =>
    ((if is_continuation a then 0
      else if (240 <=? nat_of_ascii a)%nat then 2 else 1) + jsLength r)%nat
  end.

(** The number of variation selectors U+FE0E and U+FE0F (bytes 239, 184,
    then 142 or 143). *)
Fixpoint variationSelectors (s : string) : nat :=
  match s with
  | EmptyString => 0
  | String a r =>
    ((match r with
      | String b (String c _) =>
        if ((nat_of_ascii a =? 239) && (nat_of_ascii b =? 184)
            && ((nat_of_ascii c =? 142) || (nat_of_ascii c =? 143)))%nat
        then 1 else 0
      | _ => 0
      end) + variationSelectors r)%nat
  end.

(** validator.js [isLength({ min, max })]: it counts [s.length] less the
    surrogate pairs and the variation selectors, that is, the code
    points that are not variation selectors. *)
Definition isLength (min : nat) (max : option nat) (s : string) : bool :=
  let len := (codePoints s - variationSelectors s)%nat in
  bool_decide (min ≤ len)%nat && from_option (λ m, bool_decide (len ≤ m)%nat) true max.

Definition digit_of (a : ascii) : option Z :=
  let n := nat_of_ascii a in
  if ((48 <=? n) && (n <=? 57))%nat then Some (Z.of_nat n - 48) else None.

(** The value of a string of decimal digits, most significant first. *)
Fixpoint digits (acc : Z) (s : string) : option Z :=
  match s with
  | EmptyString => Some acc
  | String a r =>
    match digit_of a with
    | Some d => digits (10 * acc + d) r
    | None => None
    end
  end.

(** One decimal digit or more; leading zeroes are allowed, as validator.js
    allows them unless [allow_leading_zeroes] is switched off. *)
Definition unsigned_int (s : string) : option Z :=
  match s with
  | EmptyString => None
  | _ => digits 0 s
  end.

(** validator.js integers (an optional sign, then digits), with the
    integer they denote. *)
Definition parse_int (s : string) : option Z :=
  match s with
  | String "+" r => unsigned_int r
  | String "-" r => Z.opp <$> unsigned_int r
  | _ => unsigned_int s
  end.

(** [isInt({ min, max })] *)
Definition isInt (min : Z) (max : option Z) (s : string) : bool :=
  match parse_int s with
  | Some z => (min <=? z) && from_option (λ m, z <=? m) true max
  | None => false
  end.

(** The part of [s] before the first ["."] and, when there is one, the
    part after it. *)
Fixpoint split_dot (s : string) : string * option string :=
  match s with
  | EmptyString => (EmptyString, None)
  | String "." r => (EmptyString, Some r)
  | String a r => let '(i, f) := split_dot r in (String a i, f)
  end.

Definition unsigned_decimal (s : string) : option Q :=
  match split_dot s with
  | (EmptyString, None) => None
  | (i, None) => inject_Z <$> digits 0 i
  | (_, Some EmptyString) => None
  | (i, Some f) =>
    match digits 0 i, digits 0 f with
    | Some a, Some b =>
      Some (inject_Z a + inject_Z b / inject_Z (10 ^ Z.of_nat (String.length f)))%Q
    | _, _ => None
    end
  end.

(** validator.js numerics (an optional sign, optional digits and a dot,
    then at least one digit), with the value that [parseFloat] reads. *)
Definition parse_decimal (s : string) : option Q :=
  match s with
  | String "+" r => unsigned_decimal r
  | String "-" r => Qopp <$> unsigned_decimal r
  | _ => unsigned_decimal s
  end.

Definition isNumeric (s : string) : bool := bool_decide (is_Some (parse_decimal s)).

(** The integer that a string that passed [isInt] denotes. [Number(s)]
    and [parseInt(s)] return it as long as a double holds it exactly,
    which it does below [2 ^ 53]: always for a field validated with a
    maximum ([limit], [rating]). *)
Definition toNumber (s : string) : Z := default 0 (parse_int s).

(** The double nearest to a non-negative integer, ties going to the even
    significand; [None] is [Infinity]. Doubles have 53 significant bits
    and end below [2 ^ 1024]. *)
Definition toDouble (n : Z) : option Z :=
  if n <? 2 ^ 53 then Some n
  else
    let e := Z.log2 n - 52 in
    let q := Z.shiftr n e in
    let r := n - Z.shiftl q e in
    let half := Z.shiftl 1 (e - 1) in
    let q' := if (half <? r) || ((r =? half) && Z.odd q) then q + 1 else q in
    if Z.shiftl q' e <? 2 ^ 1024 then Some (Z.shiftl q' e) else None.

(** [Number(s)] and [parseInt(s)] on a string that passed [isInt] with a
    minimum that is not negative and no maximum ([page]). *)
Definition parseInt (s : string) : option Z := toDouble (toNumber s).

(** [parseFloat(s)] on a string that passed [isNumeric]. *)
Definition parseFloat (s : string) : Q := default 0%Q (parse_decimal s).

(** One validation chain: [optional()] skips an absent field. *)
Definition check_optional (ok : string → bool) (msg : string)
    (field : option string) : list string :=
  match field with
  | Some v => if ok v then [] else [msg]
  | None => []
  end.

(** [errors.array().map(err => err.msg).join(', ')] *)
Definition join_errors (errors : list string) : string :=
  String.concat ", " errors.

(** ** models/Course.js *)

(** The embedded [reviews] sub-document. *)
Module Review.
Record t := mk {
  user : ObjectId;
  rating : Z;
  comment : option string;
  createdAt : Z
}.
End Review.

(** The derived aggregate [rating: { average, count }]. *)
Record Rating := mkRating {
  average : Q;
  count : nat
}.

Module Course.
Record t := mk {
  title : string;
  description : string;
  instructor : string;
  instructorId : option ObjectId;   (* required: false *)
  category : string;
  level : string;
  price : Q;
  tags : list string;
  enrolledStudents : list ObjectId;
  rating : Rating;
  reviews : list Review.t;
  isPublished : bool;
  isFeatured : bool;
  createdAt : Z
}.

Definition set_enrolledStudents (this : t) (l : list ObjectId) : t :=
  mk (title this) (description this) (instructor this)
     (instructorId this) (category this) (level this) (price this)
     (tags this) l (rating this) (reviews this)
     (isPublished this) (isFeatured this) (createdAt this).

Definition set_reviews (this : t) (rs : list Review.t) (r : Rating) : t :=
  mk (title this) (description this) (instructor this)
     (instructorId this) (category this) (level this) (price this)
     (tags this) (enrolledStudents this) r rs
     (isPublished this) (isFeatured this) (createdAt this).

Definition set_title (this : t) (s : string) : t :=
  mk s (description this) (instructor this)
     (instructorId this) (category this) (level this) (price this)
     (tags this) (enrolledStudents this) (rating this) (reviews this)
     (isPublished this) (isFeatured this) (createdAt this).

(** [courseSchema.methods.enrollStudent] *)
Definition enrollStudent (this : t) (studentId : ObjectId) : t :=
  if decide (studentId ∈ enrolledStudents this) then this
  else set_enrolledStudents this (enrolledStudents this ++ [studentId]).

(** [courseSchema.methods.unenrollStudent] *)
Definition unenrollStudent (this : t) (studentId : ObjectId) : t :=
  set_enrolledStudents this
    (filter (λ id, id ≠ studentId) (enrolledStudents this)).

(** [courseSchema.methods.addReview]; [now] is the [Date.now] default
    of the pushed review's [createdAt]. *)
Definition addReview (this : t) (now : Z)
    (userId : ObjectId) (rating : Z) (comment : option string) : t :=
  let reviews1 :=
    filter (λ review, Review.user review ≠ userId) (reviews this) in
  let reviews2 := reviews1 ++ [Review.mk userId rating comment now] in
  let totalRating :=
    foldl (λ sum review, sum + Review.rating review) 0 reviews2 in
  set_reviews this reviews2
    (mkRating
       (inject_Z totalRating / inject_Z (Z.of_nat (length reviews2)))%Q
       (length reviews2)).
End Course.

(** ** Review sequences *)

(** One call [course.addReview(userId, rating, comment)] at clock [now]. *)
Record ReviewOp := mkReviewOp {
  op_now : Z;
  op_user : ObjectId;
  op_rating : Z;
  op_comment : option string
}.

Definition applyReview (c : Course.t) (op : ReviewOp) : Course.t :=
  Course.addReview c (op_now op) (op_user op) (op_rating op) (op_comment op).

Definition addReviews (c : Course.t) (ops : list ReviewOp) : Course.t :=
  foldl applyReview c ops.

(** The arithmetic mean of a list of ratings, as a rational. *)
Definition arithmetic_mean (l : list Z) : Q :=
  (foldr Qplus 0%Q (inject_Z <$> l) / inject_Z (Z.of_nat (length l)))%Q.

(** The reviews that [u] authored. *)
Definition reviewsBy (u : ObjectId) (c : Course.t) : list Review.t :=
  filter (λ review, Review.user review = u) (Course.reviews c).

(** ** models/User.js *)

Inductive Role := student | instructor | admin.

Global Instance Role_eq_dec : EqDecision Role.
Proof. solve_decision. Defined.

Module User.
Record t := mk {
  name : string;
  email : string;
  password : option string;          (* select: false *)
  role : Role;
  enrolledCourses : list ObjectId;
  completedCourses : list ObjectId;
  isActive : bool;
  lastLogin : option Z
}.

Definition set_enrolledCourses (this : t) (l : list ObjectId) : t :=
  mk (name this) (email this) (password this) (role this)
     l (completedCourses this) (isActive this) (lastLogin this).

Definition set_completedCourses (this : t) (l : list ObjectId) : t :=
  mk (name this) (email this) (password this) (role this)
     (enrolledCourses this) l (isActive this) (lastLogin this).

Definition set_password (this : t) (p : option string) : t :=
  mk (name this) (email this) p (role this)
     (enrolledCourses this) (completedCourses this)
     (isActive this) (lastLogin this).

Definition set_lastLogin (this : t) (d : option Z) : t :=
  mk (name this) (email this) (password this) (role this)
     (enrolledCourses this) (completedCourses this) (isActive this) d.

Definition set_isActive (this : t) (b : bool) : t :=
  mk (name this) (email this) (password this) (role this)
     (enrolledCourses this) (completedCourses this) b (lastLogin this).

(** [userSchema.methods.enrollInCourse] *)
Definition enrollInCourse (this : t) (courseId : ObjectId) : t :=
  if decide (courseId ∈ enrolledCourses this) then this
  else set_enrolledCourses this (enrolledCourses this ++ [courseId]).

(** [userSchema.methods.unenrollFromCourse] *)
Definition unenrollFromCourse (this : t) (courseId : ObjectId) : t :=
  set_enrolledCourses this
    (filter (λ id, id ≠ courseId) (enrolledCourses this)).

(** [userSchema.methods.completeCourse] *)
Definition completeCourse (this : t) (courseId : ObjectId) : t :=
  if decide (courseId ∈ completedCourses this) then this
  else set_completedCourses this (completedCourses this ++ [courseId]).

(** [userSchema.methods.updateLastLogin] *)
Definition updateLastLogin (this : t) (now : Z) : t :=
  set_lastLogin this (Some now).
End User.

(** ** The database and HTTP replies *)

Record DB := mkDB {
  users : gmap string User.t;
  courses : gmap string Course.t
}.

Definition saveCourse (db : DB) (id : ObjectId) (c : Course.t) : DB :=
  mkDB (users db) (<[id := c]> (courses db)).

Definition saveUser (db : DB) (id : ObjectId) (u : User.t) : DB :=
  mkDB (<[id := u]> (users db)) (courses db).

(** [res.status(code).json(...)]: a success payload, or [{ error }]. *)
Inductive Reply (A : Type) :=
  | Ok (code : Z) (payload : A)
  | Err (code : Z) (error : string).
Arguments Ok {A} code payload.
Arguments Err {A} code error.

(** [req.user] as [protect] leaves it: the account and its identifier. *)
Record ReqUser := mkReqUser {
  id : ObjectId;
  account : User.t
}.

(** The lists the enrollment properties speak about; a missing document
    has none. *)
Definition enrolledStudentsOf (db : DB) (courseId : ObjectId) : list ObjectId :=
  from_option Course.enrolledStudents [] (courses db !! courseId).

Definition enrolledCoursesOf (db : DB) (userId : ObjectId) : list ObjectId :=
  from_option User.enrolledCourses [] (users db !! userId).

Definition completedCoursesOf (db : DB) (userId : ObjectId) : list ObjectId :=
  from_option User.completedCourses [] (users db !! userId).

(** ** Course routes: enrollment, completion, reviews

    The handlers read [req.params.id] through Mongoose only, which casts
    it to an ObjectId first: they are written from the identifier that
    the cast gave. The cast and its failure are [withCourseId] below. *)

Record CourseSummary := mkCourseSummary {
  summary_id : ObjectId;
  summary_title : string;
  summary_instructor : string
}.

(** [POST /api/courses/:id/enroll], after [protect]. *)
Definition enroll (db : DB) (courseId : ObjectId) (user : ReqUser)
    : Reply CourseSummary * DB :=
  match courses db !! courseId with
  | None => (Err 404 "Course not found", db)
  | Some course =>
    if negb (Course.isPublished course) then (Err 404 "Course not found", db)
    else if decide (id user ∈ Course.enrolledStudents course)
    then (Err 400 "Already enrolled in this course", db)
    else
      let db1 := saveCourse db courseId (Course.enrollStudent course (id user)) in
      match users db1 !! id user with
      | None => (Err 500 "Server error while enrolling in course", db1)
      | Some u =>
        (Ok 200 (mkCourseSummary courseId (Course.title course)
                   (Course.instructor course)),
         saveUser db1 (id user) (User.enrollInCourse u courseId))
      end
  end.

(** [DELETE /api/courses/:id/enroll], after [protect]. *)
Definition unenroll (db : DB) (courseId : ObjectId) (user : ReqUser)
    : Reply unit * DB :=
  match courses db !! courseId with
  | None => (Err 404 "Course not found", db)
  | Some course =>
    if decide (id user ∈ Course.enrolledStudents course) then
      let db1 := saveCourse db courseId (Course.unenrollStudent course (id user)) in
      match users db1 !! id user with
      | None => (Err 500 "Server error while unenrolling from course", db1)
      | Some u =>
        (Ok 200 (), saveUser db1 (id user) (User.unenrollFromCourse u courseId))
      end
    else (Err 400 "Not enrolled in this course", db)
  end.

(** [POST /api/courses/:id/complete], after [protect]; the payload is
    [completedAt], the clock reading [now]. *)
Definition complete (db : DB) (now : Z) (courseId : ObjectId) (user : ReqUser)
    : Reply Z * DB :=
  match courses db !! courseId with
  | None => (Err 404 "Course not found", db)
  | Some course =>
    if decide (id user ∈ Course.enrolledStudents course) then
      match users db !! id user with
      | None => (Err 500 "Server error while marking course as completed", db)
      | Some u =>
        if decide (courseId ∈ User.completedCourses u)
        then (Err 400 "Course already completed", db)
        else (Ok 200 now, saveUser db (id user) (User.completeCourse u courseId))
      end
    else (Err 400 "Must be enrolled to complete this course", db)
  end.

(** The validation chains of the review route, in order. *)
Definition reviewErrors (rating : string) (comment : option string)
    : list string :=
  (if isInt 1 (Some 5) rating then [] else ["Rating must be between 1 and 5"])
  ++ check_optional (λ c, isLength 0 (Some 500%nat) (trim c))
       "Comment cannot exceed 500 characters" comment.

(** [POST /api/courses/:id/reviews], after [protect]; [rating] is the
    request's raw field (empty when absent), the payload the new aggregate.
    The save validates the new review: the schema's [maxlength] of the
    comment counts [comment.length], which can pass 500 where the
    count of [isLength] does not. *)
Definition postReview (db : DB) (now : Z) (courseId : ObjectId) (user : ReqUser)
    (rating : string) (comment : option string) : Reply Rating * DB :=
  let errors := reviewErrors rating comment in
  match errors with
  | _ :: _ => (Err 400 (join_errors errors), db)
  | [] =>
    match courses db !! courseId with
    | None => (Err 404 "Course not found", db)
    | Some course =>
      if negb (Course.isPublished course) then (Err 404 "Course not found", db)
      else if decide (id user ∈ Course.enrolledStudents course) then
        if bool_decide (from_option jsLength 0%nat (trim <$> comment) ≤ 500)%nat
        then
          let course' :=
            Course.addReview course now (id user) (toNumber rating)
              (trim <$> comment) in
          (Ok 200 (Course.rating course'), saveCourse db courseId course')
        else (Err 500 "Server error while adding review", db)
      else (Err 400 "Must be enrolled to review this course", db)
    end
  end.

(** ** Catalogue queries *)

(** The paths a query sorts on. [ByRating] is the embedded document
    [rating], [ByRatingAverage] the number [rating.average]. *)
Inductive SortField :=
  | ByCreatedAt | ByPrice | ByTitle
  | ByRating | ByRatingAverage | ByRatingCount.

(** A sort specification: each path with [true] for descending ([-1], or
    a leading [-]) and [false] for ascending. *)
Abbreviation SortSpec := (list (SortField * bool)).

(** MongoDB orders embedded documents field by field, in stored order:
    [rating] documents by [average], then by [count]. *)
Definition compareRating (a b : Rating) : comparison :=
  match (average a ?= average b)%Q with
  | Eq => Nat.compare (count a) (count b)
  | c => c
  end.

Definition compareField (f : SortField) (a b : Course.t) : comparison :=
  match f with
  | ByCreatedAt => Course.createdAt a ?= Course.createdAt b
  | ByPrice => (Course.price a ?= Course.price b)%Q
  | ByTitle => String.compare (Course.title a) (Course.title b)
  | ByRating => compareRating (Course.rating a) (Course.rating b)
  | ByRatingAverage =>
      (average (Course.rating a) ?= average (Course.rating b))%Q
  | ByRatingCount =>
      Nat.compare (count (Course.rating a)) (count (Course.rating b))
  end.

Fixpoint compareSpec (spec : SortSpec) (a b : Course.t) : comparison :=
  match spec with
  | [] => Eq
  | (f, descending) :: rest =>
    match (if descending : bool then CompOpp else λ c, c) (compareField f a b) with
    | Eq => compareSpec rest a b
    | c => c
    end
  end.

(** [a] may come before [b] in the order of [spec]. *)
Definition sortLe (spec : SortSpec) (a b : ObjectId * Course.t) : Prop :=
  compareSpec spec a.2 b.2 ≠ Gt.

Global Instance sortLe_dec spec a b : Decision (sortLe spec a b).
Proof. unfold sortLe. apply _. Defined.

(** [.sort(spec)] *)
Definition sortCourses (spec : SortSpec) (l : list (ObjectId * Course.t))
    : list (ObjectId * Course.t) :=
  merge_sort (sortLe spec) l.

(** [Course.find(query)]: the documents that satisfy the query. *)
Definition find (query : Course.t → bool) (db : DB)
    : list (ObjectId * Course.t) :=
  filter (λ d, query d.2 = true) (map_to_list (courses db)).

(** [courseSchema.statics.getFeatured] *)
Definition getFeatured (db : DB) : list (ObjectId * Course.t) :=
  take 6 (sortCourses [(ByCreatedAt, true)]
            (find (λ c, Course.isFeatured c && Course.isPublished c) db)).

(** [courseSchema.statics.getByCategory] *)
Definition getByCategory (db : DB) (category : string)
    : list (ObjectId * Course.t) :=
  sortCourses [(ByRating, true); (ByCreatedAt, true)]
    (find (λ c, bool_decide (Course.category c = category)
                && Course.isPublished c) db).

Definition categories : list string :=
  ["Programming"; "Data Science"; "Design"; "Business"; "Marketing";
   "Photography"; "Music"; "Language"; "Health"; "Science"; "Mathematics";
   "Other"].

Definition levels : list string := ["Beginner"; "Intermediate"; "Advanced"].

(** [req.query] of [GET /api/courses]: raw strings, absent fields [None];
    [sort] as the specification Mongoose reads from its string. *)
Record ListQuery := mkListQuery {
  q_category : option string;
  q_level : option string;
  q_minPrice : option string;
  q_maxPrice : option string;
  q_search : option string;
  q_page : option string;
  q_limit : option string;
  q_sort : option SortSpec
}.

(** The reply of the listing; [currentPage] is [None] when
    [parseInt(page)] is [Infinity], which JSON writes as [null]. *)
Record CoursePage := mkCoursePage {
  page_count : nat;
  page_total : nat;
  page_pages : Z;
  page_currentPage : option Z;
  page_courses : list (ObjectId * Course.t)
}.

(** The largest [skip] that a signed 64-bit integer holds. *)
Definition maxSkip : Z := 2 ^ 63 - 1.

(** [.skip(n)] on the sorted matches. *)
Definition skipDocuments {A} (n : Z) (l : list A) : list A :=
  if bool_decide (Z.of_nat (length l) ≤ n) then [] else drop (Z.to_nat n) l.

(** The validation chains of [GET /api/courses], in order. *)
Definition listErrors (q : ListQuery) : list string :=
  check_optional (λ v, bool_decide (v ∈ categories)) "Invalid value" (q_category q)
  ++ check_optional (λ v, bool_decide (v ∈ levels)) "Invalid value" (q_level q)
  ++ check_optional isNumeric "Min price must be a number" (q_minPrice q)
  ++ check_optional isNumeric "Max price must be a number" (q_maxPrice q)
  ++ check_optional (isInt 1 None) "Page must be a positive integer" (q_page q)
  ++ check_optional (isInt 1 (Some 50)) "Limit must be between 1 and 50" (q_limit q).

(** A JavaScript string is truthy when it is not empty. *)
Definition truthy (field : option string) : option string :=
  match field with
  | Some EmptyString => None
  | f => f
  end.

(** [.select('-lessons -reviews')] *)
Definition listView (d : ObjectId * Course.t) : ObjectId * Course.t :=
  (d.1, Course.set_reviews d.2 [] (Course.rating d.2)).

Section ListCourses.
(** [regex_i p] is the case-insensitive regular expression [p] as a test
    on strings, [None] when [p] is not a regular expression (compiling it
    throws). *)
Variable regex_i : string → option (string → bool).
(** What the database does with a [skip] that no signed 64-bit integer
    holds ([None] is [Infinity]) depends on the driver and the server:
    [true] when they take the query, with the skip cut down to the
    largest such integer, [false] when the query fails. *)
Variable servesHugeSkip : option Z → bool.

(** The query object built from the request, as a predicate on
    documents; [None] when the search pattern does not compile. *)
Definition listFilter (q : ListQuery) : option (Course.t → bool) :=
  let byCategory c :=
    from_option (λ v, bool_decide (Course.category c = v)) true
      (truthy (q_category q)) in
  let byLevel c :=
    from_option (λ v, bool_decide (Course.level c = v)) true
      (truthy (q_level q)) in
  let byMin c :=
    from_option (λ v, Qle_bool (parseFloat v) (Course.price c)) true
      (truthy (q_minPrice q)) in
  let byMax c :=
    from_option (λ v, Qle_bool (Course.price c) (parseFloat v)) true
      (truthy (q_maxPrice q)) in
  let base c :=
    Course.isPublished c && byCategory c && byLevel c && byMin c && byMax c in
  match truthy (trim <$> q_search q) with
  | None => Some base
  | Some pattern =>
    match regex_i pattern with
    | None => None
    | Some test =>
      Some (λ c, base c &&
                 (test (Course.title c) || test (Course.description c)
                  || test (Course.instructor c)
                  || existsb test (Course.tags c)))
    end
  end.

(** [(page - 1) * limit] in double arithmetic, from [Number(page)] and
    [Number(limit)]; [None] is [Infinity]. *)
Definition skipOf (q : ListQuery) : option Z :=
  page ← from_option parseInt (Some 1) (q_page q);
  page1 ← toDouble (page - 1);
  toDouble (page1 * from_option toNumber 12 (q_limit q)).

(** [GET /api/courses] *)
Definition listCourses (db : DB) (q : ListQuery) : Reply CoursePage :=
  match listErrors q with
  | (_ :: _) as errors => Err 400 (join_errors errors)
  | [] =>
    let page := from_option parseInt (Some 1) (q_page q) in
    let limit := from_option toNumber 12 (q_limit q) in
    let sort := default [(ByCreatedAt, true)] (q_sort q) in
    match listFilter q with
    | None => Err 500 "Server error while fetching courses"
    | Some query =>
      let skip := skipOf q in
      if from_option (λ n, bool_decide (maxSkip < n)) true skip
         && negb (servesHugeSkip skip)
      then Err 500 "Server error while fetching courses"
      else
        let courses :=
          listView <$>
            take (Z.to_nat limit)
              (skipDocuments (from_option (Z.min maxSkip) maxSkip skip)
                 (sortCourses sort (find query db))) in
        let total := length (find query db) in
        let pages := Qceiling (inject_Z (Z.of_nat total) / inject_Z limit) in
        Ok 200 (mkCoursePage (length courses) total pages page courses)
    end
  end.
End ListCourses.

(** ** Access control (middleware/auth.js) *)

(** What a middleware does: call [next()] with the request it prepared,
    or answer itself. *)
Inductive Step (A : Type) :=
  | Next (request : A)
  | Respond (code : Z) (error : string).
Arguments Next {A} request.
Arguments Respond {A} code error.

Definition role_name (r : Role) : string :=
  match r with
  | student => "student"
  | instructor => "instructor"
  | admin => "admin"
  end.

(** [authorize(...roles)] *)
Definition authorize (roles : list Role) (user : ReqUser) : Step ReqUser :=
  if decide (User.role (account user) ∈ roles) then Next user
  else Respond 403
         ("User role " +:+ role_name (User.role (account user))
          +:+ " is not authorized to access this resource").

(** [s.split(' ')] *)
Fixpoint split_space (s : string) : list string :=
  match s with
  | EmptyString => [EmptyString]
  | String a r =>
    if Ascii.eqb a " " then EmptyString :: split_space r
    else match split_space r with
         | h :: t => String a h :: t
         | [] => [String a EmptyString]
         end
  end.

(** [.select('-password')] *)
Definition withoutPassword (u : User.t) : User.t := User.set_password u None.

Section Jwt.
(** [jwt.verify(token, process.env.JWT_SECRET)]: the [id] of the payload,
    [None] when verification throws (bad signature, expired, malformed). *)
Variable jwt_verify : string → option ObjectId.

(** The token of an [Authorization] header and what it decodes to;
    [jwt.verify(undefined)] throws as well. *)
Definition decodeHeader (authorization : string) : option ObjectId :=
  split_space authorization !! 1%nat ≫= jwt_verify.

(** [protect] *)
Definition protect (db : DB) (authorization : option string) : Step ReqUser :=
  match authorization with
  | Some header =>
    if String.prefix "Bearer" header then
      match decodeHeader header with
      | None => Respond 401 "Not authorized, token failed"
      | Some uid =>
        match users db !! uid with
        | None => Respond 401 "User not found"
        | Some u =>
          if negb (User.isActive u) then Respond 401 "Account is deactivated"
          else Next (mkReqUser uid (withoutPassword u))
        end
      end
    else Respond 401 "Not authorized, no token"
  | None => Respond 401 "Not authorized, no token"
  end.

(** [optionalAuth]: always calls [next()]; the result is [req.user],
    [None] for [null] and [undefined] (the anonymous caller). *)
Definition optionalAuth (db : DB) (authorization : option string)
    : option ReqUser :=
  match authorization with
  | Some header =>
    if String.prefix "Bearer" header then
      match decodeHeader header with
      | None => None
      | Some uid => (λ u, mkReqUser uid (withoutPassword u)) <$> users db !! uid
      end
    else None
  | None => None
  end.
End Jwt.

(** ** Course routes for instructors and admins

    As above, the handlers are written from the identifier that
    [req.params.id] casts to. *)

(** [$pull] of a course from both lists of an account that lists it as
    enrolled: the update of [User.updateMany] in [DELETE /:id]. *)
Definition pullCourse (courseId : ObjectId) (u : User.t) : User.t :=
  if decide (courseId ∈ User.enrolledCourses u) then
    User.set_completedCourses
      (User.set_enrolledCourses u
         (filter (λ id, id ≠ courseId) (User.enrolledCourses u)))
      (filter (λ id, id ≠ courseId) (User.completedCourses u))
  else u.

(** [DELETE /api/courses/:id], after [protect] and
    [authorize('admin', 'instructor')]. *)
Definition deleteCourse (db : DB) (courseId : ObjectId) (user : ReqUser)
    : Reply unit * DB :=
  match courses db !! courseId with
  | None => (Err 404 "Course not found", db)
  | Some course =>
    match Course.instructorId course with
    | None => (Err 500 "Server error while deleting course", db)
    | Some owner =>
      if bool_decide (owner ≠ id user)
         && bool_decide (User.role (account user) ≠ admin)
      then (Err 403 "Not authorized to delete this course", db)
      else (Ok 200 (),
            mkDB (pullCourse courseId <$> users db)
                 (delete courseId (courses db)))
    end
  end.

(** The statistics of a course; [completionRate], a number formatted by
    [toFixed], is left out. *)
Record Stats := mkStats {
  totalEnrolled : nat;
  totalCompleted : nat;
  averageRating : Q;
  totalReviews : nat;
  revenue : Q;
  stats_enrolledStudents : list (string * string)
}.

(** [GET /api/courses/:id/stats], after [protect] and
    [authorize('admin', 'instructor')]. [populate] keeps the enrolled
    identifiers whose account exists. *)
Definition courseStats (db : DB) (courseId : ObjectId) (user : ReqUser)
    : Reply Stats :=
  match courses db !! courseId with
  | None => Err 404 "Course not found"
  | Some course =>
    let enrolledStudents :=
      omap (λ i, users db !! i) (Course.enrolledStudents course) in
    match Course.instructorId course with
    | None => Err 500 "Server error while fetching course statistics"
    | Some owner =>
      if bool_decide (owner ≠ id user)
         && bool_decide (User.role (account user) ≠ admin)
      then Err 403 "Not authorized to view course statistics"
      else
        let completedCount :=
          length (filter (λ d, courseId ∈ User.completedCourses d.2)
                    (map_to_list (users db))) in
        Ok 200 (mkStats (length enrolledStudents) completedCount
                  (average (Course.rating course))
                  (count (Course.rating course))
                  (Course.price course
                   * inject_Z (Z.of_nat (length enrolledStudents)))%Q
                  ((λ u, (User.name u, User.email u)) <$> enrolledStudents))
    end
  end.

Section UpdateCourse.
(** The request body of [PUT /api/courses/:id] is any JSON object. *)
Variable Body : Type.
(** The messages of its validation chains (title, description, price). *)
Variable bodyErrors : Body → list string.
(** [findByIdAndUpdate(id, body, { new: true, runValidators: true })] on
    the stored document: the updated document, [None] when it throws. *)
Variable findByIdAndUpdate : Body → Course.t → option Course.t.

(** [PUT /api/courses/:id], after [protect] and
    [authorize('admin', 'instructor')]. *)
Definition updateCourse (db : DB) (courseId : ObjectId) (user : ReqUser)
    (body : Body) : Reply Course.t * DB :=
  match bodyErrors body with
  | (_ :: _) as errors => (Err 400 (join_errors errors), db)
  | [] =>
    match courses db !! courseId with
    | None => (Err 404 "Course not found", db)
    | Some course =>
      match Course.instructorId course with
      | None => (Err 500 "Server error while updating course", db)
      | Some owner =>
        if bool_decide (owner ≠ id user)
           && bool_decide (User.role (account user) ≠ admin)
        then (Err 403 "Not authorized to update this course", db)
        else
          match findByIdAndUpdate body course with
          | None => (Err 500 "Server error while updating course", db)
          | Some course' => (Ok 200 course', saveCourse db courseId course')
          end
      end
    end
  end.
End UpdateCourse.

(** ** Auth routes: signup *)

Definition lower_ascii (a : ascii) : ascii :=
  let n := nat_of_ascii a in
  if ((65 <=? n) && (n <=? 90))%nat then ascii_of_nat (n + 32) else a.

(** [lowercase: true] of the schema. *)
Fixpoint lowercase (s : string) : string :=
  match s with
  | EmptyString => EmptyString
  | String a r => String (lower_ascii a) (lowercase r)
  end.

(** [req.body] of [POST /api/auth/signup]: the three fields the handler
    reads (empty when absent) and a [role] field a client may add. *)
Record SignupBody := mkSignupBody {
  body_name : string;
  body_email : string;
  body_password : string;
  body_role : option string
}.

(** The [user] object of the signup reply. *)
Record SignupReply := mkSignupReply {
  reply_token : string;
  reply_id : ObjectId;
  reply_name : string;
  reply_email : string;
  reply_role : Role;
  reply_enrolledCourses : list ObjectId
}.

Section Signup.
(** validator.js [isEmail] and [normalizeEmail]. *)
Variable isEmail : string → bool.
Variable normalizeEmail : string → string.
(** The [match] pattern of the schema's [email] path. *)
Variable emailMatches : string → bool.
(** [bcrypt.hash] with a fresh salt, and [jwt.sign] of [{ id }]. *)
Variable bcrypt_hash : string → string.
Variable jwt_sign : ObjectId → string.

(** The validation chains of signup, in order. *)
Definition signupErrors (body : SignupBody) : list string :=
  (if isLength 2 (Some 100%nat) (trim (body_name body))
   then [] else ["Name must be between 2 and 100 characters"])
  ++ (if isEmail (body_email body) then []
      else ["Please enter a valid email"])
  ++ (if isLength 6 None (body_password body)
      then [] else ["Password must be at least 6 characters long"]).

(** [User.create({ name, email, password })]: setters, validators,
    defaults and the password hook of the schema; [None] when a
    validator rejects the document. *)
Definition createUser (name email password : string) : option User.t :=
  let name' := trim name in
  let email' := trim (lowercase email) in
  if bool_decide (1 ≤ jsLength name' ≤ 100)%nat
     && emailMatches email'
     && bool_decide (6 ≤ jsLength password)%nat
  then Some (User.mk name' email' (Some (bcrypt_hash password))
               student [] [] true None)
  else None.

(** [POST /api/auth/signup]; [newId] is the identifier MongoDB gives the
    new document, [now] the clock. *)
Definition signup (db : DB) (newId : ObjectId) (now : Z) (body : SignupBody)
    : Reply SignupReply * DB :=
  match signupErrors body with
  | (_ :: _) as errors => (Err 400 (join_errors errors), db)
  | [] =>
    let name := trim (body_name body) in
    let email := normalizeEmail (body_email body) in
    let password := body_password body in
    if bool_decide (Exists (λ d, User.email d.2 = email) (map_to_list (users db)))
    then (Err 400 "User already exists with this email", db)
    else
      match createUser name email password, users db !! newId with
      | Some user, None =>
        let token := jwt_sign newId in
        let user' := User.updateLastLogin user now in
        (Ok 201 (mkSignupReply token newId (User.name user') (User.email user')
                   (User.role user') (User.enrolledCourses user')),
         saveUser db newId user')
      | _, _ => (Err 500 "Server error during registration", db)
      end
  end.
End Signup.

(** ** Sample documents *)

(** [Course.create] of a document that gives the required paths and
    leaves the others to the schema defaults. *)
Definition newCourse (title description instructor : string)
    (instructorId : option ObjectId) (category level : string)
    (createdAt : Z) : Course.t :=
  Course.mk title description instructor instructorId category level
    0%Q [] [] (mkRating 0 0) [] true false createdAt.

(** [User.create] of [{ name, email, password, role }], password hashed. *)
Definition newUser (name email hash : string) (role : Role) : User.t :=
  User.mk name email (Some hash) role [] [] true None.

Definition demoId : ObjectId := "65f000000000000000000001".
Definition johnId : ObjectId := "65f000000000000000000002".
Definition adminId : ObjectId := "65f000000000000000000003".
Definition janeId : ObjectId := "65f000000000000000000004".
Definition jsCourseId : ObjectId := "65f0000000000000000000c1".
Definition reactCourseId : ObjectId := "65f0000000000000000000c2".

(** The accounts of the seed script and a second instructor. *)
Definition demoUser : User.t :=
  newUser "Demo User" "demo@eduhub.com" "$2a$12$demo" student.
Definition johnSmith : User.t :=
  newUser "John Smith" "john.smith@eduhub.com" "$2a$12$john" instructor.
Definition adminUser : User.t :=
  newUser "Admin User" "admin@eduhub.com" "$2a$12$admin" admin.
Definition janeDoe : User.t :=
  newUser "Jane Doe" "jane.doe@eduhub.com" "$2a$12$jane" instructor.

Definition jsCourse : Course.t :=
  newCourse "Complete JavaScript Mastery"
    "Master JavaScript from basics to advanced concepts."
    "John Smith" (Some johnId) "Programming" "Intermediate" 1000.

Definition reactCourse : Course.t :=
  newCourse "React Development Bootcamp"
    "Build modern web applications with React."
    "Sarah Johnson" (Some johnId) "Programming" "Intermediate" 2000.

Definition sampleUsers : gmap string User.t :=
  <[demoId := demoUser]> (<[johnId := johnSmith]>
    (<[adminId := adminUser]> (<[janeId := janeDoe]> ∅))).

Definition sampleDb : DB :=
  mkDB sampleUsers (<[jsCourseId := jsCourse]> (<[reactCourseId := reactCourse]> ∅)).

Definition asReqUser (uid : ObjectId) (u : User.t) : ReqUser :=
  mkReqUser uid (withoutPassword u).

(** A one-sided state: the demo account lists the JavaScript course as
    enrolled, the course does not list the account. *)
Definition oneSidedDb : DB :=
  saveUser sampleDb demoId (User.set_enrolledCourses demoUser [jsCourseId]).

(** The demo account enrolled in the JavaScript course through the route. *)
Definition enrolledDb : DB :=
  (enroll sampleDb jsCourseId (asReqUser demoId demoUser)).2.

(** A catalogue of twelve published courses and one unpublished draft. *)
Definition catalogueEntry (n : Z) (category : string) : Course.t :=
  newCourse "Catalogue course" "A course of the catalogue." "John Smith"
    (Some johnId) category "Beginner" (100 * n).

Definition draftCourse : Course.t :=
  Course.mk "Unpublished draft" "A course that is not published yet."
    "Jane Doe" (Some janeId) "Design" "Beginner" 0%Q [] [] (mkRating 0 0) []
    false true 5000.

Definition catalogue : list (ObjectId * Course.t) :=
  [("65f000000000000000000101", catalogueEntry 1 "Programming");
   ("65f000000000000000000102", catalogueEntry 2 "Design");
   ("65f000000000000000000103", catalogueEntry 3 "Programming");
   ("65f000000000000000000104", catalogueEntry 4 "Music");
   ("65f000000000000000000105", catalogueEntry 5 "Programming");
   ("65f000000000000000000106", catalogueEntry 6 "Design");
   ("65f000000000000000000107", catalogueEntry 7 "Business");
   ("65f000000000000000000108", catalogueEntry 8 "Programming");
   ("65f000000000000000000109", catalogueEntry 9 "Health");
   ("65f00000000000000000010a", catalogueEntry 10 "Science");
   ("65f00000000000000000010b", catalogueEntry 11 "Programming");
   ("65f00000000000000000010c", catalogueEntry 12 "Other");
   ("65f00000000000000000010d", draftCourse)].

Definition catalogueDb : DB := mkDB sampleUsers (list_to_map catalogue).

(** No search pattern is compiled when the request has no [search]. *)
Definition noRegex : string → option (string → bool) := λ _, None.

(** A server that takes every [skip]. *)
Definition clampsSkip (skip : option Z) : bool := true.

Definition pageQuery (page limit : option string) : ListQuery :=
  mkListQuery None None None None None page limit None.

(** Two published Programming courses with the same average, 4: the
    older one from two reviews (5 and 3), the newer one from one (4). *)
Definition olderCourseId : ObjectId := "65f000000000000000000201".
Definition newerCourseId : ObjectId := "65f000000000000000000202".

Definition olderCourse : Course.t :=
  Course.addReview
    (Course.addReview
       (newCourse "Functions and Scope" "Functions, scope and closures."
          "John Smith" (Some johnId) "Programming" "Beginner" 1000)
       1100 demoId 5 None)
    1200 janeId 3 None.

Definition newerCourse : Course.t :=
  Course.addReview
    (newCourse "Introduction to JavaScript" "Variables and data types."
       "John Smith" (Some johnId) "Programming" "Beginner" 2000)
    2100 demoId 4 None.

Definition tieDb : DB :=
  mkDB sampleUsers
    (<[olderCourseId := olderCourse]> (<[newerCourseId := newerCourse]> ∅)).

(** The order the category listing is described to have: rating average
    descending, then newest first. *)
Definition byAverageThenNewest : SortSpec :=
  [(ByRatingAverage, true); (ByCreatedAt, true)].

(** Clamping a page size into the range 1 to 50, as a reading of
    "clamped" would have it. *)
Definition clampLimit (limit : Z) : Z := Z.max 1 (Z.min 50 limit).

(** A course without [instructorId], which the schema allows
    ([required: false]). *)
Definition orphanCourseId : ObjectId := "65f000000000000000000301".

Definition orphanCourse : Course.t :=
  newCourse "Digital Marketing Mastery" "A complete guide to digital marketing."
    "David Rodriguez" None "Marketing" "Intermediate" 3000.

Definition orphanDb : DB := saveCourse sampleDb orphanCourseId orphanCourse.

(** A body of [PUT /api/courses/:id] that gives a new title: its
    validation chain and the update it makes. *)
Definition titleErrors (title : string) : list string :=
  if isLength 5 (Some 200%nat) (trim title) then []
  else ["Invalid value"].

Definition updateTitle (title : string) (c : Course.t) : option Course.t :=
  Some (Course.set_title c (trim title)).

(** Tokens for the sample accounts: a verifier that knows three tokens,
    the third of an account that has since been removed. *)
Definition ghostId : ObjectId := "65f0000000000000000000ff".

Definition sampleVerify (token : string) : option ObjectId :=
  if decide (token = "header.demo.signature") then Some demoId
  else if decide (token = "header.admin.signature") then Some adminId
  else if decide (token = "header.ghost.signature") then Some ghostId
  else None.

(** The demo account deactivated. *)
Definition deactivatedDb : DB :=
  saveUser sampleDb demoId (User.set_isActive demoUser false).

(** Stand-ins for the validators and the hashing of signup. *)
Fixpoint has_at (s : string) : bool :=
  match s with
  | EmptyString => false
  | String a r => Ascii.eqb a "@" || has_at r
  end.

Definition sampleHash (password : string) : string := "$2a$12$" +:+ password.
Definition sampleSign (uid : ObjectId) : string := "header." +:+ uid +:+ ".signature".

Definition malloryId : ObjectId := "65f000000000000000000005".

(** A signup request that asks for the admin role. *)
Definition malloryBody : SignupBody :=
  mkSignupBody "Mallory" "Mallory@Example.com" "secret123" (Some "admin").

(** ** Invariants of the enrollment relation *)

(** Both sides of the relation agree: wherever the account and the course
    are stored, the course lists the account exactly when the account
    lists the course. *)
Definition consistent (db : DB) : Prop :=
  map_Forall (λ uid u,
    map_Forall (λ cid c,
      uid ∈ Course.enrolledStudents c ↔ cid ∈ User.enrolledCourses u)
      (courses db))
    (users db).

(** No reference list holds an identifier twice. *)
Definition duplicateFree (db : DB) : Prop :=
  map_Forall (λ _ c, NoDup (Course.enrolledStudents c)) (courses db)
  ∧ map_Forall (λ _ u, NoDup (User.enrolledCourses u)
                       ∧ NoDup (User.completedCourses u)) (users db).

Global Instance consistent_dec db : Decision (consistent db).
Proof. unfold consistent. apply _. Defined.

Global Instance duplicateFree_dec db : Decision (duplicateFree db).
Proof. unfold duplicateFree. apply _. Defined.

(** ** Routes behind their middlewares *)

Section Routes.
Variable jwt_verify : string → option ObjectId.
(** Mongoose's cast of a string to an ObjectId: the identifier it
    denotes, or [None] when the cast throws a CastError. *)
Variable castObjectId : string → option ObjectId.

(** A route registered as [router.method(path, protect, handler)]. *)
Definition behindProtect {A} (db : DB) (authorization : option string)
    (handler : ReqUser → Reply A * DB) : Reply A * DB :=
  match protect jwt_verify db authorization with
  | Next user => handler user
  | Respond code error => (Err code error, db)
  end.

(** A route registered with [protect, authorize('admin', 'instructor')]
    before its handler. *)
Definition behindStaffGuard {A} (db : DB) (authorization : option string)
    (handler : ReqUser → Reply A * DB) : Reply A * DB :=
  behindProtect db authorization (λ user,
    match authorize [admin; instructor] user with
    | Next user' => handler user'
    | Respond code error => (Err code error, db)
    end).

(** [Course.findById(req.params.id)] as the first query of a handler:
    the handler goes on with the identifier that [param] casts to; a
    CastError reaches the handler's [catch], which answers 500 with its
    own message. *)
Definition withCourseId {A} (db : DB) (param failure : string)
    (handler : ObjectId → Reply A * DB) : Reply A * DB :=
  match castObjectId param with
  | Some courseId => handler courseId
  | None => (Err 500 failure, db)
  end.





Definition deleteRoute (db : DB) (authorization : option string)
    (param : string) : Reply unit * DB :=
  behindStaffGuard db authorization (λ user,
    withCourseId db param "Server error while deleting course"
      (λ courseId, deleteCourse db courseId user)).

Definition statsRoute (db : DB) (authorization : option string)
    (param : string) : Reply Stats * DB :=
  behindStaffGuard db authorization (λ user,
    withCourseId db param "Server error while fetching course statistics"
      (λ courseId, (courseStats db courseId user, db))).

(** The update route validates the body before it looks the course up. *)
Definition updateRoute (Body : Type) (bodyErrors : Body → list string)
    (findByIdAndUpdate : Body → Course.t → option Course.t)
    (db : DB) (authorization : option string) (param : string)
    (body : Body) : Reply Course.t * DB :=
  behindStaffGuard db authorization (λ user,
    match bodyErrors body with
    | (_ :: _) as errors => (Err 400 (join_errors errors), db)
    | [] =>
      withCourseId db param "Server error while updating course"
        (λ courseId,
           updateCourse Body bodyErrors findByIdAndUpdate db courseId user body)
    end).
End Routes.



(** What the filters of a list request ask of a course; [test] is the
    compiled search pattern when the request has one. *)
Definition satisfies (q : ListQuery) (test : option (string → bool))
    (c : Course.t) : Prop :=
  Course.isPublished c = true
  ∧ (∀ v, q_category q = Some v → Course.category c = v)
  ∧ (∀ v, q_level q = Some v → Course.level c = v)
  ∧ (∀ v, q_minPrice q = Some v → (parseFloat v <= Course.price c)%Q)
  ∧ (∀ v, q_maxPrice q = Some v → (Course.price c <= parseFloat v)%Q)
  ∧ (∀ t, test = Some t →
       t (Course.title c) = true ∨ t (Course.description c) = true
       ∨ t (Course.instructor c) = true
       ∨ ∃ tag, tag ∈ Course.tags c ∧ t tag = true).

(** The search pattern a request asks for: its [search] trimmed, when
    that is not empty. *)
Definition searchPattern (q : ListQuery) : option string :=
  truthy (trim <$> q_search q).

(** Newest first, as a relation between neighbours. *)
Definition notOlder (a b : ObjectId * Course.t) : Prop :=
  Course.createdAt b.2 ≤ Course.createdAt a.2.

(** ** Auth routes: login and password change *)

(** [User.findOne({ email })]: the first stored account with that email. *)
Definition findOneByEmail (db : DB) (email : string)
    : option (ObjectId * User.t) :=
  head (filter (λ d, User.email d.2 = email) (map_to_list (users db))).


Section Login.
Variable isEmail : string → bool.
Variable normalizeEmail : string → string.
(** [bcrypt.hash] with a fresh salt, [bcrypt.compare] of a candidate with
    a stored hash, and [jwt.sign] of [{ id }]. *)
Variable bcrypt_hash : string → string.
Variable bcrypt_compare : string → string → bool.
Variable jwt_sign : ObjectId → string.



(** The validation chains of the password change, in order. *)
Definition passwordErrors (currentPassword newPassword : string) : list string :=
  (if decide (currentPassword = "") then ["Current password is required"]
   else [])
  ++ (if isLength 6 None newPassword then []
      else ["New password must be at least 6 characters long"]).

(** [PUT /api/auth/password], after [protect]. Assigning the stored hash
    itself leaves the path unmodified, so the save hook does not hash. *)
Definition changePassword (db : DB) (user : ReqUser)
    (currentPassword newPassword : string) : Reply unit * DB :=
  match passwordErrors currentPassword newPassword with
  | (_ :: _) as errors => (Err 400 (join_errors errors), db)
  | [] =>
    match users db !! id user with
    | None => (Err 500 "Server error while changing password", db)
    | Some u =>
      match User.password u with
      | None => (Err 500 "Server error while changing password", db)
      | Some hash =>
        if bcrypt_compare currentPassword hash then
          let u' :=
            if decide (newPassword = hash) then u
            else User.set_password u (Some (bcrypt_hash newPassword)) in
          (Ok 200 (), saveUser db (id user) u')
        else (Err 401 "Current password is incorrect", db)
      end
    end
  end.
End Login.

(** No two stored accounts have the same email. *)
Definition uniqueEmails (db : DB) : Prop :=
  ∀ k1 u1 k2 u2,
    users db !! k1 = Some u1 → users db !! k2 = Some u2 →
    User.email u1 = User.email u2 → k1 = k2.

Fixpoint has_space (s : string) : bool :=
  match s with
  | EmptyString => false
  | String a r => Ascii.eqb a " " || has_space r
  end.


(** A verifier that also knows the token signup signs for [malloryId]. *)
Definition signedVerify (token : string) : option ObjectId :=
  if decide (token = sampleSign malloryId) then Some malloryId
  else sampleVerify token.

(** ** The course router *)

Inductive Method := GET | POST | PUT | DELETE.

Global Instance Method_eq_dec : EqDecision Method.
Proof. solve_decision. Defined.

(** A segment of a route path: a literal, or a parameter such as [:id]. *)
Inductive Segment := Lit (s : string) | Param.

Inductive CourseHandler :=
  | ListCourses | GetCourse | CreateCourse | UpdateCourse | DeleteCourse
  | Enroll | Unenroll | GetEnrolled | AddReview | GetFeatured
  | GetByCategory | Complete | GetStats.

Global Instance CourseHandler_eq_dec : EqDecision CourseHandler.
Proof. solve_decision. Defined.

(** The routes of the course router, in the order the file registers
    them. *)
Definition courseRoutes : list (Method * list Segment * CourseHandler) :=
  [(GET, [], ListCourses);
   (GET, [Param], GetCourse);
   (POST, [], CreateCourse);
   (PUT, [Param], UpdateCourse);
   (DELETE, [Param], DeleteCourse);
   (POST, [Param; Lit "enroll"], Enroll);
   (DELETE, [Param; Lit "enroll"], Unenroll);
   (GET, [Lit "enrolled"], GetEnrolled);
   (POST, [Param; Lit "reviews"], AddReview);
   (GET, [Lit "featured"], GetFeatured);
   (GET, [Lit "category"; Param], GetByCategory);
   (POST, [Param; Lit "complete"], Complete);
   (GET, [Param; Lit "stats"], GetStats)].

(** Express matches a literal without regard to case and a parameter
    against any segment that is not empty. *)
Definition matchSegment (p : Segment) (s : string) : bool :=
  match p with
  | Lit l => String.eqb (lowercase l) (lowercase s)
  | Param => negb (String.eqb s "")
  end.

Fixpoint matchPath (pattern : list Segment) (path : list string) : bool :=
  match pattern, path with
  | [], [] => true
  | p :: pattern', s :: path' => matchSegment p s && matchPath pattern' path'
  | _, _ => false
  end.

(** The handler that answers a request: the first registered route whose
    method and path match. Every handler answers by itself and none calls
    [next()], so no later route sees the request. [path] holds the
    segments after the mount point. *)
Definition dispatch (m : Method) (path : list string) : option CourseHandler :=
  (λ r, r.2) <$>
    head (filter (λ r, r.1.1 = m ∧ matchPath r.1.2 path = true) courseRoutes).

(** ** Course routes: one course, the caller's courses *)

(** The reply of [GET /api/courses/:id]: the course, the names that
    [populate] finds for the authors of its reviews and for its owner,
    and [isEnrolled]. *)
Record CourseView := mkCourseView {
  view_course : Course.t;
  view_reviewers : list (option string);
  view_instructor : option string;
  view_isEnrolled : bool
}.

Section OneCourse.
Variable jwt_verify : string → option ObjectId.
(** Mongoose's cast of a string to an ObjectId: the identifier it
    denotes, or [None] when the cast throws; [findById] looks up what
    the cast gave. *)
Variable castObjectId : string → option ObjectId.

(** [GET /api/courses/:id], behind [optionalAuth]. *)
Definition getCourse (db : DB) (authorization : option string)
    (param : string) : Reply CourseView :=
  let user := optionalAuth jwt_verify db authorization in
  match castObjectId param with
  | None => Err 500 "Server error while fetching course"
  | Some courseId =>
    match courses db !! courseId with
    | None => Err 404 "Course not found"
    | Some course =>
      if negb (Course.isPublished course) then Err 404 "Course not found"
      else
        let isEnrolled :=
          match user with
          | Some u => bool_decide (id u ∈ Course.enrolledStudents course)
          | None => false
          end in
        Ok 200 (mkCourseView course
                  ((λ r, User.name <$> users db !! Review.user r)
                     <$> Course.reviews course)
                  (Course.instructorId course ≫= λ o, User.name <$> users db !! o)
                  isEnrolled)
    end
  end.
End OneCourse.

(** [GET /api/courses/enrolled], after [protect]: [populate] keeps the
    listed courses that are stored, without their reviews. *)
Definition getEnrolled (db : DB) (user : ReqUser)
    : Reply (list (ObjectId * Course.t)) :=
  match users db !! id user with
  | None => Err 500 "Server error while fetching enrolled courses"
  | Some u =>
    Ok 200 (omap (λ cid, (λ c, listView (cid, c)) <$> courses db !! cid)
              (User.enrolledCourses u))
  end.

(** ** The seed script *)

(** [coursesWithInstructors]: the owner the seed gives the course at
    [index], from the created accounts in order; [None] when reading
    [users[0]._id] throws. *)
Definition assignInstructor (users : list (ObjectId * User.t)) (index : nat)
    : option ObjectId :=
  let instructors := filter (λ d, User.role d.2 = instructor) users in
  match instructors with
  | [] => fst <$> head users
  | _ :: _ =>
    match instructors !! (index mod length instructors)%nat with
    | Some d => Some d.1
    | None => fst <$> head users
    end
  end.

(** A hexadecimal ObjectId string. *)
Definition is_hex (a : ascii) : bool :=
  let n := nat_of_ascii a in
  ((48 <=? n) && (n <=? 57) || (97 <=? n) && (n <=? 102)
   || (65 <=? n) && (n <=? 70))%nat.

Definition isHex24 (s : string) : bool :=
  (String.length s =? 24)%nat && forallb is_hex (list_ascii_of_string s).

(** A cast that takes the strings of 24 hexadecimal digits, in either
    case, to the identifier in lower case. *)
Definition sampleCast (s : string) : option ObjectId :=
  if isHex24 s then Some (lowercase s) else None.

(** ** Course routes: creating a course *)

(** A review as a request body gives it: [rating] and [createdAt] may be
    absent. *)
Record ReviewBody := mkReviewBody {
  rb_user : ObjectId;
  rb_rating : option Z;
  rb_comment : option string;
  rb_createdAt : option Z
}.

(** [req.body] of [POST /api/courses], for the paths of the model: the
    five required strings (empty when absent) and the paths that a body
    may add, each [None] when absent. *)
Record CourseBody := mkCourseBody {
  cb_title : string;
  cb_description : string;
  cb_instructor : string;
  cb_category : string;
  cb_level : string;
  cb_price : option string;
  cb_instructorId : option string;
  cb_tags : option (list string);
  cb_enrolledStudents : option (list ObjectId);
  cb_average : option Q;
  cb_count : option nat;
  cb_reviews : option (list ReviewBody);
  cb_isPublished : option bool;
  cb_isFeatured : option bool;
  cb_createdAt : option Z
}.

(** The validation chains of [POST /api/courses], in order. *)
Definition createErrors (body : CourseBody) : list string :=
  (if isLength 5 (Some 200%nat) (trim (cb_title body)) then []
   else ["Title must be between 5 and 200 characters"])
  ++ (if isLength 20 (Some 2000%nat) (trim (cb_description body)) then []
      else ["Description must be between 20 and 2000 characters"])
  ++ (if isLength 2 (Some 100%nat) (trim (cb_instructor body)) then []
      else ["Instructor name must be between 2 and 100 characters"])
  ++ (if bool_decide (cb_category body ∈ categories) then [] else ["Invalid value"])
  ++ (if bool_decide (cb_level body ∈ levels) then [] else ["Invalid value"])
  ++ check_optional isNumeric "Price must be a number" (cb_price body).

(** A review of the body as the schema stores it: [rating] is required
    and between 1 and 5, the comment has at most 500 UTF-16 units, and
    [createdAt] defaults to the clock. *)
Definition createReview (now : Z) (r : ReviewBody) : option Review.t :=
  rating ← rb_rating r;
  if bool_decide (1 ≤ rating ≤ 5)
     && bool_decide (from_option jsLength 0%nat (rb_comment r) ≤ 500)%nat
  then Some (Review.mk (rb_user r) rating (rb_comment r)
               (default now (rb_createdAt r)))
  else None.

Section CreateCourse.
(** [String.prototype.toLowerCase], the [lowercase] setter of [tags]. *)
Variable toLowerCase : string → string.

(** [Course.create({ ...req.body, instructorId })] on a body whose
    sanitizers have run: setters, validators and defaults of the schema,
    the timestamp [createdAt] when the body has none; [None] when a
    validator rejects the document. Whatever [rating] and [reviews] the
    body gives are stored as given. *)
Definition createCourseDoc (body : CourseBody) (instructorId : ObjectId)
    (now : Z) : option Course.t :=
  let title := trim (trim (cb_title body)) in
  let description := trim (cb_description body) in
  let instructor := trim (trim (cb_instructor body)) in
  let price := from_option parseFloat 0%Q (cb_price body) in
  let average := default 0%Q (cb_average body) in
  reviews ← mapM (createReview now) (default [] (cb_reviews body));
  if bool_decide (1 ≤ jsLength title ≤ 200)%nat
     && bool_decide (1 ≤ jsLength description ≤ 2000)%nat
     && bool_decide (1 ≤ jsLength instructor)%nat
     && bool_decide (cb_category body ∈ categories)
     && bool_decide (cb_level body ∈ levels)
     && Qle_bool 0 price
     && Qle_bool 0 average && Qle_bool average 5
  then Some (Course.mk title description instructor (Some instructorId)
               (cb_category body) (cb_level body) price
               ((λ t, trim (toLowerCase t)) <$> default [] (cb_tags body))
               (default [] (cb_enrolledStudents body))
               (mkRating average (default 0%nat (cb_count body))) reviews
               (default true (cb_isPublished body))
               (default false (cb_isFeatured body))
               (default now (cb_createdAt body)))
  else None.

(** [POST /api/courses], after [protect] and
    [authorize('admin', 'instructor')]; [newId] is the [_id] of the new
    document, [now] the clock. *)
Definition createCourse (db : DB) (newId : ObjectId) (now : Z)
    (user : ReqUser) (body : CourseBody) : Reply Course.t * DB :=
  match createErrors body with
  | (_ :: _) as errors => (Err 400 (join_errors errors), db)
  | [] =>
    match createCourseDoc body (id user) now, courses db !! newId with
    | Some course, None => (Ok 201 course, saveCourse db newId course)
    | _, _ => (Err 500 "Server error while creating course", db)
    end
  end.
End CreateCourse.

(** A body of the seed data that asks for another owner and for a rating
    of 5 without any review. *)
Definition designBody : CourseBody :=
  mkCourseBody "UI/UX Design Principles"
    "Learn the fundamentals of user interface and user experience design."
    "Emma Wilson" "Design" "Beginner" (Some "129.99") (Some johnId)
    (Some ["Design"; " ui "]) None (Some 5%Q) None None None None None.

Definition designCourseId : ObjectId := "65f000000000000000000401".

(** * Properties *)

(** ** Validators on sample inputs *)

Example parse_int_ex : parse_int "12" = Some 12 ∧ parse_int "+5" = Some 5
  ∧ parse_int "05" = Some 5 ∧ parse_int "-3" = Some (-3) ∧ parse_int "" = None
  ∧ parse_int "1a" = None ∧ isInt 1 (Some 50) "100" = false
  ∧ isInt 1 (Some 50) "50" = true ∧ isInt 1 None "0" = false.
Proof. repeat split. Qed.
Example parse_dec_ex : parse_decimal "12.50" = Some (12 + 50/100)%Q
  ∧ parse_decimal ".5" = Some (0 + 5 / 10)%Q ∧ parse_decimal "3." = None
  ∧ parse_decimal "." = None ∧ parse_decimal "7" = Some 7%Q /\ trim "  a b  " = "a b".
Proof. repeat split. Qed.

(** ** Reviews and the rating aggregate *)

Lemma isInt_range min max s :
  isInt min (Some max) s = true → min ≤ toNumber s ≤ max.
Proof.
  unfold isInt, toNumber. destruct (parse_int s) as [z|]; [|done]. simpl.
  intros [H1 H2]%andb_prop. lia.
Qed.

Section ReviewFacts.
Implicit Types (c : Course.t) (u v : ObjectId) (l : list Review.t).

Lemma totalRating_sum l (acc : Z) :
  (inject_Z (foldl (λ sum review, (sum + Review.rating review)%Z) acc l)
   == inject_Z acc + foldr Qplus 0 (inject_Z <$> (Review.rating <$> l)))%Q.
Proof.
  revert acc. induction l as [|r l IH]; intros acc; simpl.
  - ring.
  - rewrite IH, inject_Z_plus. symmetry. apply Qplus_assoc.
Qed.

Lemma addReview_reviews c now u r cm :
  Course.reviews (Course.addReview c now u r cm)
  = filter (λ review, Review.user review ≠ u) (Course.reviews c)
    ++ [Review.mk u r cm now].
Proof. reflexivity. Qed.

Lemma addReview_count c now u r cm :
  count (Course.rating (Course.addReview c now u r cm))
  = length (Course.reviews (Course.addReview c now u r cm)).
Proof. reflexivity. Qed.

Lemma addReview_average c now u r cm :
  (average (Course.rating (Course.addReview c now u r cm))
   == arithmetic_mean
        (Review.rating <$> Course.reviews (Course.addReview c now u r cm)))%Q.
Proof.
  unfold arithmetic_mean. simpl. rewrite length_fmap.
  apply Qdiv_comp; [|reflexivity].
  rewrite totalRating_sum. simpl. ring.
Qed.

(** The list is never empty when the division takes place. *)
Lemma addReview_nonempty c now u r cm :
  (0 < length (Course.reviews (Course.addReview c now u r cm)))%nat.
Proof. simpl. rewrite length_app. simpl. lia. Qed.

Lemma filter_by_not_by u l :
  filter (λ review, Review.user review = u)
    (filter (λ review, Review.user review ≠ u) l) = [].
Proof.
  induction l as [|r l IH]; [done|].
  rewrite (filter_cons (λ review, Review.user review ≠ u)).
  case_decide; [|done].
  rewrite filter_cons_False; done.
Qed.

Lemma filter_by_not_other u v l :
  u ≠ v →
  filter (λ review, Review.user review = u)
    (filter (λ review, Review.user review ≠ v) l)
  = filter (λ review, Review.user review = u) l.
Proof.
  intros Huv. induction l as [|r l IH]; [done|].
  rewrite (filter_cons (λ review, Review.user review ≠ v)).
  rewrite (filter_cons (λ review, Review.user review = u) r l).
  case_decide as Hv.
  - rewrite filter_cons. case_decide; by rewrite IH.
  - rewrite decide_False; [done|]. congruence.
Qed.

Lemma reviewsBy_addReview_same c now u r cm :
  reviewsBy u (Course.addReview c now u r cm) = [Review.mk u r cm now].
Proof.
  unfold reviewsBy. simpl. rewrite filter_app, filter_by_not_by.
  rewrite filter_cons_True; done.
Qed.

Lemma reviewsBy_addReview_other c now u v r cm :
  u ≠ v → reviewsBy u (Course.addReview c now v r cm) = reviewsBy u c.
Proof.
  intros Huv. unfold reviewsBy. simpl.
  rewrite filter_app, filter_by_not_other by done.
  rewrite filter_cons_False; [by rewrite app_nil_r|]. simpl. congruence.
Qed.

(** Once [u] has reviewed, [u] keeps exactly one review whatever
    reviews follow. *)
Lemma one_review_kept u ops c :
  length (reviewsBy u c) = 1%nat →
  length (reviewsBy u (addReviews c ops)) = 1%nat.
Proof.
  revert c. induction ops as [|op ops IH]; intros c Hc; [done|].
  simpl. apply IH. unfold applyReview.
  destruct (decide (u = op_user op)) as [<-|Hne].
  - by rewrite reviewsBy_addReview_same.
  - by rewrite reviewsBy_addReview_other.
Qed.

Lemma length_filter_split u l :
  (length (filter (λ review, Review.user review ≠ u) l)
   + length (filter (λ review, Review.user review = u) l))%nat = length l.
Proof.
  induction l as [|r l IH]; [done|].
  rewrite !filter_cons. repeat case_decide; simpl; try lia; congruence.
Qed.

Lemma replace_keeps_length c now u r cm :
  length (reviewsBy u c) = 1%nat →
  length (Course.reviews (Course.addReview c now u r cm))
  = length (Course.reviews c).
Proof.
  unfold reviewsBy. intros H1. simpl. rewrite length_app. simpl.
  pose proof (length_filter_split u (Course.reviews c)). lia.
Qed.

Lemma addReviews_count c ops :
  count (Course.rating c) = length (Course.reviews c) →
  count (Course.rating (addReviews c ops))
  = length (Course.reviews (addReviews c ops)).
Proof.
  revert c. induction ops as [|op ops IH]; intros c Hc; [done|].
  simpl. apply IH, addReview_count.
Qed.
End ReviewFacts.

(** C1. After every [addReview] of every sequence on every course,
    [rating.count] is the length of [reviews] and [rating.average] their
    arithmetic mean; a later review by the same author replaces the
    earlier one, leaving the count as it was; and the scenario
    X:5, Y:3, X:1 on a course without reviews yields the aggregates
    (5, 1), (4, 2), (2, 2). *)
Theorem C1_rating_aggregate :
  (∀ c ops op,
     let c' := applyReview (addReviews c ops) op in
     count (Course.rating c') = length (Course.reviews c')
     ∧ (average (Course.rating c')
        == arithmetic_mean (Review.rating <$> Course.reviews c'))%Q)
  ∧ (∀ c u now1 r1 cm1 ops now2 r2 cm2,
       let c1 := addReviews (Course.addReview c now1 u r1 cm1) ops in
       let c2 := Course.addReview c1 now2 u r2 cm2 in
       count (Course.rating c2) = count (Course.rating c1)
       ∧ length (Course.reviews c2) = length (Course.reviews c1)
       ∧ reviewsBy u c2 = [Review.mk u r2 cm2 now2]
       ∧ (average (Course.rating c2)
          == arithmetic_mean (Review.rating <$> Course.reviews c2))%Q)
  ∧ (∀ c X Y now1 now2 now3 cm1 cm2 cm3,
       X ≠ Y →
       Course.reviews c = [] →
       Course.rating c = mkRating 0 0 →
       let c1 := Course.addReview c now1 X 5 cm1 in
       let c2 := Course.addReview c1 now2 Y 3 cm2 in
       let c3 := Course.addReview c2 now3 X 1 cm3 in
       ((average (Course.rating c1) == 5)%Q ∧ count (Course.rating c1) = 1%nat)
       ∧ ((average (Course.rating c2) == 4)%Q ∧ count (Course.rating c2) = 2%nat)
       ∧ ((average (Course.rating c3) == 2)%Q ∧ count (Course.rating c3) = 2%nat)).
Proof.
  split; [|split].
  - intros c ops op c'. split.
    + apply addReview_count.
    + apply addReview_average.
  - intros c u now1 r1 cm1 ops now2 r2 cm2 c1 c2.
    assert (Hone : length (reviewsBy u c1) = 1%nat).
    { apply one_review_kept. by rewrite reviewsBy_addReview_same. }
    assert (Hlen : length (Course.reviews c2) = length (Course.reviews c1)).
    { by apply replace_keeps_length. }
    split; [|split; [done|split]].
    + unfold c2. rewrite addReview_count. fold c2. rewrite Hlen.
      symmetry. apply addReviews_count, addReview_count.
    + apply reviewsBy_addReview_same.
    + apply addReview_average.
  - intros c X Y now1 now2 now3 cm1 cm2 cm3 HXY Hnil _ c1 c2 c3.
    assert (H1 : Course.reviews c1 = [Review.mk X 5 cm1 now1]).
    { unfold c1. by rewrite addReview_reviews, Hnil. }
    assert (H2 : Course.reviews c2
                 = [Review.mk X 5 cm1 now1; Review.mk Y 3 cm2 now2]).
    { unfold c2. rewrite addReview_reviews, H1.
      rewrite filter_cons_True by (simpl; congruence). done. }
    assert (H3 : Course.reviews c3
                 = [Review.mk Y 3 cm2 now2; Review.mk X 1 cm3 now3]).
    { unfold c3. rewrite addReview_reviews, H2.
      rewrite filter_cons_False by (simpl; tauto).
      rewrite filter_cons_True by (simpl; congruence). done. }
    pose proof (addReview_average c now1 X 5 cm1) as A1.
    pose proof (addReview_average c1 now2 Y 3 cm2) as A2.
    pose proof (addReview_average c2 now3 X 1 cm3) as A3.
    pose proof (addReview_count c now1 X 5 cm1) as N1.
    pose proof (addReview_count c1 now2 Y 3 cm2) as N2.
    pose proof (addReview_count c2 now3 X 1 cm3) as N3.
    fold c1 in A1, N1. fold c2 in A2, N2. fold c3 in A3, N3.
    rewrite H1 in A1, N1. rewrite H2 in A2, N2. rewrite H3 in A3, N3.
    refine (conj (conj _ N1) (conj (conj _ N2) (conj _ N3))).
    + by transitivity (arithmetic_mean [5]).
    + by transitivity (arithmetic_mean [5; 3]).
    + by transitivity (arithmetic_mean [3; 1]).
Qed.

(** The review route answers with the recomputed aggregate of the
    document it stored. *)
Lemma postReview_aggregate db now courseId user rating comment code r db' :
  postReview db now courseId user rating comment = (Ok code r, db') →
  ∃ course,
    courses db' !! courseId = Some course
    ∧ r = Course.rating course
    ∧ count r = length (Course.reviews course)
    ∧ (average r == arithmetic_mean (Review.rating <$> Course.reviews course))%Q
    ∧ 1 ≤ toNumber rating ≤ 5.
Proof.
  unfold postReview, reviewErrors. intros H.
  destruct (isInt 1 (Some 5) rating) eqn:Hr; [|done]. simpl in H.
  destruct (check_optional _ _ comment); [|done].
  destruct (courses db !! courseId) as [course|]; [|done].
  destruct (Course.isPublished course); [|done]. simpl in H.
  destruct (decide (id user ∈ Course.enrolledStudents course)); [|done].
  case_bool_decide; [|done].
  simplify_eq. eexists. split; [apply lookup_insert_eq|].
  split; [done|]. split; [apply addReview_count|].
  split; [apply addReview_average|]. by apply isInt_range.
Qed.

Lemma C1_scenario_witness :
  let c1 := Course.addReview jsCourse 10 demoId 5 None in
  let c2 := Course.addReview c1 20 johnId 3 None in
  let c3 := Course.addReview c2 30 demoId 1 None in
  ((average (Course.rating c1) == 5)%Q ∧ count (Course.rating c1) = 1%nat)
  ∧ ((average (Course.rating c2) == 4)%Q ∧ count (Course.rating c2) = 2%nat)
  ∧ ((average (Course.rating c3) == 2)%Q ∧ count (Course.rating c3) = 2%nat).
Proof.
  apply (proj2 (proj2 C1_rating_aggregate) jsCourse demoId johnId);
    [discriminate|reflexivity|reflexivity].
Defined.

(** ** Enrollment *)

Section EnrollmentFacts.
Implicit Types (db : DB) (u : ReqUser) (cid : ObjectId).

(** What a successful enroll found and what it wrote. *)
Lemma enroll_ok_inv db cid u code p db' :
  enroll db cid u = (Ok code p, db') →
  ∃ course a,
    courses db !! cid = Some course
    ∧ Course.isPublished course = true
    ∧ (id u ∉ Course.enrolledStudents course)
    ∧ users db !! id u = Some a
    ∧ code = 200
    ∧ db' = saveUser
              (saveCourse db cid
                 (Course.set_enrolledStudents course
                    (Course.enrolledStudents course ++ [id u])))
              (id u) (User.enrollInCourse a cid).
Proof.
  unfold enroll. intros H.
  destruct (courses db !! cid) as [course|] eqn:Hc; [|done].
  destruct (Course.isPublished course) eqn:Hp; [|done]. simpl in H.
  destruct (decide (id u ∈ Course.enrolledStudents course)) as [|Hn]; [done|].
  simpl in H. destruct (users db !! id u) as [a|] eqn:Hu; [|done].
  unfold Course.enrollStudent in H. rewrite decide_False in H by done.
  exists course, a. by simplify_eq.
Qed.

Lemma unenroll_ok_inv db cid u code p db' :
  unenroll db cid u = (Ok code p, db') →
  ∃ course a,
    courses db !! cid = Some course
    ∧ id u ∈ Course.enrolledStudents course
    ∧ users db !! id u = Some a
    ∧ db' = saveUser
              (saveCourse db cid (Course.unenrollStudent course (id u)))
              (id u) (User.unenrollFromCourse a cid).
Proof.
  unfold unenroll. intros H.
  destruct (courses db !! cid) as [course|] eqn:Hc; [|done].
  destruct (decide (id u ∈ Course.enrolledStudents course)) as [Hin|]; [|done].
  simpl in H. destruct (users db !! id u) as [a|] eqn:Hu; [|done].
  exists course, a. by simplify_eq.
Qed.

Lemma complete_ok_inv db now cid u code p db' :
  complete db now cid u = (Ok code p, db') →
  ∃ course a,
    courses db !! cid = Some course
    ∧ id u ∈ Course.enrolledStudents course
    ∧ users db !! id u = Some a
    ∧ (cid ∉ User.completedCourses a)
    ∧ db' = saveUser db (id u)
              (User.set_completedCourses a (User.completedCourses a ++ [cid])).
Proof.
  unfold complete. intros H.
  destruct (courses db !! cid) as [course|] eqn:Hc; [|done].
  destruct (decide (id u ∈ Course.enrolledStudents course)) as [Hin|]; [|done].
  destruct (users db !! id u) as [a|] eqn:Hu; [|done].
  destruct (decide (cid ∈ User.completedCourses a)) as [|Hn]; [done|].
  unfold User.completeCourse in H. rewrite decide_False in H by done.
  exists course, a. by simplify_eq.
Qed.

Lemma filter_ne_not_in (x : ObjectId) (l : list ObjectId) :
  x ∉ l → filter (λ y, y ≠ x) l = l.
Proof.
  induction l as [|y l IH]; [done|].
  rewrite not_elem_of_cons. intros [Hxy Hl].
  rewrite filter_cons_True by done. by rewrite IH.
Qed.

Lemma filter_ne_snoc (x : ObjectId) (l : list ObjectId) :
  filter (λ y, y ≠ x) (l ++ [x]) = filter (λ y, y ≠ x) l.
Proof.
  rewrite filter_app, filter_cons_False by (intros H; by apply H).
  by rewrite app_nil_r.
Qed.

Lemma course_eta (c : Course.t) :
  Course.set_enrolledStudents c (Course.enrolledStudents c) = c.
Proof. by destruct c. Qed.

Lemma user_eta (a : User.t) :
  User.set_enrolledCourses a (User.enrolledCourses a) = a.
Proof. by destruct a. Qed.

Lemma db_eta db : mkDB (users db) (courses db) = db.
Proof. by destruct db. Qed.
End EnrollmentFacts.

(** C2. After a successful enroll the account is in the course's
    [enrolledStudents] and the course in the account's [enrolledCourses];
    a second enroll answers 400 "Already enrolled" and leaves the
    database as it is. *)
Theorem C2_enroll_links_both_sides db courseId user code p db' :
  enroll db courseId user = (Ok code p, db') →
  id user ∈ enrolledStudentsOf db' courseId
  ∧ courseId ∈ enrolledCoursesOf db' (id user)
  ∧ enroll db' courseId user
    = (Err 400 "Already enrolled in this course", db').
Proof.
  intros H. apply enroll_ok_inv in H as (course & a & Hc & Hp & Hn & Hu & _ & ->).
  assert (Hc' : courses (saveUser
                  (saveCourse db courseId
                     (Course.set_enrolledStudents course
                        (Course.enrolledStudents course ++ [id user])))
                  (id user) (User.enrollInCourse a courseId)) !! courseId
                = Some (Course.set_enrolledStudents course
                          (Course.enrolledStudents course ++ [id user]))).
  { simpl. apply lookup_insert_eq. }
  split; [|split].
  - unfold enrolledStudentsOf. rewrite Hc'. simpl. set_solver.
  - unfold enrolledCoursesOf. simpl. rewrite lookup_insert_eq. simpl.
    unfold User.enrollInCourse. case_decide; [done|]. simpl. set_solver.
  - unfold enroll at 1. rewrite Hc'. destruct course; simpl in *. rewrite Hp. simpl.
    rewrite decide_True by set_solver. done.
Qed.

Lemma C2_enroll_witness :
  id (asReqUser demoId demoUser) ∈ enrolledStudentsOf
      (enroll sampleDb jsCourseId (asReqUser demoId demoUser)).2 jsCourseId
  ∧ jsCourseId ∈ enrolledCoursesOf
      (enroll sampleDb jsCourseId (asReqUser demoId demoUser)).2 demoId
  ∧ enroll (enroll sampleDb jsCourseId (asReqUser demoId demoUser)).2
      jsCourseId (asReqUser demoId demoUser)
    = (Err 400 "Already enrolled in this course",
       (enroll sampleDb jsCourseId (asReqUser demoId demoUser)).2).
Proof.
  apply (C2_enroll_links_both_sides sampleDb jsCourseId
           (asReqUser demoId demoUser) 200
           (mkCourseSummary jsCourseId (Course.title jsCourse)
              (Course.instructor jsCourse))).
  vm_compute. reflexivity.
Defined.

(** Unenroll right after a successful enroll: what it answers and what
    both lists hold afterwards. *)
Lemma unenroll_after_enroll db cid u code p db1 :
  enroll db cid u = (Ok code p, db1) →
  ∃ db2,
    unenroll db1 cid u = (Ok 200 (), db2)
    ∧ enrolledStudentsOf db2 cid = enrolledStudentsOf db cid
    ∧ enrolledCoursesOf db2 (id u)
      = filter (λ c, c ≠ cid) (enrolledCoursesOf db (id u)).
Proof.
  intros H. apply enroll_ok_inv in H as (course & a & Hc & Hp & Hn & Hu & _ & ->).
  unfold unenroll. simpl. rewrite lookup_insert_eq. simpl.
  rewrite decide_True by set_solver. simpl. rewrite lookup_insert_eq.
  eexists. split; [reflexivity|].
  unfold enrolledStudentsOf, enrolledCoursesOf. simpl.
  rewrite !lookup_insert_eq, Hc, Hu. simpl.
  assert (Hlist : filter (λ c, c ≠ cid)
                    (User.enrolledCourses (User.enrollInCourse a cid))
                  = filter (λ c, c ≠ cid) (User.enrolledCourses a)).
  { unfold User.enrollInCourse. case_decide; [done|]. simpl.
    apply filter_ne_snoc. }
  split.
  - rewrite filter_ne_snoc. by apply filter_ne_not_in.
  - done.
Qed.

(** C3 (amended). Unenroll right after a successful enroll succeeds and
    restores [enrolledStudents] of the course exactly; the account's
    [enrolledCourses] becomes the earlier list without the course, which
    is the earlier list whenever the account did not already list the
    course. Unenroll of an account that the course does not list answers
    400 "Not enrolled". *)
Theorem C3_unenroll_restores :
  (∀ db courseId user code p db1,
     enroll db courseId user = (Ok code p, db1) →
     ∃ db2,
       unenroll db1 courseId user = (Ok 200 (), db2)
       ∧ enrolledStudentsOf db2 courseId = enrolledStudentsOf db courseId
       ∧ enrolledCoursesOf db2 (id user)
         = filter (λ c, c ≠ courseId) (enrolledCoursesOf db (id user))
       ∧ (courseId ∉ enrolledCoursesOf db (id user) →
          enrolledCoursesOf db2 (id user) = enrolledCoursesOf db (id user)))
  ∧ (∀ db courseId user course,
       courses db !! courseId = Some course →
       id user ∉ Course.enrolledStudents course →
       unenroll db courseId user = (Err 400 "Not enrolled in this course", db)).
Proof.
  split.
  - intros db cid u code p db1 H.
    destruct (unenroll_after_enroll _ _ _ _ _ _ H) as (db2 & H1 & H2 & H3).
    exists db2. split; [done|]. split; [done|]. split; [done|].
    intros Hnot. rewrite H3. by apply filter_ne_not_in.
  - intros db cid u course Hc Hn. unfold unenroll. rewrite Hc.
    by rewrite decide_False.
Qed.

Lemma C3_unenroll_witness :
  (∃ db2,
     unenroll (enroll sampleDb jsCourseId (asReqUser demoId demoUser)).2
       jsCourseId (asReqUser demoId demoUser) = (Ok 200 (), db2)
     ∧ enrolledStudentsOf db2 jsCourseId = enrolledStudentsOf sampleDb jsCourseId
     ∧ enrolledCoursesOf db2 demoId
       = filter (λ c, c ≠ jsCourseId) (enrolledCoursesOf sampleDb demoId)
     ∧ (jsCourseId ∉ enrolledCoursesOf sampleDb demoId →
        enrolledCoursesOf db2 demoId = enrolledCoursesOf sampleDb demoId))
  ∧ unenroll sampleDb jsCourseId (asReqUser demoId demoUser)
    = (Err 400 "Not enrolled in this course", sampleDb).
Proof.
  split.
  - apply (proj1 C3_unenroll_restores sampleDb jsCourseId
             (asReqUser demoId demoUser) 200
             (mkCourseSummary jsCourseId (Course.title jsCourse)
                (Course.instructor jsCourse))).
    vm_compute. reflexivity.
  - apply (proj2 C3_unenroll_restores sampleDb jsCourseId
             (asReqUser demoId demoUser) jsCourse).
    + vm_compute. reflexivity.
    + vm_compute. apply not_elem_of_nil.
Defined.

(** The claim as first stated fails in a one-sided state: enroll and
    unenroll both succeed, and the account's [enrolledCourses], which held
    the course before, is empty afterwards. *)
Lemma C3_counterexample :
  let user := asReqUser demoId demoUser in
  let db1 := (enroll oneSidedDb jsCourseId user).2 in
  let db2 := (unenroll db1 jsCourseId user).2 in
  (enroll oneSidedDb jsCourseId user).1
  = Ok 200 (mkCourseSummary jsCourseId (Course.title jsCourse)
              (Course.instructor jsCourse))
  ∧ (unenroll db1 jsCourseId user).1 = Ok 200 ()
  ∧ enrolledCoursesOf oneSidedDb demoId = [jsCourseId]
  ∧ enrolledCoursesOf db2 demoId = []
  ∧ enrolledCoursesOf db2 demoId ≠ enrolledCoursesOf oneSidedDb demoId.
Proof. vm_compute. repeat split. discriminate. Qed.

(** ** Completion *)

(** Unenroll rewrites [enrolledCourses] only. *)
Lemma unenroll_keeps_completed db cid u r db' :
  unenroll db cid u = (r, db') →
  completedCoursesOf db' (id u) = completedCoursesOf db (id u).
Proof.
  unfold unenroll. intros H.
  destruct (courses db !! cid) as [course|] eqn:Hc; [|by simplify_eq].
  destruct (decide (id u ∈ Course.enrolledStudents course)); [|by simplify_eq].
  simpl in H. destruct (users db !! id u) as [a|] eqn:Hu; simplify_eq.
  - unfold completedCoursesOf. simpl. by rewrite lookup_insert_eq, Hu.
  - done.
Qed.

(** C4. [complete] answers 400 "Must be enrolled" unless the course lists
    the account; for an enrolled account that has not completed the course
    it succeeds, after which a second call answers 400 "Course already
    completed"; and an unenroll after the completion succeeds and leaves
    the course in [completedCourses]. *)
Theorem C4_complete_once :
  (∀ db now courseId user course,
     courses db !! courseId = Some course →
     id user ∉ Course.enrolledStudents course →
     complete db now courseId user
     = (Err 400 "Must be enrolled to complete this course", db))
  ∧ (∀ db now courseId user course a,
       courses db !! courseId = Some course →
       id user ∈ Course.enrolledStudents course →
       users db !! id user = Some a →
       courseId ∉ User.completedCourses a →
       ∃ db', complete db now courseId user = (Ok 200 now, db'))
  ∧ (∀ db now courseId user code p db',
       complete db now courseId user = (Ok code p, db') →
       id user ∈ enrolledStudentsOf db courseId
       ∧ courseId ∈ completedCoursesOf db' (id user)
       ∧ (∀ now', complete db' now' courseId user
                  = (Err 400 "Course already completed", db'))
       ∧ ∃ db'', unenroll db' courseId user = (Ok 200 (), db'')
                 ∧ courseId ∈ completedCoursesOf db'' (id user)).
Proof.
  split; [|split].
  - intros db now cid u course Hc Hn. unfold complete. rewrite Hc.
    by rewrite decide_False.
  - intros db now cid u course a Hc Hin Hu Hn. unfold complete.
    rewrite Hc, decide_True, Hu, decide_False by done. eauto.
  - intros db now cid u code p db' H.
    apply complete_ok_inv in H as (course & a & Hc & Hin & Hu & Hn & ->).
    assert (Hdone : cid ∈ completedCoursesOf
                      (saveUser db (id u)
                         (User.set_completedCourses a
                            (User.completedCourses a ++ [cid]))) (id u)).
    { unfold completedCoursesOf. simpl. rewrite lookup_insert_eq. simpl.
      set_solver. }
    split; [|split; [|split]].
    + unfold enrolledStudentsOf. by rewrite Hc.
    + done.
    + intros now'. unfold complete. simpl. rewrite Hc, decide_True by done.
      rewrite lookup_insert_eq. simpl. rewrite decide_True by set_solver. done.
    + destruct (unenroll _ cid u) as [r db''] eqn:Hun.
      pose proof (unenroll_keeps_completed _ _ _ _ _ Hun) as Hkeep.
      exists db''. rewrite Hkeep. split; [|done].
      revert Hun. unfold unenroll. simpl. rewrite Hc, decide_True by done.
      simpl. rewrite lookup_insert_eq. by intros [= <- <-].
Qed.

Lemma C4_complete_witness :
  let user := asReqUser demoId demoUser in
  complete sampleDb 7 jsCourseId user
  = (Err 400 "Must be enrolled to complete this course", sampleDb)
  ∧ (∃ db', complete enrolledDb 7 jsCourseId user = (Ok 200 7, db'))
  ∧ (id user ∈ enrolledStudentsOf enrolledDb jsCourseId
     ∧ jsCourseId ∈ completedCoursesOf
         (complete enrolledDb 7 jsCourseId user).2 (id user)
     ∧ (∀ now', complete (complete enrolledDb 7 jsCourseId user).2 now'
                  jsCourseId user
                = (Err 400 "Course already completed",
                   (complete enrolledDb 7 jsCourseId user).2))
     ∧ ∃ db'', unenroll (complete enrolledDb 7 jsCourseId user).2
                 jsCourseId user = (Ok 200 (), db'')
               ∧ jsCourseId ∈ completedCoursesOf db'' (id user)).
Proof.
  destruct C4_complete_once as (Hnot & Hfirst & Hsecond).
  intros user. split; [|split].
  - apply (Hnot sampleDb 7 jsCourseId user jsCourse).
    + vm_compute. reflexivity.
    + vm_compute. apply not_elem_of_nil.
  - apply (Hfirst enrolledDb 7 jsCourseId user
             (Course.set_enrolledStudents jsCourse [demoId])
             (User.set_enrolledCourses demoUser [jsCourseId])).
    + vm_compute. reflexivity.
    + vm_compute. apply list_elem_of_here.
    + vm_compute. reflexivity.
    + vm_compute. apply not_elem_of_nil.
  - apply (Hsecond enrolledDb 7 jsCourseId user 200 7).
    vm_compute. reflexivity.
Defined.

(** ** Catalogue queries *)

Section QueryFacts.
Implicit Types (db : DB) (spec : SortSpec) (d : ObjectId * Course.t).

Lemma compareRating_antisym (a b : Rating) :
  compareRating b a = CompOpp (compareRating a b).
Proof.
  unfold compareRating. rewrite <- (Qcompare_antisym (average a) (average b)).
  destruct (average a ?= average b)%Q; simpl; [|done..].
  apply Nat.compare_antisym.
Qed.

Lemma compareField_antisym f (a b : Course.t) :
  compareField f b a = CompOpp (compareField f a b).
Proof.
  destruct f; simpl.
  - apply Z.compare_antisym.
  - symmetry. apply Qcompare_antisym.
  - apply String.compare_antisym.
  - apply compareRating_antisym.
  - symmetry. apply Qcompare_antisym.
  - apply Nat.compare_antisym.
Qed.

Lemma compareSpec_antisym spec (a b : Course.t) :
  compareSpec spec b a = CompOpp (compareSpec spec a b).
Proof.
  induction spec as [|[f descending] rest IH]; [done|]. simpl.
  rewrite (compareField_antisym f a b).
  destruct descending, (compareField f a b); simpl; done.
Qed.

Global Instance sortLe_total spec : Total (sortLe spec).
Proof.
  intros a b. unfold sortLe. rewrite (compareSpec_antisym spec a.2 b.2).
  destruct (compareSpec spec a.2 b.2); simpl; auto.
Qed.

(** [.sort] reorders and puts the documents in the order of [spec]. *)
Lemma sortCourses_perm spec l : sortCourses spec l ≡ₚ l.
Proof. apply merge_sort_Permutation. Qed.

Lemma sortCourses_sorted spec l : Sorted (sortLe spec) (sortCourses spec l).
Proof. apply Sorted_merge_sort, _. Qed.

(** [find] returns stored documents that satisfy the query. *)
Lemma elem_of_find query db d :
  d ∈ find query db ↔ courses db !! d.1 = Some d.2 ∧ query d.2 = true.
Proof.
  unfold find. rewrite list_elem_of_filter, elem_of_map_to_list'. tauto.
Qed.

Lemma elem_of_page spec (n m : nat) l d :
  d ∈ take n (drop m (sortCourses spec l)) → d ∈ l.
Proof.
  intros H. apply subseteq_take, subseteq_drop in H.
  by rewrite sortCourses_perm in H.
Qed.

(** Every query that the list route builds asks for published courses. *)
Lemma listFilter_published regex_i q query (c : Course.t) :
  listFilter regex_i q = Some query → query c = true →
  Course.isPublished c = true.
Proof.
  unfold listFilter. intros Hq Hc.
  destruct (truthy (trim <$> q_search q)) as [pattern|].
  - destruct (regex_i pattern) as [test|]; [|done].
    simplify_eq. repeat (apply andb_prop in Hc as [Hc _]). done.
  - simplify_eq. repeat (apply andb_prop in Hc as [Hc _]). done.
Qed.

(** [.skip(n)] drops the first [n] documents. *)
Lemma skipDocuments_drop {A} (n : Z) (l : list A) :
  skipDocuments n l = drop (Z.to_nat n) l.
Proof.
  unfold skipDocuments. case_bool_decide; [|done].
  symmetry. apply drop_ge. lia.
Qed.

Lemma toDouble_exact n : n < 2 ^ 53 → toDouble n = Some n.
Proof. intros H. unfold toDouble. by destruct (Z.ltb_spec n (2 ^ 53)); [|lia]. Qed.

(** Below [2 ^ 53] the arithmetic of the handler is exact. *)
Lemma skipOf_exact q :
  listErrors q = [] →
  from_option toNumber 1 (q_page q) * from_option toNumber 12 (q_limit q)
  < 2 ^ 53 →
  from_option parseInt (Some 1) (q_page q)
  = Some (from_option toNumber 1 (q_page q))
  ∧ skipOf q
    = Some ((from_option toNumber 1 (q_page q) - 1)
            * from_option toNumber 12 (q_limit q))
  ∧ 1 ≤ from_option toNumber 1 (q_page q).
Proof.
  intros He Hsafe.
  assert (Hlimit : 1 ≤ from_option toNumber 12 (q_limit q) ≤ 50).
  { unfold listErrors in He. repeat (apply app_eq_nil in He as [_ He]).
    destruct (q_limit q) as [l|]; simpl in *; [|lia].
    destruct (isInt 1 (Some 50) l) eqn:Hl; [|done].
    unfold isInt, toNumber in *. destruct (parse_int l) as [z|]; [|done].
    simpl in *. lia. }
  assert (Hpage : 1 ≤ from_option toNumber 1 (q_page q)).
  { unfold listErrors in He.
    do 4 (apply app_eq_nil in He as [_ He]). apply app_eq_nil in He as [He _].
    destruct (q_page q) as [n|]; simpl in *; [|lia].
    destruct (isInt 1 None n) eqn:Hn; [|done].
    unfold isInt, toNumber in *. destruct (parse_int n) as [z|]; [|done].
    simpl in *. lia. }
  assert (Hnumber : from_option parseInt (Some 1) (q_page q)
                    = Some (from_option toNumber 1 (q_page q))).
  { destruct (q_page q) as [n|]; [|done]. simpl in *.
    unfold parseInt. apply toDouble_exact. nia. }
  split; [done|]. split; [|done].
  unfold skipOf. rewrite Hnumber. simpl.
  rewrite toDouble_exact by nia. simpl. apply toDouble_exact. nia.
Qed.

(** What a successful list reply holds. *)
Lemma listCourses_ok_inv regex_i servesHugeSkip db q code page :
  listCourses regex_i servesHugeSkip db q = Ok code page →
  ∃ query,
    listErrors q = []
    ∧ listFilter regex_i q = Some query
    ∧ code = 200
    ∧ page =
      let limit := from_option toNumber 12 (q_limit q) in
      let skip := from_option (Z.min maxSkip) maxSkip (skipOf q) in
      let courses :=
        listView <$>
          take (Z.to_nat limit)
            (drop (Z.to_nat skip)
               (sortCourses (default [(ByCreatedAt, true)] (q_sort q))
                  (find query db))) in
      mkCoursePage (length courses) (length (find query db))
        (Qceiling (inject_Z (Z.of_nat (length (find query db)))
                   / inject_Z limit))
        (from_option parseInt (Some 1) (q_page q)) courses.
Proof.
  unfold listCourses. intros H.
  destruct (listErrors q) eqn:He; [|done].
  destruct (listFilter regex_i q) as [query|] eqn:Hq; [|done].
  exists query. case_match; [done|].
  rewrite skipDocuments_drop in H. by simplify_eq.
Qed.
End QueryFacts.

(** C8. The list, featured and by-category queries return stored,
    published courses only, whatever the request; none of the three routes
    looks at the caller. *)
Theorem C8_only_published_listed :
  (∀ regex_i servesHugeSkip db q code page d,
     listCourses regex_i servesHugeSkip db q = Ok code page →
     d ∈ page_courses page →
     ∃ c, courses db !! d.1 = Some c ∧ d = listView (d.1, c)
          ∧ Course.isPublished c = true ∧ Course.isPublished d.2 = true)
  ∧ (∀ db d,
       d ∈ getFeatured db →
       courses db !! d.1 = Some d.2 ∧ Course.isPublished d.2 = true)
  ∧ (∀ db category d,
       d ∈ getByCategory db category →
       courses db !! d.1 = Some d.2 ∧ Course.isPublished d.2 = true).
Proof.
  split; [|split].
  - intros regex_i servesHugeSkip db q code page d H Hd.
    apply listCourses_ok_inv in H as (query & _ & Hq & _ & ->).
    simpl in Hd. apply list_elem_of_fmap in Hd as ([k c] & -> & Hd).
    apply elem_of_page, elem_of_find in Hd as [Hk Hc]. simpl in *.
    exists c. pose proof (listFilter_published _ _ _ _ Hq Hc) as Hp.
    repeat split; try done.
  - intros db d Hd. unfold getFeatured in Hd.
    apply (elem_of_page _ 6 0), elem_of_find in Hd as [Hk Hc].
    split; [done|]. by apply andb_prop in Hc as [_ Hc].
  - intros db category d Hd. unfold getByCategory in Hd.
    rewrite sortCourses_perm in Hd. apply elem_of_find in Hd as [Hk Hc].
    split; [done|]. by apply andb_prop in Hc as [_ Hc].
Qed.

Lemma C8_only_published_witness :
  let d := listView ("65f000000000000000000107", catalogueEntry 7 "Business") in
  let e := ("65f000000000000000000106", catalogueEntry 6 "Design") in
  (∃ c, courses catalogueDb !! d.1 = Some c ∧ d = listView (d.1, c)
        ∧ Course.isPublished c = true ∧ Course.isPublished d.2 = true)
  ∧ (courses catalogueDb !! e.1 = Some e.2 ∧ Course.isPublished e.2 = true).
Proof.
  intros d e. split.
  - eapply (proj1 C8_only_published_listed noRegex clampsSkip catalogueDb
              (pageQuery (Some "2") (Some "5")) 200 _ d).
    + vm_compute. reflexivity.
    + vm_compute. apply list_elem_of_here.
  - apply (proj2 (proj2 C8_only_published_listed) catalogueDb "Design" e).
    vm_compute. apply list_elem_of_here.
Defined.

(** *** Pagination *)


Lemma listErrors_nil_limit q :
  listErrors q = [] →
  1 ≤ from_option toNumber 12 (q_limit q) ≤ 50
  ∧ (q_limit q = None → from_option toNumber 12 (q_limit q) = 12).
Proof.
  unfold listErrors. intros H.
  repeat (apply app_eq_nil in H as [_ H]).
  destruct (q_limit q) as [l|]; simpl in *; [|lia].
  destruct (isInt 1 (Some 50) l) eqn:Hl; [|done].
  split; [by apply isInt_range|done].
Qed.

Lemma listErrors_bad_limit q l :
  q_limit q = Some l → isInt 1 (Some 50) l = false →
  "Limit must be between 1 and 50" ∈ listErrors q.
Proof.
  intros Hq Hl. unfold listErrors. rewrite Hq. simpl. rewrite Hl.
  rewrite !elem_of_app. do 5 right. apply list_elem_of_here.
Qed.

(** C7 (amended). A [limit] that is not an integer from 1 to 50 is
    rejected with 400 "Limit must be between 1 and 50", not clamped. Every
    successful reply holds the courses that follow the skipped ones in
    sort order, up to the page size, and its count is their number; the
    page size is the [limit] of the request, an integer from 1 to 50,
    and 12 when [limit] is absent. A request without [page] and [limit]
    returns the first twelve matches. Page 2 with limit 5 over 12
    matching published courses returns the sixth to the tenth of them in
    sort order, with 3 pages in all. *)
Theorem C7_page_size_bounded :
  (∀ regex_i servesHugeSkip db q l,
     q_limit q = Some l → isInt 1 (Some 50) l = false →
     listCourses regex_i servesHugeSkip db q
     = Err 400 (join_errors (listErrors q))
     ∧ "Limit must be between 1 and 50" ∈ listErrors q)
  ∧ (∀ regex_i servesHugeSkip db q code page,
       listCourses regex_i servesHugeSkip db q = Ok code page →
       ∃ query limit,
         listFilter regex_i q = Some query
         ∧ match q_limit q with
           | Some l => isInt 1 (Some 50) l = true ∧ parse_int l = Some limit
           | None => limit = 12
           end
         ∧ 1 ≤ limit ≤ 50
         ∧ page_courses page
           = listView <$>
               take (Z.to_nat limit)
                 (drop (Z.to_nat (from_option (Z.min maxSkip) maxSkip (skipOf q)))
                    (sortCourses (default [(ByCreatedAt, true)] (q_sort q))
                       (find query db)))
         ∧ page_count page = length (page_courses page)
         ∧ (page_count page ≤ Z.to_nat limit)%nat
         ∧ page_total page = length (find query db))
  ∧ (∀ regex_i servesHugeSkip db q query,
       q_page q = None → q_limit q = None →
       listErrors q = [] → listFilter regex_i q = Some query →
       ∃ page,
         listCourses regex_i servesHugeSkip db q = Ok 200 page
         ∧ page_courses page
           = listView <$>
               take 12 (sortCourses (default [(ByCreatedAt, true)] (q_sort q))
                          (find query db))
         ∧ page_count page = (length (find query db) `min` 12)%nat)
  ∧ (∀ regex_i servesHugeSkip db q query,
       q_page q = Some "2" → q_limit q = Some "5" →
       listErrors q = [] → listFilter regex_i q = Some query →
       length (find query db) = 12%nat →
       ∃ page,
         listCourses regex_i servesHugeSkip db q = Ok 200 page
         ∧ page_courses page
           = listView <$>
               take 5 (drop 5 (sortCourses
                                 (default [(ByCreatedAt, true)] (q_sort q))
                                 (find query db)))
         ∧ page_count page = 5%nat
         ∧ page_total page = 12%nat
         ∧ page_pages page = 3
         ∧ page_currentPage page = Some 2
         ∧ ∀ d, d ∈ page_courses page → Course.isPublished d.2 = true).
Proof.
  split; [|split; [|split]].
  - intros regex_i serves db q l Hq Hl.
    pose proof (listErrors_bad_limit q l Hq Hl) as Hin. split; [|done].
    unfold listCourses. destruct (listErrors q); [|done].
    by apply not_elem_of_nil in Hin.
  - intros regex_i serves db q code page H.
    apply listCourses_ok_inv in H as (query & He & Hq & _ & ->).
    destruct (listErrors_nil_limit q He) as [Hrange Hdefault].
    exists query, (from_option toNumber 12 (q_limit q)).
    split; [done|]. split.
    { unfold listErrors in He. repeat (apply app_eq_nil in He as [_ He]).
      destruct (q_limit q) as [l|]; simpl in *; [|done].
      destruct (isInt 1 (Some 50) l) eqn:Hl; [|done]. split; [done|].
      unfold isInt, toNumber in *. by destruct (parse_int l). }
    split; [done|]. split; [done|]. split; [done|]. split; [|done].
    simpl. rewrite length_fmap, length_take. lia.
  - intros regex_i serves db q query Hpage Hlimit He Hq.
    assert (Hskip : skipOf q = Some 0).
    { unfold skipOf. by rewrite Hpage, Hlimit. }
    unfold listCourses. rewrite He, Hq, Hskip, Hpage, Hlimit. simpl.
    eexists. split; [reflexivity|]. simpl.
    rewrite skipDocuments_drop. change (Z.to_nat 12) with 12%nat.
    change (Z.to_nat (0 `min` maxSkip)) with 0%nat. rewrite drop_0.
    split; [done|]. rewrite length_fmap, length_take.
    rewrite (Permutation_length (sortCourses_perm _ _)). lia.
  - intros regex_i serves db q query Hpage Hlimit He Hq Hlen.
    assert (Hskip : skipOf q = Some 5).
    { unfold skipOf. by rewrite Hpage, Hlimit. }
    unfold listCourses. rewrite He, Hq, Hskip, Hpage, Hlimit, Hlen. simpl.
    eexists. split; [reflexivity|]. simpl.
    rewrite skipDocuments_drop. change (Z.to_nat (toNumber "5")) with 5%nat.
    change (Z.to_nat (maxSkip `min` 5)) with 5%nat.
    repeat split.
    + rewrite length_fmap, length_take, length_drop.
      rewrite (Permutation_length (sortCourses_perm _ _)), Hlen. done.
    + intros d ([k c] & -> & Hd)%list_elem_of_fmap.
      apply elem_of_page, elem_of_find in Hd as [_ Hc]. simpl in *.
      by apply (listFilter_published _ _ _ _ Hq).
Qed.

Lemma C7_page_size_witness :
  (listCourses noRegex clampsSkip catalogueDb (pageQuery None (Some "0"))
   = Err 400 (join_errors (listErrors (pageQuery None (Some "0"))))
   ∧ "Limit must be between 1 and 50" ∈ listErrors (pageQuery None (Some "0")))
  ∧ (∃ page,
       listCourses noRegex clampsSkip catalogueDb (pageQuery None None)
       = Ok 200 page
       ∧ page_count page = 12%nat)
  ∧ ∃ page,
      listCourses noRegex clampsSkip catalogueDb
        (pageQuery (Some "2") (Some "5"))
      = Ok 200 page
      ∧ page_courses page
        = listView <$>
            take 5 (drop 5 (sortCourses [(ByCreatedAt, true)]
                              (find Course.isPublished catalogueDb)))
      ∧ page_count page = 5%nat
      ∧ page_total page = 12%nat
      ∧ page_pages page = 3
      ∧ page_currentPage page = Some 2
      ∧ ∀ d, d ∈ page_courses page → Course.isPublished d.2 = true.
Proof.
  destruct C7_page_size_bounded as (Hreject & _ & Hdefault & Hscenario).
  split; [|split].
  - apply (Hreject noRegex clampsSkip catalogueDb (pageQuery None (Some "0")) "0");
      reflexivity.
  - destruct (Hdefault noRegex clampsSkip catalogueDb (pageQuery None None)
                (λ c, Course.isPublished c && true && true && true && true))
      as (page & H1 & _ & H3); try reflexivity.
    exists page. split; [exact H1|]. rewrite H3. vm_compute. reflexivity.
  - destruct (Hscenario noRegex clampsSkip catalogueDb
                (pageQuery (Some "2") (Some "5"))
                (λ c, Course.isPublished c && true && true && true && true))
      as (page & H1 & H2 & H3); try reflexivity.
    exists page. split; [exact H1|]. split; [|exact H3].
    rewrite H2. vm_compute. reflexivity.
Defined.

(** The claim as first stated fails: a request for 100 courses a page is
    answered 400, where clamping would have served it as a request for
    50, which returns all twelve published courses. *)
Lemma C7_counterexample :
  listCourses noRegex clampsSkip catalogueDb (pageQuery None (Some "100"))
  = Err 400 "Limit must be between 1 and 50"
  ∧ clampLimit 100 = 50
  ∧ (∃ page, listCourses noRegex clampsSkip catalogueDb (pageQuery None (Some "50"))
             = Ok 200 page ∧ page_count page = 12%nat)
  ∧ listCourses noRegex clampsSkip catalogueDb (pageQuery None (Some "100"))
    ≠ listCourses noRegex clampsSkip catalogueDb (pageQuery None (Some "50")).
Proof.
  split; [by vm_compute|]. split; [done|]. split.
  - eexists. split; [vm_compute; reflexivity|]. reflexivity.
  - vm_compute. discriminate.
Qed.

(** *** The category listing *)

(** [getByCategory] returns exactly the stored published courses of the
    category. *)
Lemma getByCategory_elem db category (d : ObjectId * Course.t) :
  d ∈ getByCategory db category ↔
  courses db !! d.1 = Some d.2
  ∧ Course.category d.2 = category ∧ Course.isPublished d.2 = true.
Proof.
  unfold getByCategory. rewrite sortCourses_perm, elem_of_find.
  rewrite andb_true_iff, bool_decide_eq_true. tauto.
Qed.

(** Its order: by the [rating] document descending (average, then
    count), then newest first. *)
Lemma getByCategory_sorted db category :
  Sorted (sortLe [(ByRating, true); (ByCreatedAt, true)])
    (getByCategory db category).
Proof. apply sortCourses_sorted. Qed.

Lemma Sorted_weaken {A} (R S : relation A) (l : list A) :
  (∀ a b, R a b → S a b) → Sorted R l → Sorted S l.
Proof.
  intros HRS. induction 1 as [|a l Hl IH Hhd]; constructor; [done|].
  destruct Hhd; constructor; auto.
Qed.

(** In particular the averages never increase along the listing. *)
Lemma getByCategory_average_descending db category :
  Sorted (λ a b, (average (Course.rating b.2) <= average (Course.rating a.2))%Q)
    (getByCategory db category).
Proof.
  eapply Sorted_weaken, getByCategory_sorted.
  intros a b. unfold sortLe. simpl. unfold compareRating. intros H.
  apply Qle_alt. rewrite <- Qcompare_antisym.
  destruct (average (Course.rating a.2) ?= average (Course.rating b.2))%Q;
    simpl in *; done.
Qed.

(** C9. On two published Programming courses of equal average 4, the
    older with two reviews and the newer with one, the category listing
    puts the older course first: the tie is decided by the review count,
    and the listing is not in the order "average descending, then newest
    first". Every arrangement of the two courses that respects the sort
    specification of [getByCategory] is this one, whatever the sorting
    algorithm does with equal keys. *)
Theorem C9_category_tie_not_newest_first :
  (average (Course.rating olderCourse) == average (Course.rating newerCourse))%Q
  ∧ Course.createdAt olderCourse < Course.createdAt newerCourse
  ∧ getByCategory tieDb "Programming"
    = [(olderCourseId, olderCourse); (newerCourseId, newerCourse)]
  ∧ sortCourses byAverageThenNewest (find (λ _, true) tieDb)
    = [(newerCourseId, newerCourse); (olderCourseId, olderCourse)]
  ∧ ¬ Sorted (sortLe byAverageThenNewest) (getByCategory tieDb "Programming")
  ∧ ∀ l,
      l ≡ₚ find (λ c, bool_decide (Course.category c = "Programming")
                      && Course.isPublished c) tieDb →
      Sorted (sortLe [(ByRating, true); (ByCreatedAt, true)]) l →
      l = [(olderCourseId, olderCourse); (newerCourseId, newerCourse)].
Proof.
  split; [done|]. split; [done|]. split; [by vm_compute|].
  split; [by vm_compute|]. split.
  - apply (proj1 (bool_decide_eq_false _)). vm_compute. reflexivity.
  - intros l Hperm Hsorted.
    assert (Hfound :
      find (λ c, bool_decide (Course.category c = "Programming")
                 && Course.isPublished c) tieDb
      ≡ₚ [(olderCourseId, olderCourse); (newerCourseId, newerCourse)]).
    { first [ by vm_compute
            | transitivity [(newerCourseId, newerCourse);
                            (olderCourseId, olderCourse)];
              [by vm_compute | apply perm_swap] ]. }
    rewrite Hfound in Hperm. symmetry in Hperm.
    apply Permutation_length_2_inv in Hperm as [->| ->]; [done|].
    exfalso. revert Hsorted.
    apply (proj1 (bool_decide_eq_false _)). vm_compute. reflexivity.
Qed.

(** ** Ownership of courses *)

(** Instructors and admins pass [authorize('admin', 'instructor')]. *)
Lemma authorize_staff user :
  User.role (account user) ≠ student →
  authorize [admin; instructor] user = Next user.
Proof.
  intros H. unfold authorize. rewrite decide_True; [done|].
  destruct (User.role (account user)); set_solver.
Qed.

Section OwnershipFacts.
Context {Body : Type} (bodyErrors : Body → list string)
        (findByIdAndUpdate : Body → Course.t → option Course.t).
Implicit Types (db : DB) (user : ReqUser) (course : Course.t).

(** On a course with a recorded owner, an instructor who is not that
    owner is refused by all three routes. *)
Lemma other_instructor_forbidden db courseId user course owner body :
  courses db !! courseId = Some course →
  Course.instructorId course = Some owner →
  owner ≠ id user →
  User.role (account user) = instructor →
  bodyErrors body = [] →
  updateCourse Body bodyErrors findByIdAndUpdate db courseId user body
  = (Err 403 "Not authorized to update this course", db)
  ∧ deleteCourse db courseId user
    = (Err 403 "Not authorized to delete this course", db)
  ∧ courseStats db courseId user
    = Err 403 "Not authorized to view course statistics".
Proof.
  intros Hc Ho Hne Hr Hb.
  unfold updateCourse, deleteCourse, courseStats.
  rewrite Hb, Hc, Ho, Hr. simpl.
  rewrite (bool_decide_eq_true_2 _ Hne). done.
Qed.

(** On a course with a recorded owner, an admin passes the ownership
    check of all three routes, whoever the owner is. *)
Lemma admin_allowed db courseId user course owner body :
  courses db !! courseId = Some course →
  Course.instructorId course = Some owner →
  User.role (account user) = admin →
  bodyErrors body = [] →
  (∀ course', findByIdAndUpdate body course = Some course' →
     updateCourse Body bodyErrors findByIdAndUpdate db courseId user body
     = (Ok 200 course', saveCourse db courseId course'))
  ∧ (deleteCourse db courseId user).1 = Ok 200 ()
  ∧ ∃ stats, courseStats db courseId user = Ok 200 stats.
Proof.
  intros Hc Ho Hr Hb.
  unfold updateCourse, deleteCourse, courseStats.
  rewrite Hb, Hc, Ho, Hr. simpl.
  rewrite !andb_false_r.
  split; [|split].
  - by intros course' ->.
  - done.
  - eauto.
Qed.
End OwnershipFacts.

(** C5. On a stored course that has no [instructorId], the ownership
    check of update, delete and stats throws before it looks at the role:
    every caller, admin included, is answered 500, and nothing is
    written. *)
Theorem C5_ownerless_course_answers_500 :
  ∀ db courseId user course,
    courses db !! courseId = Some course →
    Course.instructorId course = None →
    deleteCourse db courseId user
    = (Err 500 "Server error while deleting course", db)
    ∧ courseStats db courseId user
      = Err 500 "Server error while fetching course statistics"
    ∧ ∀ Body bodyErrors findByIdAndUpdate (body : Body),
        bodyErrors body = [] →
        updateCourse Body bodyErrors findByIdAndUpdate db courseId user body
        = (Err 500 "Server error while updating course", db).
Proof.
  intros db courseId user course Hc Ho.
  unfold deleteCourse, courseStats, updateCourse. rewrite Hc, Ho.
  repeat split. intros Body bodyErrors findByIdAndUpdate body ->. done.
Qed.

Lemma C5_ownerless_course_witness :
  let caller := asReqUser adminId adminUser in
  authorize [admin; instructor] caller = Next caller
  ∧ deleteCourse orphanDb orphanCourseId caller
    = (Err 500 "Server error while deleting course", orphanDb)
  ∧ courseStats orphanDb orphanCourseId caller
    = Err 500 "Server error while fetching course statistics"
  ∧ updateCourse string titleErrors updateTitle orphanDb orphanCourseId
      caller "Marketing Mastery"
    = (Err 500 "Server error while updating course", orphanDb).
Proof.
  intros caller. split; [reflexivity|].
  destruct (C5_ownerless_course_answers_500 orphanDb orphanCourseId caller
              orphanCourse) as (Hd & Hs & Hu); [reflexivity..|].
  split; [exact Hd|]. split; [exact Hs|].
  apply Hu. reflexivity.
Defined.

(** ** Authentication *)

Section AuthFacts.
Variable jwt_verify : string → option ObjectId.
Implicit Types (db : DB) (authorization : option string).

(** [optionalAuth] never answers by itself, and agrees with [protect]
    except on a deactivated account: where [protect] lets a caller
    through, [optionalAuth] attaches the same caller; where [protect]
    answers 401 for a missing or failed token or a missing account,
    [optionalAuth] attaches nobody. *)
Lemma optionalAuth_vs_protect db authorization :
  match protect jwt_verify db authorization with
  | Next user => optionalAuth jwt_verify db authorization = Some user
  | Respond code error =>
    code = 401
    ∧ (error = "Account is deactivated"
       ∨ optionalAuth jwt_verify db authorization = None)
  end.
Proof.
  unfold protect, optionalAuth.
  destruct authorization as [header|]; [|by auto].
  destruct (String.prefix "Bearer" header); [|by auto].
  destruct (decodeHeader jwt_verify header) as [uid|]; [|by auto].
  destruct (users db !! uid) as [u|]; [|by auto]. simpl.
  destruct (User.isActive u); simpl; auto.
Qed.
End AuthFacts.

(** C6. For a token that verifies and names a stored account whose
    [isActive] flag is false, [protect] answers 401 "Account is
    deactivated" while [optionalAuth] attaches that account as the
    caller, not the anonymous identity. *)
Theorem C6_optionalAuth_attaches_deactivated :
  ∀ jwt_verify db header uid u,
    String.prefix "Bearer" header = true →
    decodeHeader jwt_verify header = Some uid →
    users db !! uid = Some u →
    User.isActive u = false →
    protect jwt_verify db (Some header) = Respond 401 "Account is deactivated"
    ∧ optionalAuth jwt_verify db (Some header)
      = Some (mkReqUser uid (withoutPassword u))
    ∧ optionalAuth jwt_verify db (Some header) ≠ None.
Proof.
  intros jwt_verify db header uid u Hp Hd Hu Ha.
  unfold protect, optionalAuth. rewrite Hp, Hd, Hu, Ha. done.
Qed.

Lemma C6_optionalAuth_witness :
  protect sampleVerify deactivatedDb (Some "Bearer header.demo.signature")
  = Respond 401 "Account is deactivated"
  ∧ optionalAuth sampleVerify deactivatedDb (Some "Bearer header.demo.signature")
    = Some (mkReqUser demoId
              (withoutPassword (User.set_isActive demoUser false)))
  ∧ optionalAuth sampleVerify deactivatedDb (Some "Bearer header.demo.signature")
    ≠ None.
Proof.
  apply (C6_optionalAuth_attaches_deactivated sampleVerify deactivatedDb
           "Bearer header.demo.signature" demoId
           (User.set_isActive demoUser false)); reflexivity.
Defined.

(** ** Signup *)

Section SignupFacts.
Variables (isEmail : string → bool) (normalizeEmail : string → string)
          (emailMatches : string → bool) (bcrypt_hash : string → string)
          (jwt_sign : ObjectId → string).

Lemma createUser_role name email password u :
  createUser emailMatches bcrypt_hash name email password = Some u →
  User.role u = student.
Proof.
  unfold createUser. case_match; [|done]. by intros [= <-].
Qed.

(** The handler never reads [role] of the body. *)
Lemma signup_ignores_role db newId now body role' :
  signup isEmail normalizeEmail emailMatches bcrypt_hash jwt_sign
    db newId now
    (mkSignupBody (body_name body) (body_email body) (body_password body) role')
  = signup isEmail normalizeEmail emailMatches bcrypt_hash jwt_sign
      db newId now body.
Proof. reflexivity. Qed.
End SignupFacts.

(** C10. Every account that signup creates has the role [student], in the
    reply and in the database, and the handler's result does not depend on
    a [role] field of the request body. *)
Theorem C10_signup_creates_students :
  ∀ isEmail normalizeEmail emailMatches bcrypt_hash jwt_sign
    db newId now body code reply db',
    signup isEmail normalizeEmail emailMatches bcrypt_hash jwt_sign
      db newId now body = (Ok code reply, db') →
    code = 201
    ∧ reply_role reply = student
    ∧ reply_id reply = newId
    ∧ users db !! newId = None
    ∧ (∃ u, users db' !! newId = Some u ∧ User.role u = student)
    ∧ ∀ role',
        signup isEmail normalizeEmail emailMatches bcrypt_hash jwt_sign
          db newId now
          (mkSignupBody (body_name body) (body_email body)
             (body_password body) role')
        = (Ok code reply, db').
Proof.
  intros isEmail normalizeEmail emailMatches bcrypt_hash jwt_sign
    db newId now body code reply db' H.
  assert (Hrole : ∀ role',
    signup isEmail normalizeEmail emailMatches bcrypt_hash jwt_sign
      db newId now
      (mkSignupBody (body_name body) (body_email body)
         (body_password body) role') = (Ok code reply, db')).
  { intros role'. by rewrite signup_ignores_role. }
  unfold signup in H.
  destruct (signupErrors isEmail body); [|done].
  case_bool_decide; [done|].
  destruct (createUser _ _ _ _ _) as [u|] eqn:Hu; [|done].
  destruct (users db !! newId) eqn:Hnew; [done|].
  apply createUser_role in Hu. simplify_eq. simpl.
  repeat split; try done.
  exists (User.updateLastLogin u now). by rewrite lookup_insert_eq.
Qed.

Lemma C10_signup_witness :
  let result :=
    signup has_at lowercase has_at sampleHash sampleSign
      sampleDb malloryId 99 malloryBody in
  body_role malloryBody = Some "admin"
  ∧ reply_role (mkSignupReply (sampleSign malloryId) malloryId "Mallory"
                  "mallory@example.com" student []) = student
  ∧ (∃ u, users result.2 !! malloryId = Some u ∧ User.role u = student)
  ∧ signup has_at lowercase has_at sampleHash sampleSign sampleDb malloryId 99
      (mkSignupBody "Mallory" "Mallory@Example.com" "secret123" None)
    = result.
Proof.
  intros result.
  destruct (C10_signup_creates_students has_at lowercase has_at sampleHash
              sampleSign sampleDb malloryId 99 malloryBody 201
              (mkSignupReply (sampleSign malloryId) malloryId "Mallory"
                 "mallory@example.com" student [])
              result.2)
    as (_ & Hr & _ & _ & Hu & Hb).
  - vm_compute. reflexivity.
  - split; [reflexivity|]. split; [exact Hr|]. split; [exact Hu|].
    etrans; [apply (Hb None)|]. vm_compute. reflexivity.
Defined.

(** ** The model methods on their own *)

Section MethodFacts.
Implicit Types (c : Course.t) (a : User.t) (x s : ObjectId) (l : list ObjectId).

(** Pushing an identifier that is absent, as the three guarded methods do. *)
Lemma push_absent_NoDup l s : NoDup l → s ∉ l → NoDup (l ++ [s]).
Proof.
  intros Hl Hs. apply NoDup_app. split; [done|]. split.
  - intros x Hx Hs'%list_elem_of_singleton. by subst.
  - apply NoDup_singleton.
Qed.

Lemma filter_ne_elem l s x :
  x ∈ filter (λ y, y ≠ s) l ↔ x ≠ s ∧ x ∈ l.
Proof. by rewrite list_elem_of_filter. Qed.

Lemma filter_ne_idemp l s :
  filter (λ y, y ≠ s) (filter (λ y, y ≠ s) l) = filter (λ y, y ≠ s) l.
Proof.
  apply filter_ne_not_in. rewrite filter_ne_elem. by intros [H _].
Qed.

Lemma filter_ne_NoDup l s : NoDup l → NoDup (filter (λ y, y ≠ s) l).
Proof. apply NoDup_filter. Qed.
End MethodFacts.



(** X3. [unenrollStudent] and [unenrollFromCourse] remove every occurrence
    of the identifier and nothing else, keep the order of what remains,
    leave a list that does not hold the identifier as it is, and a second
    call changes nothing. *)
Theorem X3_unenroll_removes_every_occurrence :
  (∀ (c : Course.t) (s : ObjectId),
     let c' := Course.unenrollStudent c s in
     (s ∉ Course.enrolledStudents c')
     ∧ (∀ x, x ≠ s → x ∈ Course.enrolledStudents c' ↔ x ∈ Course.enrolledStudents c)
     ∧ Course.enrolledStudents c' `sublist_of` Course.enrolledStudents c
     ∧ (NoDup (Course.enrolledStudents c) → NoDup (Course.enrolledStudents c'))
     ∧ (s ∉ Course.enrolledStudents c → c' = c)
     ∧ Course.unenrollStudent c' s = c')
  ∧ (∀ (a : User.t) (courseId : ObjectId),
       let a' := User.unenrollFromCourse a courseId in
       (courseId ∉ User.enrolledCourses a')
       ∧ (∀ x, x ≠ courseId →
               x ∈ User.enrolledCourses a' ↔ x ∈ User.enrolledCourses a)
       ∧ User.enrolledCourses a' `sublist_of` User.enrolledCourses a
       ∧ (NoDup (User.enrolledCourses a) → NoDup (User.enrolledCourses a'))
       ∧ User.completedCourses a' = User.completedCourses a
       ∧ (courseId ∉ User.enrolledCourses a → a' = a)
       ∧ User.unenrollFromCourse a' courseId = a').
Proof.
  split.
  - intros c s c'. unfold c', Course.unenrollStudent. simpl.
    split; [rewrite filter_ne_elem; by intros [H _]|].
    split; [intros x Hx; rewrite filter_ne_elem; tauto|].
    split; [apply sublist_filter|].
    split; [apply filter_ne_NoDup|].
    split.
    + intros Hs. rewrite filter_ne_not_in by done. by destruct c.
    + by rewrite filter_ne_idemp.
  - intros a s a'. unfold a', User.unenrollFromCourse. simpl.
    split; [rewrite filter_ne_elem; by intros [H _]|].
    split; [intros x Hx; rewrite filter_ne_elem; tauto|].
    split; [apply sublist_filter|].
    split; [apply filter_ne_NoDup|].
    split; [done|]. split.
    + intros Hs. rewrite filter_ne_not_in by done. by destruct a.
    + by rewrite filter_ne_idemp.
Qed.

(** *** Reviews *)

Lemma totalRating_bounds (l : list Review.t) (acc : Z) :
  Forall (λ review, 1 ≤ Review.rating review ≤ 5) l →
  acc + Z.of_nat (length l)
  ≤ foldl (λ sum review, sum + Review.rating review) acc l
  ≤ acc + 5 * Z.of_nat (length l).
Proof.
  intros H. revert acc. induction H as [|r l Hr _ IH]; intros acc; simpl.
  - lia.
  - specialize (IH (acc + Review.rating r)). lia.
Qed.



(** X5. When the stored ratings and the new rating are between 1 and 5,
    the average that [addReview] stores is between 1 and 5 as well, and
    so is every rating of the new list. *)
Theorem X5_addReview_average_in_range :
  ∀ (c : Course.t) now (u : ObjectId) r cm,
    Forall (λ review, 1 ≤ Review.rating review ≤ 5) (Course.reviews c) →
    1 ≤ r ≤ 5 →
    let c' := Course.addReview c now u r cm in
    (1 <= average (Course.rating c'))%Q
    ∧ (average (Course.rating c') <= 5)%Q
    ∧ Forall (λ review, 1 ≤ Review.rating review ≤ 5) (Course.reviews c').
Proof.
  intros c now u r cm Hall Hr c'.
  assert (Hall' : Forall (λ review, 1 ≤ Review.rating review ≤ 5)
                    (Course.reviews c')).
  { unfold c'. rewrite addReview_reviews. apply Forall_app. split.
    - apply Forall_forall. intros x [_ Hx]%list_elem_of_filter.
      by apply (proj1 (Forall_forall _ _) Hall).
    - by apply Forall_singleton. }
  pose proof (totalRating_bounds _ 0 Hall') as Hb.
  pose proof (addReview_nonempty c now u r cm) as Hn. fold c' in Hn.
  assert (Hpos : (0 < inject_Z (Z.of_nat (length (Course.reviews c'))))%Q).
  { change 0%Q with (inject_Z 0). rewrite <- Zlt_Qlt. lia. }
  change (average (Course.rating c'))
    with (inject_Z (foldl (λ sum review, (sum + Review.rating review)%Z) 0%Z
                      (Course.reviews c'))
          / inject_Z (Z.of_nat (length (Course.reviews c'))))%Q.
  split; [|split; [|done]].
  - apply Qle_shift_div_l; [done|]. rewrite Qmult_1_l, <- Zle_Qle. lia.
  - apply Qle_shift_div_r; [done|].
    change 5%Q with (inject_Z 5). rewrite <- inject_Z_mult, <- Zle_Qle. lia.
Qed.

Lemma X5_addReview_average_witness :
  let c' := Course.addReview olderCourse 1300 adminId 2 None in
  (1 <= average (Course.rating c'))%Q
  ∧ (average (Course.rating c') <= 5)%Q
  ∧ Forall (λ review, 1 ≤ Review.rating review ≤ 5) (Course.reviews c').
Proof.
  apply (X5_addReview_average_in_range olderCourse 1300 adminId 2 None).
  - repeat constructor; done.
  - done.
Defined.

(** ** Invariants of the enrollment relation *)

Section RelationFacts.
Implicit Types (db : DB) (user : ReqUser) (c : Course.t) (a : User.t).

(** The database that enroll leaves: untouched, the course written with
    the account missing, or both documents written. *)
Lemma enroll_state db cid user :
  (enroll db cid user).2 = db
  ∨ ∃ c, courses db !! cid = Some c
         ∧ (id user ∉ Course.enrolledStudents c)
         ∧ ((users db !! id user = None
             ∧ (enroll db cid user).2
               = saveCourse db cid
                   (Course.set_enrolledStudents c
                      (Course.enrolledStudents c ++ [id user])))
            ∨ ∃ a, users db !! id user = Some a
                   ∧ (enroll db cid user).2
                     = saveUser
                         (saveCourse db cid
                            (Course.set_enrolledStudents c
                               (Course.enrolledStudents c ++ [id user])))
                         (id user) (User.enrollInCourse a cid)).
Proof.
  unfold enroll.
  destruct (courses db !! cid) as [c|] eqn:Hc; [|by left].
  destruct (Course.isPublished c); [|by left]. simpl.
  destruct (decide (id user ∈ Course.enrolledStudents c)) as [|Hn]; [by left|].
  right. exists c. split; [done|]. split; [done|].
  unfold Course.enrollStudent. rewrite decide_False by done. simpl.
  destruct (users db !! id user) as [a|] eqn:Hu; [right; by exists a|by left].
Qed.

Lemma unenroll_state db cid user :
  (unenroll db cid user).2 = db
  ∨ ∃ c, courses db !! cid = Some c
         ∧ ((users db !! id user = None
             ∧ (unenroll db cid user).2
               = saveCourse db cid (Course.unenrollStudent c (id user)))
            ∨ ∃ a, users db !! id user = Some a
                   ∧ (unenroll db cid user).2
                     = saveUser
                         (saveCourse db cid (Course.unenrollStudent c (id user)))
                         (id user) (User.unenrollFromCourse a cid)).
Proof.
  unfold unenroll.
  destruct (courses db !! cid) as [c|] eqn:Hc; [|by left].
  destruct (decide (id user ∈ Course.enrolledStudents c)); [|by left].
  right. exists c. split; [done|]. simpl.
  destruct (users db !! id user) as [a|] eqn:Hu; [right; by exists a|by left].
Qed.

Lemma complete_state db now cid user :
  (complete db now cid user).2 = db
  ∨ ∃ a, users db !! id user = Some a
         ∧ (complete db now cid user).2
           = saveUser db (id user) (User.completeCourse a cid).
Proof.
  unfold complete.
  destruct (courses db !! cid) as [c|]; [|by left].
  destruct (decide (id user ∈ Course.enrolledStudents c)); [|by left].
  destruct (users db !! id user) as [a|] eqn:Hu; [|by left].
  destruct (decide (cid ∈ User.completedCourses a)); [by left|].
  right. by exists a.
Qed.

Lemma postReview_state db now cid user rating comment :
  (postReview db now cid user rating comment).2 = db
  ∨ ∃ c, courses db !! cid = Some c
         ∧ (postReview db now cid user rating comment).2
           = saveCourse db cid
               (Course.addReview c now (id user) (toNumber rating)
                  (trim <$> comment)).
Proof.
  unfold postReview.
  destruct (reviewErrors rating comment); [|by left].
  destruct (courses db !! cid) as [c|] eqn:Hc; [|by left].
  destruct (Course.isPublished c); [|by left]. simpl.
  destruct (decide (id user ∈ Course.enrolledStudents c)); [|by left].
  case_bool_decide; [|by left].
  right. by exists c.
Qed.

Lemma deleteCourse_state db cid user :
  (deleteCourse db cid user).2 = db
  ∨ (deleteCourse db cid user = (Ok 200 (),
       mkDB (pullCourse cid <$> users db) (delete cid (courses db)))).
Proof.
  unfold deleteCourse.
  destruct (courses db !! cid) as [c|]; [|by left].
  destruct (Course.instructorId c); [|by left].
  destruct (_ && _); [by left|by right].
Qed.


Lemma pullCourse_not_enrolled cid a :
  cid ∉ User.enrolledCourses (pullCourse cid a).
Proof.
  unfold pullCourse. case_decide; [|done]. simpl.
  rewrite filter_ne_elem. by intros [Hx _].
Qed.



Lemma enrollInCourse_elem a cid y :
  y ∈ User.enrolledCourses (User.enrollInCourse a cid)
  ↔ y = cid ∨ y ∈ User.enrolledCourses a.
Proof.
  unfold User.enrollInCourse. case_decide; simpl.
  - split; [by right|]. by intros [->|].
  - rewrite elem_of_app, list_elem_of_singleton. tauto.
Qed.





End RelationFacts.



Section DuplicateFacts.
Implicit Types (db : DB) (user : ReqUser) (c : Course.t) (a : User.t).

Lemma duplicateFree_saveCourse db cid c' :
  duplicateFree db → NoDup (Course.enrolledStudents c') →
  duplicateFree (saveCourse db cid c').
Proof.
  intros [Hc Hu] Hnd. split; [|done]. simpl.
  intros cid1 c1 [[<- <-]|[_ H1]]%lookup_insert_Some; [done|]. by apply (Hc cid1).
Qed.

Lemma duplicateFree_saveUser db uid a' :
  duplicateFree db →
  NoDup (User.enrolledCourses a') → NoDup (User.completedCourses a') →
  duplicateFree (saveUser db uid a').
Proof.
  intros [Hc Hu] Hn1 Hn2. split; [done|]. simpl.
  intros uid1 u1 [[<- <-]|[_ H1]]%lookup_insert_Some; [done|]. by apply (Hu uid1).
Qed.

Lemma pullCourse_NoDup cid a :
  NoDup (User.enrolledCourses a) ∧ NoDup (User.completedCourses a) →
  NoDup (User.enrolledCourses (pullCourse cid a))
  ∧ NoDup (User.completedCourses (pullCourse cid a)).
Proof.
  intros [H1 H2]. unfold pullCourse. case_decide; [|done]. simpl.
  split; by apply filter_ne_NoDup.
Qed.
End DuplicateFacts.

(** X7. Whatever they answer, enroll, unenroll, complete, the review route
    and the deletion of a course never put an identifier twice into
    [enrolledStudents], [enrolledCourses] or [completedCourses]: a
    database without duplicates stays without duplicates. *)
Theorem X7_reference_lists_stay_duplicate_free :
  ∀ db courseId user,
    duplicateFree db →
    duplicateFree (enroll db courseId user).2
    ∧ duplicateFree (unenroll db courseId user).2
    ∧ (∀ now, duplicateFree (complete db now courseId user).2)
    ∧ (∀ now rating comment,
         duplicateFree (postReview db now courseId user rating comment).2)
    ∧ duplicateFree (deleteCourse db courseId user).2.
Proof.
  intros db cid user Hdb. pose proof Hdb as [Hcs Hus].
  split; [|split; [|split; [|split]]].
  - destruct (enroll_state db cid user)
      as [->|(c & Hc & Hn & [[Hu ->]|(a & Hu & ->)])]; [done| |].
    + apply duplicateFree_saveCourse; [done|]. simpl.
      apply push_absent_NoDup; [by apply (Hcs cid)|done].
    + destruct (Hus _ _ Hu) as [Ha1 Ha2].
      apply duplicateFree_saveUser.
      * apply duplicateFree_saveCourse; [done|]. simpl.
        apply push_absent_NoDup; [by apply (Hcs cid)|done].
      * unfold User.enrollInCourse. case_decide; [done|]. simpl.
        by apply push_absent_NoDup.
      * unfold User.enrollInCourse. by case_decide.
  - destruct (unenroll_state db cid user)
      as [->|(c & Hc & [[Hu ->]|(a & Hu & ->)])]; [done| |].
    + apply duplicateFree_saveCourse; [done|]. simpl.
      apply filter_ne_NoDup. by apply (Hcs cid).
    + destruct (Hus _ _ Hu) as [Ha1 Ha2].
      apply duplicateFree_saveUser.
      * apply duplicateFree_saveCourse; [done|]. simpl.
        apply filter_ne_NoDup. by apply (Hcs cid).
      * simpl. by apply filter_ne_NoDup.
      * done.
  - intros now.
    destruct (complete_state db now cid user) as [->|(a & Hu & ->)]; [done|].
    destruct (Hus _ _ Hu) as [Ha1 Ha2].
    apply duplicateFree_saveUser; [done| |].
    + unfold User.completeCourse. by case_decide.
    + unfold User.completeCourse. case_decide; [done|]. simpl.
      by apply push_absent_NoDup.
  - intros now rating comment.
    destruct (postReview_state db now cid user rating comment)
      as [->|(c & Hc & ->)]; [done|].
    apply duplicateFree_saveCourse; [done|]. simpl. by apply (Hcs cid).
  - destruct (deleteCourse_state db cid user) as [->| ->]; [done|].
    split; simpl.
    + intros cid1 c1 [_ H1]%lookup_delete_Some. by apply (Hcs cid1).
    + intros uid1 u1 (u0 & <- & Hu0)%lookup_fmap_Some.
      apply pullCourse_NoDup. by apply (Hus uid1).
Qed.

Lemma X7_duplicate_free_witness :
  let user := asReqUser demoId demoUser in
  duplicateFree (enroll sampleDb jsCourseId user).2
  ∧ duplicateFree (unenroll enrolledDb jsCourseId user).2
  ∧ (∀ now, duplicateFree (complete enrolledDb now jsCourseId user).2)
  ∧ duplicateFree (deleteCourse enrolledDb jsCourseId (asReqUser johnId johnSmith)).2.
Proof.
  intros user.
  assert (H1 : duplicateFree sampleDb)
    by (apply (bool_decide_unpack _); by vm_compute).
  assert (H2 : duplicateFree enrolledDb)
    by (apply (bool_decide_unpack _); by vm_compute).
  destruct (X7_reference_lists_stay_duplicate_free sampleDb jsCourseId user H1)
    as (Hen & _).
  destruct (X7_reference_lists_stay_duplicate_free enrolledDb jsCourseId user H2)
    as (_ & Hun & Hco & _).
  destruct (X7_reference_lists_stay_duplicate_free enrolledDb jsCourseId
              (asReqUser johnId johnSmith) H2) as (_ & _ & _ & _ & Hde).
  exact (conj Hen (conj Hun (conj Hco Hde))).
Defined.

(** ** What the enrollment routes leave alone *)

Section FrameFacts.
Implicit Types (db : DB) (user : ReqUser) (c : Course.t) (a : User.t).




End FrameFacts.


(** X9. The two writes of enroll and of unenroll are separate: when the
    account of the request is not stored, the handler has already written
    the course when it fails, answers 500 and leaves the course listing
    (or no longer listing) an account that lists nothing; a retry then
    answers 400. *)
Theorem X9_enroll_writes_course_before_account :
  ∀ db courseId user c,
    courses db !! courseId = Some c →
    users db !! id user = None →
    (Course.isPublished c = true →
     id user ∉ Course.enrolledStudents c →
     let db' := saveCourse db courseId
                  (Course.set_enrolledStudents c
                     (Course.enrolledStudents c ++ [id user])) in
     enroll db courseId user
     = (Err 500 "Server error while enrolling in course", db')
     ∧ id user ∈ enrolledStudentsOf db' courseId
     ∧ enroll db' courseId user
       = (Err 400 "Already enrolled in this course", db'))
    ∧ (id user ∈ Course.enrolledStudents c →
       let db' := saveCourse db courseId
                    (Course.unenrollStudent c (id user)) in
       unenroll db courseId user
       = (Err 500 "Server error while unenrolling from course", db')
       ∧ (id user ∉ enrolledStudentsOf db' courseId)
       ∧ unenroll db' courseId user
         = (Err 400 "Not enrolled in this course", db')).
Proof.
  intros db cid user c Hc Hu. split.
  - intros Hp Hn db'. unfold enroll at 1. rewrite Hc, Hp. simpl.
    rewrite decide_False by done. simpl. rewrite Hu.
    unfold Course.enrollStudent. rewrite decide_False by done.
    split; [done|].
    assert (Hin : id user ∈ Course.enrolledStudents c ++ [id user]).
    { rewrite elem_of_app, list_elem_of_singleton. tauto. }
    split.
    + unfold enrolledStudentsOf, db'. simpl. by rewrite lookup_insert_eq.
    + unfold enroll, db'. simpl. rewrite lookup_insert_eq. simpl.
      rewrite Hp. simpl. by rewrite decide_True.
  - intros Hin db'. unfold unenroll at 1. rewrite Hc.
    rewrite decide_True by done. simpl. rewrite Hu. split; [done|].
    assert (Hout : id user ∉ filter (λ y, y ≠ id user) (Course.enrolledStudents c)).
    { rewrite filter_ne_elem. by intros [H _]. }
    split.
    + unfold enrolledStudentsOf, db'. simpl. by rewrite lookup_insert_eq.
    + unfold unenroll, db'. simpl. rewrite lookup_insert_eq. simpl.
      by rewrite decide_False.
Qed.

Lemma X9_enroll_writes_witness :
  let ghost := mkReqUser ghostId (withoutPassword demoUser) in
  let db' := saveCourse sampleDb jsCourseId
               (Course.set_enrolledStudents jsCourse [ghostId]) in
  enroll sampleDb jsCourseId ghost
  = (Err 500 "Server error while enrolling in course", db')
  ∧ ghostId ∈ enrolledStudentsOf db' jsCourseId
  ∧ enroll db' jsCourseId ghost
    = (Err 400 "Already enrolled in this course", db').
Proof.
  intros ghost db'.
  apply (proj1 (X9_enroll_writes_course_before_account sampleDb jsCourseId
                  ghost jsCourse eq_refl eq_refl)).
  - reflexivity.
  - apply not_elem_of_nil.
Defined.

(** ** Routes behind [protect] *)

Section ProtectFacts.
Variable jwt_verify : string → option ObjectId.
Implicit Types (db : DB) (authorization : option string) (user : ReqUser).

Lemma protect_Next_inv db authorization user :
  protect jwt_verify db authorization = Next user →
  ∃ header u,
    authorization = Some header
    ∧ String.prefix "Bearer" header = true
    ∧ decodeHeader jwt_verify header = Some (id user)
    ∧ users db !! id user = Some u
    ∧ User.isActive u = true
    ∧ account user = withoutPassword u.
Proof.
  unfold protect. intros H.
  destruct authorization as [header|]; [|done].
  destruct (String.prefix "Bearer" header) eqn:Hp; [|done].
  destruct (decodeHeader jwt_verify header) as [uid|] eqn:Hd; [|done].
  destruct (users db !! uid) as [u|] eqn:Hu; [|done].
  destruct (User.isActive u) eqn:Ha; [|done]. simpl in H.
  simplify_eq. by exists header, u.
Qed.

End ProtectFacts.

(** X10. [protect] lets a request through only with a Bearer token that
    verifies and names a stored, active account; the [req.user] it attaches
    is that account without its password hash, with its role and lists
    unchanged; and every refusal is a 401. *)
Theorem X10_protect_passes_stored_active_accounts :
  ∀ jwt_verify db authorization,
    match protect jwt_verify db authorization with
    | Next user =>
      ∃ header u,
        authorization = Some header
        ∧ String.prefix "Bearer" header = true
        ∧ split_space header !! 1%nat ≫= jwt_verify = Some (id user)
        ∧ users db !! id user = Some u
        ∧ User.isActive u = true
        ∧ User.password (account user) = None
        ∧ User.role (account user) = User.role u
        ∧ User.enrolledCourses (account user) = User.enrolledCourses u
        ∧ User.completedCourses (account user) = User.completedCourses u
    | Respond code error =>
      code = 401
      ∧ error ∈ ["Not authorized, no token"; "Not authorized, token failed";
                 "User not found"; "Account is deactivated"]
    end.
Proof.
  intros jwt_verify db authorization.
  destruct (protect jwt_verify db authorization) as [user|code error] eqn:H.
  - apply protect_Next_inv in H as (header & u & -> & Hp & Hd & Hu & Ha & Hacc).
    exists header, u. rewrite Hacc. by repeat split.
  - unfold protect in H.
    repeat case_match; simplify_eq; (split; [done|]);
      repeat first [ apply list_elem_of_here | apply list_elem_of_further ].
Qed.




(** ** Who may manage a course *)

(** X12. On a stored course that records an owner, update (with a body
    that passes validation), delete and stats go ahead exactly for the
    owner and for admins: they answer 403 and change nothing for every
    other caller, and for the owner and for admins delete answers 200,
    stats answers 200 and update writes what [findByIdAndUpdate] returns. *)
Theorem X12_owner_or_admin_decides :
  ∀ (Body : Type) (bodyErrors : Body → list string)
    (findByIdAndUpdate : Body → Course.t → option Course.t)
    db courseId user c owner (body : Body),
    courses db !! courseId = Some c →
    Course.instructorId c = Some owner →
    bodyErrors body = [] →
    (owner ≠ id user ∧ User.role (account user) ≠ admin →
     updateCourse Body bodyErrors findByIdAndUpdate db courseId user body
     = (Err 403 "Not authorized to update this course", db)
     ∧ deleteCourse db courseId user
       = (Err 403 "Not authorized to delete this course", db)
     ∧ courseStats db courseId user
       = Err 403 "Not authorized to view course statistics")
    ∧ (owner = id user ∨ User.role (account user) = admin →
       updateCourse Body bodyErrors findByIdAndUpdate db courseId user body
       = match findByIdAndUpdate body c with
         | Some c' => (Ok 200 c', saveCourse db courseId c')
         | None => (Err 500 "Server error while updating course", db)
         end
       ∧ deleteCourse db courseId user
         = (Ok 200 (), mkDB (pullCourse courseId <$> users db)
                         (delete courseId (courses db)))
       ∧ ∃ stats, courseStats db courseId user = Ok 200 stats).
Proof.
  intros Body bodyErrors findByIdAndUpdate db cid user c owner body Hc Ho Hb.
  unfold updateCourse, deleteCourse, courseStats. rewrite Hb, Hc, Ho.
  split.
  - intros [Hne Hr].
    rewrite (bool_decide_eq_true_2 _ Hne), (bool_decide_eq_true_2 _ Hr). done.
  - intros Hallowed.
    assert (Hcheck : bool_decide (owner ≠ id user)
                     && bool_decide (User.role (account user) ≠ admin) = false).
    { apply andb_false_iff.
      destruct Hallowed as [Heq|Hr]; [left|right];
        apply bool_decide_eq_false_2; intros Hne; by apply Hne. }
    rewrite Hcheck. split; [by destruct (findByIdAndUpdate body c)|].
    split; [done|]. eauto.
Qed.

Lemma X12_owner_or_admin_witness :
  (updateCourse string titleErrors updateTitle sampleDb jsCourseId
     (asReqUser janeId janeDoe) "JavaScript Mastery"
   = (Err 403 "Not authorized to update this course", sampleDb)
   ∧ deleteCourse sampleDb jsCourseId (asReqUser janeId janeDoe)
     = (Err 403 "Not authorized to delete this course", sampleDb)
   ∧ courseStats sampleDb jsCourseId (asReqUser janeId janeDoe)
     = Err 403 "Not authorized to view course statistics")
  ∧ (updateCourse string titleErrors updateTitle sampleDb jsCourseId
       (asReqUser johnId johnSmith) "JavaScript Mastery"
     = (Ok 200 (Course.set_title jsCourse "JavaScript Mastery"),
        saveCourse sampleDb jsCourseId
          (Course.set_title jsCourse "JavaScript Mastery"))
     ∧ deleteCourse sampleDb jsCourseId (asReqUser johnId johnSmith)
       = (Ok 200 (), mkDB (pullCourse jsCourseId <$> users sampleDb)
                       (delete jsCourseId (courses sampleDb)))
     ∧ ∃ stats, courseStats sampleDb jsCourseId (asReqUser johnId johnSmith)
                = Ok 200 stats).
Proof.
  split.
  - apply (X12_owner_or_admin_decides string titleErrors updateTitle sampleDb
             jsCourseId (asReqUser janeId janeDoe) jsCourse johnId
             "JavaScript Mastery" eq_refl eq_refl eq_refl).
    split; discriminate.
  - apply (X12_owner_or_admin_decides string titleErrors updateTitle sampleDb
             jsCourseId (asReqUser johnId johnSmith) jsCourse johnId
             "JavaScript Mastery" eq_refl eq_refl eq_refl).
    left. reflexivity.
Defined.

(** X13. Behind [protect] and [authorize('admin', 'instructor')], a caller
    whose account has the role student is answered 403 by update, delete
    and stats before any handler runs, with the database as it was; for
    an instructor or admin the route is its handler: the validation of
    the body (for update), the cast of the parameter and then the
    handler on the identifier that the cast gave. *)
Theorem X13_students_cannot_manage_courses :
  ∀ jwt_verify castObjectId (Body : Type) (bodyErrors : Body → list string)
    (findByIdAndUpdate : Body → Course.t → option Course.t)
    db authorization user param (body : Body),
    protect jwt_verify db authorization = Next user →
    (User.role (account user) = student →
     let refusal :=
       "User role student is not authorized to access this resource" in
     updateRoute jwt_verify castObjectId Body bodyErrors findByIdAndUpdate db
       authorization param body = (Err 403 refusal, db)
     ∧ deleteRoute jwt_verify castObjectId db authorization param
       = (Err 403 refusal, db)
     ∧ statsRoute jwt_verify castObjectId db authorization param
       = (Err 403 refusal, db))
    ∧ (User.role (account user) ≠ student →
       updateRoute jwt_verify castObjectId Body bodyErrors findByIdAndUpdate
         db authorization param body
       = match bodyErrors body with
         | (_ :: _) as errors => (Err 400 (join_errors errors), db)
         | [] =>
           withCourseId castObjectId db param
             "Server error while updating course"
             (λ courseId,
                updateCourse Body bodyErrors findByIdAndUpdate db courseId
                  user body)
         end
       ∧ deleteRoute jwt_verify castObjectId db authorization param
         = withCourseId castObjectId db param
             "Server error while deleting course"
             (λ courseId, deleteCourse db courseId user)
       ∧ statsRoute jwt_verify castObjectId db authorization param
         = withCourseId castObjectId db param
             "Server error while fetching course statistics"
             (λ courseId, (courseStats db courseId user, db))).
Proof.
  intros jwt_verify castObjectId Body bodyErrors findByIdAndUpdate db
    authorization user param body Hp.
  unfold updateRoute, deleteRoute, statsRoute, behindStaffGuard, behindProtect.
  rewrite Hp. split.
  - intros Hr. unfold authorize. rewrite Hr.
    rewrite decide_False; [done|].
    rewrite !elem_of_cons, elem_of_nil. by intros [|[|]].
  - intros Hr. by rewrite (authorize_staff user Hr).
Qed.

Lemma X13_students_witness :
  let refusal :=
    "User role student is not authorized to access this resource" in
  updateRoute sampleVerify sampleCast string titleErrors updateTitle sampleDb
    (Some "Bearer header.demo.signature") jsCourseId "JavaScript Mastery"
  = (Err 403 refusal, sampleDb)
  ∧ deleteRoute sampleVerify sampleCast sampleDb
      (Some "Bearer header.demo.signature") jsCourseId
    = (Err 403 refusal, sampleDb)
  ∧ statsRoute sampleVerify sampleCast sampleDb
      (Some "Bearer header.demo.signature") jsCourseId
    = (Err 403 refusal, sampleDb).
Proof.
  apply (X13_students_cannot_manage_courses sampleVerify sampleCast string
           titleErrors updateTitle sampleDb
           (Some "Bearer header.demo.signature")
           (asReqUser demoId demoUser) jsCourseId "JavaScript Mastery").
  - reflexivity.
  - reflexivity.
Defined.

(** ** Deleting a course *)

(** X14. When the deletion of a course is answered 200, the course is
    gone and every other course is as it was; no account lists the course
    in [enrolledCourses] any more; an account that listed it there has
    lost it from [completedCourses] too; and an account that did not list
    it there is unchanged, so it keeps the course in [completedCourses]
    if it had completed and then unenrolled. *)
Theorem X14_deleteCourse_cascade :
  ∀ db courseId user db',
    deleteCourse db courseId user = (Ok 200 (), db') →
    courses db' !! courseId = None
    ∧ (∀ cid, cid ≠ courseId → courses db' !! cid = courses db !! cid)
    ∧ dom (users db') = dom (users db)
    ∧ (∀ uid u', users db' !! uid = Some u' →
         courseId ∉ User.enrolledCourses u')
    ∧ (∀ uid u, users db !! uid = Some u →
         courseId ∈ User.enrolledCourses u →
         ∃ u', users db' !! uid = Some u'
               ∧ (courseId ∉ User.completedCourses u')
               ∧ (∀ x, x ≠ courseId →
                    (x ∈ User.enrolledCourses u' ↔ x ∈ User.enrolledCourses u)
                    ∧ (x ∈ User.completedCourses u'
                       ↔ x ∈ User.completedCourses u)))
    ∧ (∀ uid u, users db !! uid = Some u →
         courseId ∉ User.enrolledCourses u →
         users db' !! uid = Some u).
Proof.
  intros db cid user db' H. unfold deleteCourse in H.
  destruct (courses db !! cid) as [c|]; [|done].
  destruct (Course.instructorId c); [|done].
  destruct (_ && _); [done|]. simplify_eq. simpl.
  split; [apply lookup_delete_eq|].
  split; [intros cid1 Hne; by apply lookup_delete_ne|].
  split; [apply dom_fmap_L|].
  split.
  { intros uid u' (u & <- & Hu)%lookup_fmap_Some.
    apply pullCourse_not_enrolled. }
  split.
  - intros uid u Hu Hin. exists (pullCourse cid u).
    rewrite lookup_fmap, Hu. split; [done|].
    unfold pullCourse. rewrite decide_True by done. simpl. split.
    + rewrite filter_ne_elem. by intros [Hx _].
    + intros x Hx. rewrite !filter_ne_elem. tauto.
  - intros uid u Hu Hout. rewrite lookup_fmap, Hu. simpl.
    unfold pullCourse. by rewrite decide_False.
Qed.

Lemma X14_deleteCourse_witness :
  let db' := (deleteCourse enrolledDb jsCourseId (asReqUser johnId johnSmith)).2 in
  courses db' !! jsCourseId = None
  ∧ (∀ cid, cid ≠ jsCourseId → courses db' !! cid = courses enrolledDb !! cid)
  ∧ dom (users db') = dom (users enrolledDb)
  ∧ (∀ uid u', users db' !! uid = Some u' →
       jsCourseId ∉ User.enrolledCourses u')
  ∧ (∀ uid u, users enrolledDb !! uid = Some u →
       jsCourseId ∈ User.enrolledCourses u →
       ∃ u', users db' !! uid = Some u'
             ∧ (jsCourseId ∉ User.completedCourses u')
             ∧ (∀ x, x ≠ jsCourseId →
                  (x ∈ User.enrolledCourses u' ↔ x ∈ User.enrolledCourses u)
                  ∧ (x ∈ User.completedCourses u'
                     ↔ x ∈ User.completedCourses u)))
  ∧ (∀ uid u, users enrolledDb !! uid = Some u →
       jsCourseId ∉ User.enrolledCourses u →
       users db' !! uid = Some u).
Proof.
  apply (X14_deleteCourse_cascade enrolledDb jsCourseId
           (asReqUser johnId johnSmith)).
  vm_compute. reflexivity.
Defined.

(** ** Pages of the course list *)

Section PageFacts.
(** [Math.ceil] of a quotient of integers. *)
Lemma ceiling_of_quotient (a b : Z) :
  0 < b → Qceiling (inject_Z a / inject_Z b) = - ((- a) / b).
Proof.
  intros Hb. destruct b as [|p|p]; try lia.
  unfold Qceiling, Qfloor, Qdiv, Qmult, Qinv, Qopp, inject_Z. simpl.
  rewrite Z.mul_1_r. done.
Qed.

Lemma ceiling_bounds (a b : Z) :
  0 < b →
  (Qceiling (inject_Z a / inject_Z b) - 1) * b < a
  ≤ Qceiling (inject_Z a / inject_Z b) * b.
Proof.
  intros Hb. rewrite ceiling_of_quotient by done.
  pose proof (Z.div_mod (- a) b ltac:(lia)) as Hdm.
  pose proof (Z.mod_pos_bound (- a) b Hb) as Hm. nia.
Qed.

Lemma listErrors_nil_page q :
  listErrors q = [] → 1 ≤ from_option toNumber 1 (q_page q).
Proof.
  unfold listErrors. intros H.
  do 4 (apply app_eq_nil in H as [_ H]). apply app_eq_nil in H as [H _].
  destruct (q_page q) as [p|]; simpl in *; [|lia].
  unfold isInt, toNumber in *. destruct (parse_int p) as [z|]; [|done].
  simpl in *. destruct (1 <=? z) eqn:Hz; [lia|done].
Qed.
End PageFacts.

(** X15. As long as [page * limit] stays below [2 ^ 53], where the
    arithmetic of the handler is exact, a successful list reply is page
    [page] of the matching courses in sort order: its [i]-th course is
    the match at position [(page - 1) * limit + i] for [i < limit];
    [currentPage] is the page asked for; [total] counts all matches
    whatever the page; [pages] is the least number of pages of [limit]
    courses that hold them all; and a page beyond [pages] is empty. *)
Theorem X15_pages_partition_the_matches :
  ∀ regex_i servesHugeSkip db q code page,
    listCourses regex_i servesHugeSkip db q = Ok code page →
    from_option toNumber 1 (q_page q) * from_option toNumber 12 (q_limit q)
    < 2 ^ 53 →
    ∃ query,
      listFilter regex_i q = Some query
      ∧ let limit := from_option toNumber 12 (q_limit q) in
        let number := from_option toNumber 1 (q_page q) in
        let matches :=
          sortCourses (default [(ByCreatedAt, true)] (q_sort q))
            (find query db) in
        1 ≤ number
        ∧ page_currentPage page = Some number
        ∧ page_total page = length matches
        ∧ (∀ i : nat,
             page_courses page !! i
             = if decide (Z.of_nat i < limit)
               then listView <$>
                      matches !! Z.to_nat ((number - 1) * limit + Z.of_nat i)
               else None)
        ∧ page_count page = length (page_courses page)
        ∧ (page_pages page - 1) * limit < Z.of_nat (page_total page)
          ≤ page_pages page * limit
        ∧ (page_pages page < number → page_courses page = []).
Proof.
  intros regex_i serves db q code page H Hsafe.
  apply listCourses_ok_inv in H as (query & He & Hq & _ & ->).
  destruct (skipOf_exact q He Hsafe) as (Hcurrent & Hskip & Hnumber).
  rewrite Hskip, Hcurrent. clear Hskip Hcurrent.
  exists query. split; [done|]. intros limit number matches.
  destruct (listErrors_nil_limit q He) as [Hlimit _].
  fold limit in Hlimit, Hsafe. fold number in Hnumber, Hsafe.
  assert (Hmin : maxSkip `min` ((number - 1) * limit) = (number - 1) * limit).
  { unfold maxSkip. nia. }
  assert (Hlen : length matches = length (find query db)).
  { unfold matches. by rewrite (Permutation_length (sortCourses_perm _ _)). }
  pose proof (ceiling_bounds (Z.of_nat (length (find query db))) limit
                ltac:(lia)) as Hceil.
  simpl. fold limit number matches. rewrite Hmin.
  split; [done|]. split; [done|]. split; [done|]. split.
  { intros i. rewrite list_lookup_fmap, lookup_take, lookup_drop.
    destruct (decide (Z.of_nat i < limit));
      [rewrite decide_True by lia|rewrite decide_False by lia; done].
    do 2 f_equal. nia. }
  split; [done|]. split; [done|].
  intros Hbeyond. rewrite drop_ge; [by rewrite take_nil|]. nia.
Qed.

Lemma X15_pages_witness :
  ∃ query,
    listFilter noRegex (pageQuery (Some "3") (Some "5")) = Some query
    ∧ ∃ page,
        listCourses noRegex clampsSkip catalogueDb (pageQuery (Some "3") (Some "5"))
        = Ok 200 page
        ∧ page_currentPage page = Some 3
        ∧ page_total page = 12%nat
        ∧ page_count page = 2%nat
        ∧ (page_pages page - 1) * 5 < 12 ≤ page_pages page * 5.
Proof.
  destruct (X15_pages_partition_the_matches noRegex clampsSkip catalogueDb
              (pageQuery (Some "3") (Some "5")) 200
              (match listCourses noRegex clampsSkip catalogueDb
                       (pageQuery (Some "3") (Some "5")) with
               | Ok _ p => p
               | Err _ _ => mkCoursePage 0 0 0 None []
               end))
    as (query & Hq & _ & Hcur & Htotal & _ & Hcount & Hpages & _).
  - vm_compute. reflexivity.
  - vm_compute. reflexivity.
  - exists query. split; [exact Hq|]. eexists. split; [vm_compute; reflexivity|].
    vm_compute. repeat split; discriminate.
Defined.

(** ** Filters of the course list *)

Section FilterFacts.
Variable regex_i : string → option (string → bool).

Lemma truthy_valid (ok : string → bool) msg field :
  ok "" = false → check_optional ok msg field = [] → truthy field = field.
Proof.
  intros Hok H. destruct field as [[|a s]|]; try done.
  simpl in H. by rewrite Hok in H.
Qed.

Lemma listErrors_nil_truthy q :
  listErrors q = [] →
  truthy (q_category q) = q_category q ∧ truthy (q_level q) = q_level q
  ∧ truthy (q_minPrice q) = q_minPrice q ∧ truthy (q_maxPrice q) = q_maxPrice q.
Proof.
  unfold listErrors. intros H.
  apply app_eq_nil in H as [H1 H]. apply app_eq_nil in H as [H2 H].
  apply app_eq_nil in H as [H3 H]. apply app_eq_nil in H as [H4 H].
  repeat split; eapply truthy_valid; try eassumption; done.
Qed.

Lemma from_option_true {A} (f : A → bool) (o : option A) :
  from_option f true o = true ↔ ∀ v, o = Some v → f v = true.
Proof.
  destruct o as [v|]; simpl.
  - split; [by intros H w [= <-]|auto].
  - split; [done|auto].
Qed.

Lemma existsb_elem (t : string → bool) (l : list string) :
  existsb t l = true ↔ ∃ tag, tag ∈ l ∧ t tag = true.
Proof.
  rewrite existsb_exists. by setoid_rewrite list_elem_of_In.
Qed.

(** The query object asks exactly what the request's filters say. *)
Lemma listFilter_satisfies q query c :
  listErrors q = [] → listFilter regex_i q = Some query →
  query c = true ↔ satisfies q (searchPattern q ≫= regex_i) c.
Proof.
  intros He Hq.
  destruct (listErrors_nil_truthy q He) as (T1 & T2 & T3 & T4).
  unfold listFilter in Hq. rewrite T1, T2, T3, T4 in Hq.
  unfold satisfies, searchPattern.
  assert (Hbase :
    Course.isPublished c
    && from_option (λ v, bool_decide (Course.category c = v)) true (q_category q)
    && from_option (λ v, bool_decide (Course.level c = v)) true (q_level q)
    && from_option (λ v, Qle_bool (parseFloat v) (Course.price c)) true
         (q_minPrice q)
    && from_option (λ v, Qle_bool (Course.price c) (parseFloat v)) true
         (q_maxPrice q) = true
    ↔ Course.isPublished c = true
      ∧ (∀ v, q_category q = Some v → Course.category c = v)
      ∧ (∀ v, q_level q = Some v → Course.level c = v)
      ∧ (∀ v, q_minPrice q = Some v → (parseFloat v <= Course.price c)%Q)
      ∧ (∀ v, q_maxPrice q = Some v → (Course.price c <= parseFloat v)%Q)).
  { rewrite !andb_true_iff, !from_option_true.
    setoid_rewrite bool_decide_eq_true. setoid_rewrite Qle_bool_iff. tauto. }
  destruct (truthy (trim <$> q_search q)) as [pattern|]; simpl.
  - destruct (regex_i pattern) as [test|]; [|done]. simplify_eq.
    rewrite andb_true_iff, Hbase, !orb_true_iff, existsb_elem.
    split.
    + intros [(H1 & H2 & H3 & H4 & H5) Ht]. repeat split; try done.
      intros t [= <-]. tauto.
    + intros (H1 & H2 & H3 & H4 & H5 & Ht). split; [done|].
      specialize (Ht test eq_refl). tauto.
  - simplify_eq. rewrite Hbase.
    split; [intros (?&?&?&?&?); repeat split; try done|tauto].
Qed.
End FilterFacts.

(** X16. The courses of a successful list reply are exactly the stored
    courses that are published and meet every filter of the request
    (category, level, price range and, for a non-empty search, a match
    of the pattern in title, description, instructor or a tag), paged; and
    a search whose pattern does not compile is answered 500. *)
Theorem X16_list_filters_are_exact :
  ∀ regex_i servesHugeSkip db q,
    (∀ code page,
       listCourses regex_i servesHugeSkip db q = Ok code page →
       (∀ d, d ∈ page_courses page →
          ∃ c, courses db !! d.1 = Some c ∧ d = listView (d.1, c)
               ∧ satisfies q (searchPattern q ≫= regex_i) c)
       ∧ ∃ matches,
           page_total page = length matches ∧ NoDup matches
           ∧ ∀ k c, (k, c) ∈ matches
                    ↔ courses db !! k = Some c
                      ∧ satisfies q (searchPattern q ≫= regex_i) c)
    ∧ (∀ pattern,
         listErrors q = [] → searchPattern q = Some pattern →
         regex_i pattern = None →
         listCourses regex_i servesHugeSkip db q
         = Err 500 "Server error while fetching courses").
Proof.
  intros regex_i serves db q. split.
  - intros code page H.
    apply listCourses_ok_inv in H as (query & He & Hq & _ & ->). simpl. split.
    + intros d ([k c] & -> & Hd)%list_elem_of_fmap.
      apply elem_of_page, elem_of_find in Hd as [Hk Hc]. simpl in *.
      exists c. split; [done|]. split; [done|].
      by apply (listFilter_satisfies regex_i q query c He Hq).
    + exists (find query db). split; [done|]. split.
      * apply NoDup_filter, NoDup_map_to_list.
      * intros k c. rewrite elem_of_find. simpl.
        by rewrite (listFilter_satisfies regex_i q query c He Hq).
  - intros pattern He Hs Hr. unfold listCourses, listFilter.
    rewrite He. unfold searchPattern in Hs. rewrite Hs, Hr. done.
Qed.

(** ** The featured and the category listing *)

Section ListingFacts.
Implicit Types (db : DB) (d : ObjectId * Course.t).

Global Instance notOlder_trans : Transitive notOlder.
Proof. unfold notOlder. intros a b c. lia. Qed.

Lemma sortLe_newest a b : sortLe [(ByCreatedAt, true)] a b → notOlder a b.
Proof.
  unfold sortLe, notOlder. simpl. intros H.
  destruct (Course.createdAt a.2 ?= Course.createdAt b.2) eqn:E; simpl in H.
  - apply Z.compare_eq in E. lia.
  - done.
  - apply Z.compare_gt_iff in E. lia.
Qed.

Lemma find_NoDup query db : NoDup (find query db).
Proof. apply NoDup_filter, NoDup_map_to_list. Qed.

Lemma sortCourses_NoDup spec (l : list (ObjectId * Course.t)) :
  NoDup l → NoDup (sortCourses spec l).
Proof. intros H. by rewrite sortCourses_perm. Qed.
End ListingFacts.

(** X17. [getFeatured] returns at most six courses, each once, each
    stored, featured and published, newest first; and a featured,
    published course that it leaves out is left out because six courses
    at least as new were returned. *)
Theorem X17_getFeatured_six_newest :
  ∀ db,
    (length (getFeatured db) ≤ 6)%nat
    ∧ NoDup (getFeatured db)
    ∧ (∀ d, d ∈ getFeatured db →
         courses db !! d.1 = Some d.2
         ∧ Course.isFeatured d.2 = true ∧ Course.isPublished d.2 = true)
    ∧ StronglySorted notOlder (getFeatured db)
    ∧ (∀ k c,
         courses db !! k = Some c →
         Course.isFeatured c = true → Course.isPublished c = true →
         (k, c) ∉ getFeatured db →
         length (getFeatured db) = 6%nat
         ∧ ∀ d, d ∈ getFeatured db →
                Course.createdAt c ≤ Course.createdAt d.2).
Proof.
  intros db. unfold getFeatured.
  set (l := sortCourses [(ByCreatedAt, true)]
              (find (λ c, Course.isFeatured c && Course.isPublished c) db)).
  assert (Hnd : NoDup l) by apply sortCourses_NoDup, find_NoDup.
  assert (Hss : StronglySorted notOlder l).
  { apply Sorted_StronglySorted; [apply _|].
    eapply Sorted_weaken; [|apply sortCourses_sorted]. apply sortLe_newest. }
  assert (Hsplit : l = take 6 l ++ drop 6 l) by (by rewrite take_drop).
  split; [rewrite length_take; lia|].
  split; [rewrite Hsplit in Hnd; by apply NoDup_app in Hnd as [? _]|].
  split.
  { intros d Hd. apply (elem_of_page _ 6 0), elem_of_find in Hd as [Hk Hc].
    apply andb_prop in Hc as [? ?]. done. }
  split; [rewrite Hsplit in Hss; by apply StronglySorted_app_1_l in Hss|].
  intros k c Hk Hf Hp Hout.
  assert (Hin : (k, c) ∈ l).
  { unfold l. rewrite sortCourses_perm, elem_of_find. simpl.
    by rewrite Hf, Hp. }
  rewrite Hsplit, elem_of_app in Hin. destruct Hin as [Hin|Hin]; [done|].
  split.
  - rewrite length_take. apply list_elem_of_lookup in Hin as [i Hi].
    apply lookup_lt_Some in Hi. rewrite length_drop in Hi. lia.
  - intros d Hd. rewrite Hsplit in Hss.
    apply (StronglySorted_app_1_elem_of notOlder _ _ d (k, c) Hss Hd Hin).
Qed.

(** X18. [getByCategory] returns each stored, published course of the
    category exactly once, in this order: a higher rating average first;
    for equal averages the higher rating count first; for equal average
    and count the newer course first. *)
Theorem X18_getByCategory_exact_and_ordered :
  ∀ db category,
    NoDup (getByCategory db category)
    ∧ (∀ k c, (k, c) ∈ getByCategory db category
              ↔ courses db !! k = Some c
                ∧ Course.category c = category
                ∧ Course.isPublished c = true)
    ∧ Sorted (λ a b,
        let ra := Course.rating a.2 in
        let rb := Course.rating b.2 in
        (average rb < average ra)%Q
        ∨ ((average rb == average ra)%Q
           ∧ ((count rb < count ra)%nat
              ∨ (count rb = count ra
                 ∧ Course.createdAt b.2 ≤ Course.createdAt a.2))))
        (getByCategory db category).
Proof.
  intros db category.
  split; [apply sortCourses_NoDup, find_NoDup|].
  split; [intros k c; apply (getByCategory_elem db category (k, c))|].
  eapply Sorted_weaken; [|apply getByCategory_sorted].
  intros a b. unfold sortLe. simpl. unfold compareRating.
  rewrite <- (Qcompare_antisym (average (Course.rating b.2))).
  destruct (average (Course.rating b.2) ?= average (Course.rating a.2))%Q
    eqn:Eavg; simpl.
  - apply (proj2 (Qeq_alt _ _)) in Eavg. intros H. right. split; [done|].
    rewrite (Nat.compare_antisym (count (Course.rating b.2))) in H.
    destruct (count (Course.rating b.2) ?= count (Course.rating a.2))%nat
      eqn:Ecnt; simpl in H.
    + apply Nat.compare_eq in Ecnt. right. split; [done|].
      rewrite (Z.compare_antisym (Course.createdAt b.2)) in H.
      destruct (Course.createdAt b.2 ?= Course.createdAt a.2) eqn:Et;
        simpl in H.
      * apply Z.compare_eq in Et. lia.
      * apply (proj1 (Z.compare_lt_iff _ _)) in Et. lia.
      * by destruct H.
    + apply (proj1 (Nat.compare_lt_iff _ _)) in Ecnt. by left.
    + by destruct H.
  - apply (proj2 (Qlt_alt _ _)) in Eavg. by left.
  - intros H. by destruct H.
Qed.

(** ** Accounts: signup, login, password change *)

Section AccountFacts.
Variables (isEmail : string → bool) (normalizeEmail : string → string)
          (emailMatches : string → bool) (bcrypt_hash : string → string)
          (bcrypt_compare : string → string → bool)
          (jwt_sign : ObjectId → string).
Implicit Types (db : DB) (body : SignupBody).

(** What a successful signup found and what it wrote. *)
Lemma signup_ok_inv db newId now body code reply db' :
  signup isEmail normalizeEmail emailMatches bcrypt_hash jwt_sign
    db newId now body = (Ok code reply, db') →
  ∃ u,
    signupErrors isEmail body = []
    ∧ ¬ Exists (λ d, User.email d.2 = normalizeEmail (body_email body))
          (map_to_list (users db))
    ∧ createUser emailMatches bcrypt_hash (trim (body_name body))
        (normalizeEmail (body_email body)) (body_password body) = Some u
    ∧ users db !! newId = None
    ∧ code = 201
    ∧ reply = mkSignupReply (jwt_sign newId) newId (User.name u) (User.email u)
                student []
    ∧ db' = saveUser db newId (User.updateLastLogin u now).
Proof.
  unfold signup. intros H.
  destruct (signupErrors isEmail body) eqn:He; [|done].
  case_bool_decide as Hex; [done|].
  destruct (createUser _ _ _ _ _) as [u|] eqn:Hu; [|done].
  destruct (users db !! newId) eqn:Hnew; [done|].
  exists u. simplify_eq. repeat split; try done.
  unfold createUser in Hu. case_match; [|done]. by simplify_eq.
Qed.

Lemma signup_err_inv db newId now body code error db' :
  signup isEmail normalizeEmail emailMatches bcrypt_hash jwt_sign
    db newId now body = (Err code error, db') →
  db' = db ∧ (code = 400 ∨ code = 500).
Proof.
  unfold signup. intros H. repeat case_match; simplify_eq; auto.
Qed.

Lemma createUser_fields name email password u :
  createUser emailMatches bcrypt_hash name email password = Some u →
  u = User.mk (trim name) (trim (lowercase email))
        (Some (bcrypt_hash password)) student [] [] true None.
Proof. unfold createUser. case_match; [|done]. by intros [= <-]. Qed.






Lemma findOneByEmail_None db email uid u :
  findOneByEmail db email = None →
  users db !! uid = Some u → User.email u ≠ email.
Proof.
  unfold findOneByEmail. intros H Hu He.
  assert (Hin : (uid, u) ∈ filter (λ d, User.email d.2 = email)
                             (map_to_list (users db))).
  { apply list_elem_of_filter. split; [done|]. by apply elem_of_map_to_list. }
  destruct (filter _ _); [by apply elem_of_nil in Hin|done].
Qed.
End AccountFacts.


(** X20. Signup refuses an email that a stored account already has, with
    400 and no change. When the normalised email is already in the form
    the schema stores (lower case, trimmed), a database in which no two
    accounts share an email stays so. *)
Theorem X20_signup_keeps_emails_unique :
  ∀ isEmail normalizeEmail emailMatches bcrypt_hash jwt_sign
    db newId now body,
    (signupErrors isEmail body = [] →
     ∀ uid u, users db !! uid = Some u →
              User.email u = normalizeEmail (body_email body) →
              signup isEmail normalizeEmail emailMatches bcrypt_hash jwt_sign
                db newId now body
              = (Err 400 "User already exists with this email", db))
    ∧ (trim (lowercase (normalizeEmail (body_email body)))
       = normalizeEmail (body_email body) →
       uniqueEmails db →
       uniqueEmails
         (signup isEmail normalizeEmail emailMatches bcrypt_hash jwt_sign
            db newId now body).2).
Proof.
  intros isEmail normalizeEmail emailMatches bcrypt_hash jwt_sign
    db newId now body. split.
  - intros He uid u Hu Hemail. unfold signup. rewrite He.
    rewrite bool_decide_eq_true_2; [done|].
    apply Exists_exists. exists (uid, u). split; [|done].
    by apply elem_of_map_to_list.
  - intros Hcanon Hdb.
    destruct (signup _ _ _ _ _ db newId now body)
      as [[code reply|code error] db'] eqn:Hr; simpl.
    2: { by apply signup_err_inv in Hr as [-> _]. }
    apply signup_ok_inv in Hr as (u & _ & Hnone & Hu & Hnew & _ & _ & ->).
    apply createUser_fields in Hu as ->.
    assert (Hfresh : ∀ k v, users db !! k = Some v →
                       User.email v ≠ normalizeEmail (body_email body)).
    { intros k v Hk Hv. apply Hnone, Exists_exists. exists (k, v).
      split; [by apply elem_of_map_to_list|done]. }
    intros k1 u1 k2 u2 H1 H2 He. simpl in H1, H2.
    apply lookup_insert_Some in H1 as [[<- <-]|[Hn1 H1]];
      apply lookup_insert_Some in H2 as [[<- <-]|[Hn2 H2]]; simpl in He.
    + done.
    + rewrite Hcanon in He. symmetry in He. by apply Hfresh in H2.
    + rewrite Hcanon in He. by apply Hfresh in H1.
    + by apply (Hdb k1 u1 k2 u2).
Qed.


Section TokenFacts.
Lemma split_space_no_space (t : string) :
  has_space t = false → split_space t = [t].
Proof.
  induction t as [|a t IH]; [done|]. simpl.
  destruct (Ascii.eqb a " "); [done|]. simpl. intros Ht. by rewrite IH.
Qed.

(** The token of the header [Bearer <token>]. *)
Lemma split_space_bearer (t : string) :
  has_space t = false → split_space ("Bearer " +:+ t) !! 1%nat = Some t.
Proof.
  intros Ht. change ("Bearer " +:+ t)
    with (String "B" (String "e" (String "a" (String "r" (String "e"
            (String "r" (String " " t))))))).
  simpl. by rewrite split_space_no_space.
Qed.

End TokenFacts.



(** X23. The token that signup returns authenticates the new account:
    when [jwt.verify] accepts what [jwt.sign] signed and the token holds
    no space, [protect] lets the header [Bearer <token>] through on the
    database signup left, as the new account, a student, without its
    password hash. *)
Theorem X23_signup_token_passes_protect :
  ∀ isEmail normalizeEmail emailMatches bcrypt_hash jwt_sign jwt_verify
    db newId now body code reply db',
    signup isEmail normalizeEmail emailMatches bcrypt_hash jwt_sign
      db newId now body = (Ok code reply, db') →
    jwt_verify (jwt_sign newId) = Some newId →
    has_space (jwt_sign newId) = false →
    ∃ u,
      users db' !! newId = Some u
      ∧ protect jwt_verify db' (Some ("Bearer " +:+ reply_token reply))
        = Next (mkReqUser newId (withoutPassword u))
      ∧ User.role (withoutPassword u) = student
      ∧ User.password (withoutPassword u) = None.
Proof.
  intros isEmail normalizeEmail emailMatches bcrypt_hash jwt_sign jwt_verify
    db newId now body code reply db' H Hverify Hspace.
  apply signup_ok_inv in H as (u & _ & _ & Hu & _ & _ & -> & ->).
  apply createUser_fields in Hu as ->.
  eexists. split; [simpl; apply lookup_insert_eq|].
  unfold protect, decodeHeader. simpl reply_token.
  rewrite (split_space_bearer _ Hspace). simpl. rewrite Hverify.
  rewrite lookup_insert_eq. done.
Qed.

Lemma X23_signup_token_witness :
  let db' := (signup has_at lowercase has_at sampleHash sampleSign
                sampleDb malloryId 99 malloryBody).2 in
  ∃ u,
    users db' !! malloryId = Some u
    ∧ protect signedVerify db' (Some ("Bearer " +:+ sampleSign malloryId))
      = Next (mkReqUser malloryId (withoutPassword u))
    ∧ User.role (withoutPassword u) = student
    ∧ User.password (withoutPassword u) = None.
Proof.
  apply (X23_signup_token_passes_protect has_at lowercase has_at sampleHash
           sampleSign signedVerify sampleDb malloryId 99 malloryBody 201
           (mkSignupReply (sampleSign malloryId) malloryId "Mallory"
              "mallory@example.com" student [])).
  - vm_compute. reflexivity.
  - reflexivity.
  - reflexivity.
Defined.

(** The schema's [minlength] counts no fewer characters than [isLength]
    does, so a password that passed the route is not rejected by the
    save. *)
Lemma codePoints_jsLength (s : string) : (codePoints s ≤ jsLength s)%nat.
Proof.
  induction s as [|a s IH]; cbn [codePoints jsLength]; [done|].
  destruct (is_continuation a); [done|].
  destruct (240 <=? nat_of_ascii a)%nat; lia.
Qed.

(** X24. The password change touches nothing but the password of the
    caller's account. It answers 401 and changes nothing when the current
    password does not match the stored hash; it answers 200 only when it
    matches and the new password has six characters or more (code
    points, variation selectors not counted, as [isLength] counts; so
    six UTF-16 units or more, as the schema asks), and then stores the
    hash of the new password, or keeps the stored hash when the new
    password is that very string. *)
Theorem X24_changePassword_outcomes :
  ∀ bcrypt_hash bcrypt_compare db user currentPassword newPassword,
    let r := changePassword bcrypt_hash bcrypt_compare db user
               currentPassword newPassword in
    courses r.2 = courses db
    ∧ (∀ uid, uid ≠ id user → users r.2 !! uid = users db !! uid)
    ∧ match r.1 with
      | Ok code _ =>
        code = 200
        ∧ currentPassword ≠ ""
        ∧ (6 ≤ codePoints newPassword - variationSelectors newPassword)%nat
        ∧ (6 ≤ jsLength newPassword)%nat
        ∧ ∃ u hash,
            users db !! id user = Some u
            ∧ User.password u = Some hash
            ∧ bcrypt_compare currentPassword hash = true
            ∧ users r.2 !! id user
              = Some (User.set_password u
                        (Some (if decide (newPassword = hash) then hash
                               else bcrypt_hash newPassword)))
      | Err code error =>
        r.2 = db
        ∧ (passwordErrors currentPassword newPassword = [] →
           ∀ u hash, users db !! id user = Some u →
                     User.password u = Some hash →
                     bcrypt_compare currentPassword hash = false
                     ∧ code = 401 ∧ error = "Current password is incorrect")
      end.
Proof.
  intros bcrypt_hash bcrypt_compare db user cur new r. unfold r, changePassword.
  destruct (passwordErrors cur new) eqn:He; [|by simpl].
  destruct (users db !! id user) as [u|] eqn:Hu;
    [|simpl; repeat split; try done; intros; simplify_eq].
  destruct (User.password u) as [hash|] eqn:Hp;
    [|simpl; repeat split; try done; intros; simplify_eq].
  destruct (bcrypt_compare cur hash) eqn:Hc; simpl.
  - split; [done|]. split; [intros uid Hne; by rewrite lookup_insert_ne|].
    split; [done|].
    assert (Hlen : (6 ≤ codePoints new - variationSelectors new)%nat).
    { unfold passwordErrors in He. apply app_eq_nil in He as [_ He].
      unfold isLength in He. case_bool_decide; [done|by simpl in He]. }
    split.
    { unfold passwordErrors in He. apply app_eq_nil in He as [He _].
      by destruct (decide (cur = "")). }
    split; [done|]. split.
    { pose proof (codePoints_jsLength new). lia. }
    exists u, hash. rewrite lookup_insert_eq. repeat split; try done.
    f_equal. destruct (decide (new = hash)); [|done].
    destruct u; simpl in *. by rewrite Hp.
  - split; [done|]. split; [done|]. split; [done|].
    intros _ u0 hash0 [= <-] Hp0. rewrite Hp in Hp0. by simplify_eq.
Qed.


(** ** The course router *)

Section RouterFacts.
Lemma head_filter_Some {A} (P : A → Prop) `{∀ x, Decision (P x)} l x :
  head (filter P l) = Some x → P x ∧ x ∈ l.
Proof.
  intros H0. apply (proj1 (list_elem_of_filter P l x)).
  destruct (filter P l); simpl in H0; simplify_eq. apply list_elem_of_here.
Qed.

(** A matching route hides every later route. *)
Lemma head_filter_hidden {A} (P : A → Prop) `{∀ x, Decision (P x)} l1 y l2 x :
  P y → head (filter P (l1 ++ y :: l2)) = Some x → x ∈ l1 ∨ x = y.
Proof.
  intros Hy. rewrite filter_app, filter_cons_True by done.
  destruct (filter P l1) as [|z l] eqn:E; simpl; intros [= <-]; [by right|].
  left. assert (Hz : z ∈ filter P l1) by (rewrite E; apply list_elem_of_here).
  by apply (proj1 (list_elem_of_filter P l1 z)) in Hz as [_ ?].
Qed.

Lemma dispatch_Some m path h :
  dispatch m path = Some h →
  ∃ pattern, (m, pattern, h) ∈ courseRoutes ∧ matchPath pattern path = true
             ∧ head (filter (λ r, r.1.1 = m ∧ matchPath r.1.2 path = true)
                       courseRoutes) = Some (m, pattern, h).
Proof.
  unfold dispatch. intros H.
  destruct (head _) as [[[m' pattern] h']|] eqn:E; simpl in H; simplify_eq.
  pose proof (head_filter_Some _ _ _ E) as [[Hm Hp] Hin]. simpl in Hm, Hp.
  subst m'. exists pattern. by repeat split.
Qed.

(** A one-segment GET request that a literal route would match is taken
    by [/:id]. *)
Lemma literal_hidden_by_id m path l h :
  (m, [Lit l], h) ∈ courseRoutes → m = GET → l ≠ "" →
  h ≠ GetCourse → h ≠ ListCourses →
  dispatch m path ≠ Some h ∨ matchPath [Lit l] path = false.
Proof.
  intros Hin -> Hl Hh1 Hh2.
  destruct (matchPath [Lit l] path) eqn:Hmatch; [left|by right].
  intros (pattern & _ & _ & Hhead)%dispatch_Some.
  assert (Hid : matchPath [Param] path = true).
  { destruct path as [|s [|s2 rest]]; simpl in *; [done| |].
    - rewrite andb_true_r in *. apply String.eqb_eq in Hmatch.
      destruct s as [|a s]; [|done]. by destruct l.
    - by rewrite andb_false_r in Hmatch. }
  change courseRoutes
    with ([(GET, [], ListCourses)] ++ (GET, [Param], GetCourse)
            :: drop 2 courseRoutes) in Hhead.
  apply head_filter_hidden in Hhead as [Hx|Hx]; [| |done].
  - apply list_elem_of_singleton in Hx. by simplify_eq.
  - by simplify_eq.
Qed.
End RouterFacts.

(** X25. The handlers of [GET /featured] and [GET /enrolled] never run:
    the route [GET /:id] is registered before them and takes every GET
    request of one segment, so both paths are answered by the
    single-course handler, which answers 500 when the segment is not an
    ObjectId. Every other handler of the router is reached by some
    request. *)
Theorem X25_featured_and_enrolled_are_shadowed :
  (∀ m path,
     dispatch m path ≠ Some GetFeatured ∧ dispatch m path ≠ Some GetEnrolled)
  ∧ (∀ s, s ≠ "" → dispatch GET [s] = Some GetCourse)
  ∧ dispatch GET ["featured"] = Some GetCourse
  ∧ dispatch GET ["enrolled"] = Some GetCourse
  ∧ (∀ jwt_verify castObjectId db authorization s,
       castObjectId s = None →
       getCourse jwt_verify castObjectId db authorization s
       = Err 500 "Server error while fetching course")
  ∧ (∀ h, h ≠ GetFeatured → h ≠ GetEnrolled → ∃ m path, dispatch m path = Some h).
Proof.
  split; [|split; [|split; [|split; [|split]]]].
  - intros m path.
    assert (Hshadow : ∀ l h, (GET, [Lit l], h) ∈ courseRoutes → l ≠ "" →
              h ≠ GetCourse → h ≠ ListCourses →
              (∀ pattern, (m, pattern, h) ∈ courseRoutes →
                          m = GET ∧ pattern = [Lit l]) →
              dispatch m path ≠ Some h).
    { intros l h Hin Hl Hh1 Hh2 Honly Hd.
      pose proof Hd as (pattern & Hroute & Hmatch & _)%dispatch_Some.
      destruct (Honly pattern Hroute) as [-> ->].
      destruct (literal_hidden_by_id GET path l h Hin eq_refl Hl Hh1 Hh2);
        [done|congruence]. }
    split.
    + apply (Hshadow "featured"); try done.
      * unfold courseRoutes. do 9 apply list_elem_of_further.
        apply list_elem_of_here.
      * intros pattern Hin. unfold courseRoutes in Hin.
        repeat (apply elem_of_cons in Hin as [Hin|Hin]; [by simplify_eq|]).
        by apply elem_of_nil in Hin.
    + apply (Hshadow "enrolled"); try done.
      * unfold courseRoutes. do 7 apply list_elem_of_further.
        apply list_elem_of_here.
      * intros pattern Hin. unfold courseRoutes in Hin.
        repeat (apply elem_of_cons in Hin as [Hin|Hin]; [by simplify_eq|]).
        by apply elem_of_nil in Hin.
  - intros s Hs. unfold dispatch, courseRoutes.
    rewrite filter_cons_False by (simpl; intros [_ ?]; done).
    rewrite filter_cons_True; [done|]. simpl. split; [done|].
    destruct s; done.
  - by vm_compute.
  - by vm_compute.
  - intros jwt_verify castObjectId db authorization s Hs.
    unfold getCourse. by rewrite Hs.
  - intros h Hf He. destruct h; try done.
    + exists GET, []. by vm_compute.
    + exists GET, ["65f0000000000000000000c1"]. by vm_compute.
    + exists POST, []. by vm_compute.
    + exists PUT, ["65f0000000000000000000c1"]. by vm_compute.
    + exists DELETE, ["65f0000000000000000000c1"]. by vm_compute.
    + exists POST, ["65f0000000000000000000c1"; "enroll"]. by vm_compute.
    + exists DELETE, ["65f0000000000000000000c1"; "enroll"]. by vm_compute.
    + exists POST, ["65f0000000000000000000c1"; "reviews"]. by vm_compute.
    + exists GET, ["category"; "Design"]. by vm_compute.
    + exists POST, ["65f0000000000000000000c1"; "complete"]. by vm_compute.
    + exists GET, ["65f0000000000000000000c1"; "stats"]. by vm_compute.
Qed.

(** ** One course and the caller's courses *)

(** X26. [GET /:id] answers 200 only with a stored, published course,
    the one that the parameter casts to: a missing or unpublished course
    is answered 404 whoever asks, and a parameter that is not an ObjectId
    500. [isEnrolled] is true exactly when [optionalAuth] attached a
    caller whom the course lists, so it is false for a request without a
    usable token. *)
Theorem X26_getCourse_shows_published_only :
  ∀ jwt_verify castObjectId db authorization param,
    match getCourse jwt_verify castObjectId db authorization param with
    | Ok code view =>
      code = 200
      ∧ (∃ courseId,
           castObjectId param = Some courseId
           ∧ courses db !! courseId = Some (view_course view))
      ∧ Course.isPublished (view_course view) = true
      ∧ (view_isEnrolled view = true
         ↔ ∃ user, optionalAuth jwt_verify db authorization = Some user
                   ∧ id user ∈ Course.enrolledStudents (view_course view))
      ∧ length (view_reviewers view) = length (Course.reviews (view_course view))
    | Err code _ =>
      (code = 500 ∧ castObjectId param = None)
      ∨ (code = 404
         ∧ ∃ courseId,
             castObjectId param = Some courseId
             ∧ ∀ c, courses db !! courseId = Some c →
                    Course.isPublished c = false)
    end.
Proof.
  intros jwt_verify castObjectId db authorization param. unfold getCourse.
  destruct (castObjectId param) as [cid|]; simpl; [|by left].
  destruct (courses db !! cid) as [c|] eqn:Hc.
  2: { right. split; [done|]. exists cid. split; [done|].
       intros c0 H0. by rewrite Hc in H0. }
  destruct (Course.isPublished c) eqn:Hp; simpl.
  2: { right. split; [done|]. exists cid. split; [done|].
       intros c0 H0. rewrite Hc in H0. by simplify_eq. }
  split; [done|]. split; [by exists cid|]. split; [done|]. split.
  - destruct (optionalAuth jwt_verify db authorization) as [u|].
    + rewrite bool_decide_eq_true. split; [intros H; by exists u|].
      by intros (u' & [= <-] & H).
    + split; [done|]. by intros (u' & H & _).
  - by rewrite length_fmap.
Qed.

Lemma X26_getCourse_witness :
  (∃ view,
     getCourse sampleVerify sampleCast sampleDb None "65F0000000000000000000C1"
     = Ok 200 view
     ∧ courses sampleDb !! jsCourseId = Some (view_course view)
     ∧ view_isEnrolled view = false)
  ∧ getCourse sampleVerify sampleCast sampleDb None "featured"
    = Err 500 "Server error while fetching course".
Proof.
  split; [|reflexivity].
  pose proof (X26_getCourse_shows_published_only sampleVerify sampleCast
                sampleDb None "65F0000000000000000000C1") as H.
  destruct (getCourse sampleVerify sampleCast sampleDb None
              "65F0000000000000000000C1") as [code view|code msg] eqn:E;
    [|vm_compute in E; discriminate].
  destruct H as (-> & (cid & Hcast & Hc) & _ & Henrolled & _).
  exists view. split; [done|]. split.
  - vm_compute in Hcast. injection Hcast as <-. exact Hc.
  - destruct (view_isEnrolled view); [|done].
    destruct (proj1 Henrolled eq_refl) as (u & Hu & _). discriminate.
Defined.

Lemma omap_length_le {A B} (f : A → option B) (l : list A) :
  (length (omap f l) ≤ length l)%nat.
Proof.
  induction l as [|x l IH]; [done|]. cbn. destruct (f x); cbn in *; lia.
Qed.

(** X27. For a caller whose account is stored, the enrolled listing
    answers 200 with the stored courses that the account lists, as list
    views, and with no more entries than the account lists. When both
    sides of the relation agree these are exactly the stored courses
    that list the caller, and right after a successful enroll the course
    is among them. *)
Theorem X27_getEnrolled_lists_the_callers_courses :
  ∀ db user u,
    users db !! id user = Some u →
    ∃ l,
      getEnrolled db user = Ok 200 l
      ∧ (length l ≤ length (User.enrolledCourses u))%nat
      ∧ (∀ cid c, listView (cid, c) ∈ l ∧ courses db !! cid = Some c
                  ↔ cid ∈ User.enrolledCourses u ∧ courses db !! cid = Some c)
      ∧ (consistent db →
         ∀ cid c, courses db !! cid = Some c →
                  (listView (cid, c) ∈ l ↔ id user ∈ Course.enrolledStudents c))
      ∧ (∀ cid code p,
           (enroll db cid user).1 = Ok code p →
           ∃ l' c',
             getEnrolled (enroll db cid user).2 user = Ok 200 l'
             ∧ courses (enroll db cid user).2 !! cid = Some c'
             ∧ listView (cid, c') ∈ l').
Proof.
  intros db user u Hu. unfold getEnrolled at 1. rewrite Hu. eexists.
  split; [reflexivity|].
  assert (Hl : ∀ db0 (u0 : User.t) cid c,
            listView (cid, c)
              ∈ omap (λ k, (λ c0, listView (k, c0)) <$> courses db0 !! k)
                  (User.enrolledCourses u0)
            ∧ courses db0 !! cid = Some c
            ↔ cid ∈ User.enrolledCourses u0 ∧ courses db0 !! cid = Some c).
  { intros db0 u0 cid c. rewrite list_elem_of_omap. split.
    - intros [(k & Hk & Hview) Hc]. split; [|done].
      destruct (courses db0 !! k) as [c0|]; simpl in Hview; [|done].
      unfold listView in Hview. simpl in Hview.
      injection Hview as Hk' _. by subst k.
    - intros [Hin Hc]. split; [|done]. exists cid. split; [done|].
      by rewrite Hc. }
  split; [apply omap_length_le|]. split; [apply Hl|]. split.
  - intros Hdb cid c Hc. pose proof (Hdb (id user) u Hu cid c Hc) as Hboth.
    simpl in Hboth. specialize (Hl db u cid c). tauto.
  - intros cid code p Hok.
    destruct (enroll db cid user) as [r db'] eqn:He. simpl in Hok. subst r.
    apply enroll_ok_inv in He as (c & a & Hc & _ & _ & Ha & _ & ->).
    unfold getEnrolled. simpl. rewrite lookup_insert_eq.
    eexists _, _. split; [reflexivity|]. split; [apply lookup_insert_eq|].
    apply list_elem_of_omap. exists cid. split.
    + apply enrollInCourse_elem. by left.
    + by rewrite lookup_insert_eq.
Qed.

Lemma X27_getEnrolled_witness :
  ∃ l,
    getEnrolled enrolledDb (asReqUser demoId demoUser) = Ok 200 l
    ∧ (length l ≤ 1)%nat
    ∧ listView (jsCourseId, Course.set_enrolledStudents jsCourse [demoId]) ∈ l.
Proof.
  destruct (X27_getEnrolled_lists_the_callers_courses enrolledDb
              (asReqUser demoId demoUser)
              (User.set_enrolledCourses demoUser [jsCourseId]) eq_refl)
    as (l & Hl & Hlen & Helem & _).
  exists l. split; [exact Hl|]. split; [exact Hlen|].
  apply (Helem jsCourseId (Course.set_enrolledStudents jsCourse [demoId])).
  split; [apply list_elem_of_here|reflexivity].
Defined.

(** ** The seed script *)

(** X28. The seed gives every course an owner as soon as one account was
    created: with at least one instructor the owners are instructors,
    taken in turn (the course at [index] gets instructor number
    [index mod n] of [n]); with none, every course gets the first
    account. *)
Theorem X28_seed_gives_every_course_an_owner :
  ∀ (users : list (ObjectId * User.t)) (index : nat),
    let instructors := filter (λ d, User.role d.2 = instructor) users in
    (users ≠ [] → is_Some (assignInstructor users index))
    ∧ (instructors ≠ [] →
       assignInstructor users index
       = fst <$> instructors !! (index mod length instructors)%nat
       ∧ ∃ d, d ∈ users ∧ User.role d.2 = instructor
              ∧ assignInstructor users index = Some d.1)
    ∧ (instructors ≠ [] →
       assignInstructor users (index + length instructors)
       = assignInstructor users index)
    ∧ (instructors = [] → assignInstructor users index = fst <$> head users).
Proof.
  intros users index instructors.
  assert (Hround : instructors ≠ [] →
            ∃ d, instructors !! (index mod length instructors)%nat = Some d
                 ∧ assignInstructor users index = Some d.1).
  { intros Hne. unfold assignInstructor. fold instructors.
    destruct instructors as [|d0 l] eqn:E; [done|].
    destruct ((d0 :: l) !! (index mod length (d0 :: l))%nat) as [d|] eqn:Hd.
    - by exists d.
    - apply lookup_ge_None in Hd.
      pose proof (Nat.mod_upper_bound index (length (d0 :: l))) as Hb.
      simpl in *. lia. }
  split; [|split; [|split]].
  - intros Hne. destruct (decide (instructors = [])) as [E|E].
    + unfold assignInstructor. fold instructors. rewrite E.
      destruct users; [done|]. by eexists.
    + destruct (Hround E) as (d & _ & ->). by eexists.
  - intros Hne. destruct (Hround Hne) as (d & Hd & ->).
    split; [by rewrite Hd|]. exists d.
    apply list_elem_of_lookup_2 in Hd.
    apply (proj1 (list_elem_of_filter _ _ _)) in Hd as [Hr Hin]. done.
  - intros Hne. unfold assignInstructor. fold instructors.
    destruct instructors as [|d0 l] eqn:E; [done|].
    replace ((index + length (d0 :: l)) mod length (d0 :: l))%nat
      with (index mod length (d0 :: l))%nat; [done|].
    rewrite <- (Nat.Div0.add_mod_idemp_r index), Nat.Div0.mod_same, Nat.add_0_r.
    done.
  - intros E. unfold assignInstructor. fold instructors. by rewrite E.
Qed.

(** ** Creating a course *)

Lemma createCourseDoc_fields toLowerCase body owner now c :
  createCourseDoc toLowerCase body owner now = Some c →
  Course.instructorId c = Some owner
  ∧ Course.rating c
    = mkRating (default 0%Q (cb_average body)) (default 0%nat (cb_count body))
  ∧ length (Course.reviews c) = length (default [] (cb_reviews body))
  ∧ Course.isPublished c = default true (cb_isPublished body)
  ∧ Course.enrolledStudents c = default [] (cb_enrolledStudents body)
  ∧ Course.price c = from_option parseFloat 0%Q (cb_price body)
  ∧ Qle_bool 0 (Course.price c) = true.
Proof.
  unfold createCourseDoc. intros H.
  destruct (mapM (createReview now) (default [] (cb_reviews body)))
    as [reviews|] eqn:Hr; [|done].
  simpl in H. case_match eqn:Hv; [|done]. simplify_eq. simpl.
  apply length_mapM in Hr.
  repeat (apply andb_prop in Hv as [Hv ?]). done.
Qed.

Lemma createCourse_ignores_owner toLowerCase db newId now user body owner :
  createCourse toLowerCase db newId now user
    (mkCourseBody (cb_title body) (cb_description body) (cb_instructor body)
       (cb_category body) (cb_level body) (cb_price body) owner
       (cb_tags body) (cb_enrolledStudents body) (cb_average body)
       (cb_count body) (cb_reviews body) (cb_isPublished body)
       (cb_isFeatured body) (cb_createdAt body))
  = createCourse toLowerCase db newId now user body.
Proof. by destruct body. Qed.

(** X29 (POST /api/courses). The route writes at most one document: it
    leaves the accounts and every stored course as they are. A 201
    answer stores the answered course under the new identifier, owned by
    the caller whatever owner the body names, with a price that is not
    negative; the rating is the one the body names (0/0 when it names
    none), not one computed from the reviews, and the reviews are as
    many as the body gives. Every other answer is 400 or 500 and leaves
    the database unchanged, and a body that passes the route's checks
    with a negative price is answered 500. The creator then passes the
    ownership check of the delete route, and an instructor who is not
    the creator is answered 403 there. *)
Theorem X29_createCourse_owned_by_caller (toLowerCase : string → string)
    (db : DB) (newId : ObjectId) (now : Z) (user other : ReqUser)
    (body : CourseBody) :
  let r := createCourse toLowerCase db newId now user body in
  users r.2 = users db
  ∧ (∀ cid c, courses db !! cid = Some c → courses r.2 !! cid = Some c)
  ∧ match r.1 with
    | Ok code c =>
        code = 201%Z
        ∧ courses db !! newId = None
        ∧ courses r.2 = <[newId := c]> (courses db)
        ∧ Course.instructorId c = Some (id user)
        ∧ Course.rating c
          = mkRating (default 0%Q (cb_average body))
              (default 0%nat (cb_count body))
        ∧ length (Course.reviews c) = length (default [] (cb_reviews body))
        ∧ Qle_bool 0 (Course.price c) = true
        ∧ (deleteCourse r.2 newId user).1 = Ok 200 ()
        ∧ (id other ≠ id user → User.role (account other) = instructor →
           deleteCourse r.2 newId other
           = (Err 403 "Not authorized to delete this course", r.2))
    | Err code _ => r.2 = db ∧ (code = 400%Z ∨ code = 500%Z)
    end
  ∧ (∀ owner,
       createCourse toLowerCase db newId now user
         (mkCourseBody (cb_title body) (cb_description body)
            (cb_instructor body) (cb_category body) (cb_level body)
            (cb_price body) owner (cb_tags body)
            (cb_enrolledStudents body) (cb_average body) (cb_count body)
            (cb_reviews body) (cb_isPublished body) (cb_isFeatured body)
            (cb_createdAt body)) = r)
  ∧ (createErrors body = [] →
     (∃ p, cb_price body = Some p ∧ Qle_bool 0 (parseFloat p) = false) →
     r = (Err 500 "Server error while creating course", db)).
Proof.
  intros r. subst r. split; [|split; [|split; [|split]]].
  - unfold createCourse. by repeat case_match.
  - intros cid c0 H0. unfold createCourse.
    repeat case_match; simpl; try done.
    rewrite lookup_insert_ne; [done|]. congruence.
  - unfold createCourse.
    destruct (createErrors body) as [|e errors] eqn:He; [|simpl; by auto].
    destruct (createCourseDoc toLowerCase body (id user) now) as [c|] eqn:Hc;
      [|simpl; by auto].
    destruct (courses db !! newId) eqn:Hn; simpl; [by auto|].
    destruct (createCourseDoc_fields _ _ _ _ _ Hc)
      as (Ho & Hr & Hv & _ & _ & _ & Hp).
    do 7 (split; [done|]).
    unfold deleteCourse. simpl. rewrite lookup_insert_eq, Ho. split.
    + rewrite bool_decide_eq_false_2; [done|]. by intros [].
    + intros Hne Hrole.
      rewrite bool_decide_eq_true_2 by congruence.
      rewrite bool_decide_eq_true_2; [done|]. by rewrite Hrole.
  - intros owner. apply createCourse_ignores_owner.
  - intros He (p & Hp & Hneg). unfold createCourse. rewrite He.
    destruct (createCourseDoc toLowerCase body (id user) now) as [c|] eqn:Hc; [|done].
    apply createCourseDoc_fields in Hc as (_ & _ & _ & _ & _ & Hc & Hprice).
    rewrite Hc, Hp in Hprice. simpl in Hprice. congruence.
Qed.

Lemma X29_createCourse_witness :
  (∃ c, (createCourse lowercase sampleDb designCourseId 4000
           (asReqUser janeId janeDoe) designBody).1 = Ok 201 c
        ∧ Course.instructorId c = Some janeId
        ∧ Course.rating c = mkRating 5 0
        ∧ length (Course.reviews c) = 0%nat)
  ∧ (deleteCourse
       (createCourse lowercase sampleDb designCourseId 4000
          (asReqUser janeId janeDoe) designBody).2
       designCourseId (asReqUser johnId johnSmith)).1
    = Err 403 "Not authorized to delete this course".
Proof.
  pose proof (X29_createCourse_owned_by_caller lowercase sampleDb designCourseId 4000
                (asReqUser janeId janeDoe) (asReqUser johnId johnSmith)
                designBody) as (_ & _ & H & _).
  destruct (createCourse lowercase sampleDb designCourseId 4000
              (asReqUser janeId janeDoe) designBody) as [[code c|code msg] db']
    eqn:E; [|vm_compute in E; discriminate].
  simpl in H. destruct H as (-> & _ & _ & Ho & Hr & Hv & _ & _ & Hd).
  split; [by exists c|]. simpl. rewrite Hd; [done| |done].
  vm_compute. discriminate.
Defined.
